(** * Document processing service: conversion engine and LLM extraction layer

    A shallow embedding of [app/conversion_service.py] (class
    [ConversionService]) and [app/llm_service.py] (class [LLMService]),
    and the properties of the two that the design document states;
    then [LLMService.__init__], the extraction endpoint of [app/main.py]
    up to its call of the service, and further properties that the code
    of the two services shows.

    Conventions of the embedding.

    - A Python [str] is the list of its code points ([pystr]); [bytes] is a
      list of [Byte.byte].
    - An exception is a value ([exn]) with its class and the text [str(e)]
      returns.  Code that can raise returns a [result]; code that also
      talks to the operating system, to a third-party extractor or to the
      model provider runs in the monad [M], which records every such call
      in a trace.  What the outside world answers is read from a record
      [Env]; what the Python runtime and the libraries compute, and this
      development does not recompute (float printing, pathlib's
      normalisation, the wording of diagnostics), is read from a record
      [Host].
    - The handlers of the source are kept: a [try]/[except C] is
      [try_except] with the class test [catches [C]].  Every fault of the
      model is an instance of [Exception]; interpreter signals outside that
      class ([KeyboardInterrupt], [SystemExit]) are not modelled.
    - Calls to [logger] produce diagnostics only and are left out. *)

From Stdlib Require Import String Ascii DecimalString.
From Stdlib Require Import Strings.Byte.
From Stdlib Require Import NArith ZArith QArith Bool Lia List.
Import ListNotations.

Set Implicit Arguments.

(* ================================================================== *)
(** * Python values: strings, exceptions, results *)
(* ================================================================== *)

(** A [str]: its code points, in order. *)
Definition pystr : Type := list N.

(** The [str] written as an ASCII literal. *)
Definition py (s : string) : pystr :=
  List.map N_of_ascii (list_ascii_of_string s).

Definition pystr_eqb (a b : pystr) : bool :=
  if list_eq_dec N.eq_dec a b then true else false.

(** The exception classes the two services raise, catch or can receive. *)
Inductive exn_class : Type :=
| FileNotFoundError | PermissionError | OSError
| TimeoutExpired | SubprocessError
| UnicodeDecodeError | UnicodeEncodeError | UnicodeError
| JSONDecodeError | ValidationError | ValueError
| RecursionError | RuntimeError
| ModuleNotFoundError | ImportError
| KeyError | IndexError | LookupError
| TypeError | AttributeError
| ProviderError
| Exception.

Definition exn_class_eqb (a b : exn_class) : bool :=
  match a, b with
  | FileNotFoundError, FileNotFoundError | PermissionError, PermissionError
  | OSError, OSError | TimeoutExpired, TimeoutExpired
  | SubprocessError, SubprocessError
  | UnicodeDecodeError, UnicodeDecodeError
  | UnicodeEncodeError, UnicodeEncodeError | UnicodeError, UnicodeError
  | JSONDecodeError, JSONDecodeError | ValidationError, ValidationError
  | ValueError, ValueError | RecursionError, RecursionError
  | RuntimeError, RuntimeError | ModuleNotFoundError, ModuleNotFoundError
  | ImportError, ImportError | KeyError, KeyError | IndexError, IndexError
  | LookupError, LookupError | TypeError, TypeError
  | AttributeError, AttributeError | ProviderError, ProviderError
  | Exception, Exception => true
  | _, _ => false
  end.

(** The direct base class ([pydantic.ValidationError] and
    [json.JSONDecodeError] derive from [ValueError]). *)
Definition base_class (c : exn_class) : option exn_class :=
  match c with
  | FileNotFoundError | PermissionError => Some OSError
  | TimeoutExpired => Some SubprocessError
  | UnicodeDecodeError | UnicodeEncodeError => Some UnicodeError
  | UnicodeError | JSONDecodeError | ValidationError => Some ValueError
  | RecursionError => Some RuntimeError
  | ModuleNotFoundError => Some ImportError
  | KeyError | IndexError => Some LookupError
  | OSError | SubprocessError | ValueError | RuntimeError | ImportError
  | LookupError | TypeError | AttributeError | ProviderError => Some Exception
  | Exception => None
  end.

Fixpoint issubclass_upto (n : nat) (c b : exn_class) : bool :=
  exn_class_eqb c b ||
  match n with
  | O => false
  | S n' => match base_class c with
            | Some p => issubclass_upto n' p b
            | None => false
            end
  end.

(** [issubclass(c, b)]; no chain of bases is longer than four. *)
Definition issubclass (c b : exn_class) : bool := issubclass_upto 4 c b.

Record exn : Type := Exn { exn_type : exn_class; exn_text : pystr }.

(** [except (b1, b2, ...)] matches [e]. *)
Definition catches (bases : list exn_class) (e : exn) : bool :=
  existsb (issubclass (exn_type e)) bases.

Inductive result (A : Type) : Type :=
| Ok (a : A)
| Raise (e : exn).
Arguments Raise {A} e.

Definition rbind {A B : Type} (r : result A) (k : A -> result B) : result B :=
  match r with
  | Ok a => k a
  | Raise e => Raise e
  end.

Declare Scope py_scope.
Delimit Scope py_scope with py_scope.
Notation "x <-! c ;; k" := (rbind c (fun x => k))
  (at level 61, c at next level, right associativity) : py_scope.
Notation "c ;;! k" := (rbind c (fun _ => k))
  (at level 61, right associativity) : py_scope.
Open Scope py_scope.

(* ================================================================== *)
(** * The [str] methods the services use *)
(* ================================================================== *)

(** [str.isspace] on one code point: the characters [str.strip()] removes. *)
Definition py_isspace (c : N) : bool :=
  ((9 <=? c) && (c <=? 13) || (28 <=? c) && (c <=? 32) ||
   (c =? 133) || (c =? 160) || (c =? 5760) ||
   (8192 <=? c) && (c <=? 8202) || (c =? 8232) || (c =? 8233) ||
   (c =? 8239) || (c =? 8287) || (c =? 12288))%N.

Fixpoint lstrip (s : pystr) : pystr :=
  match s with
  | [] => []
  | c :: r => if py_isspace c then lstrip r else s
  end.

Definition rstrip (s : pystr) : pystr := rev (lstrip (rev s)).

(** [s.strip()] *)
Definition strip (s : pystr) : pystr := rstrip (lstrip s).

(** [s.startswith(p)] *)
Fixpoint startswith (p s : pystr) : bool :=
  match p, s with
  | [], _ => true
  | _ :: _, [] => false
  | a :: p', b :: s' => (a =? b)%N && startswith p' s'
  end.

(** [s.endswith(p)] *)
Definition endswith (p s : pystr) : bool := startswith (rev p) (rev s).

(** [s[n:]] and [s[:-n]] *)
Definition slice_from (n : nat) (s : pystr) : pystr := skipn n s.
Definition slice_drop_last (n : nat) (s : pystr) : pystr :=
  firstn (length s - n) s.

(** [s.replace(old, new)] for a non-empty [old]: occurrences are found left
    to right and do not overlap.  [skip] counts the characters of a matched
    occurrence still to be dropped. *)
Fixpoint replace_from (old new : pystr) (skip : nat) (s : pystr) : pystr :=
  match s with
  | [] => []
  | c :: r =>
      match skip with
      | S k => replace_from old new k r
      | O => if startswith old s
             then new ++ replace_from old new (length old - 1) r
             else c :: replace_from old new 0 r
      end
  end.

(** [s.replace(old, new)]; an empty [old] matches before every character
    and at the end. *)
Definition replace (old new s : pystr) : pystr :=
  match old with
  | [] => new ++ flat_map (fun c => c :: new) s
  | _ :: _ => replace_from old new 0 s
  end.

(** [str(n)] for an [int]. *)
Definition str_of_N (n : N) : pystr :=
  py (NilZero.string_of_uint (N.to_uint n)).
Definition str_of_Z (z : Z) : pystr :=
  match z with
  | Zneg p => 45%N :: str_of_N (Npos p)
  | _ => str_of_N (Z.to_N z)
  end.

(* ================================================================== *)
(** * What is taken from the Python runtime and the libraries *)
(* ================================================================== *)

(** The pure functions of CPython, [pathlib], [json] and [pydantic] that
    the services call and that are not recomputed here.  Every statement
    below holds for every [Host]. *)
Record Host : Type := {
  (** [repr(s)] of a [str] *)
  host_repr : pystr -> pystr;
  (** the decimal value of a code point ([Py_UNICODE_TODECIMAL]) *)
  host_to_decimal : N -> option N;
  (** a replacement field of [str.format] on the [str] [value], with the
      attribute and index part [rest] of its name, its conversion and its
      format specification, when one of the three is present *)
  host_format_field : pystr -> pystr -> option N -> pystr -> result pystr;
  (** [repr(float(lexeme))]; and [==] between two floats, and between a
      float and an [int], each float given by its JSON lexeme *)
  host_float_repr : pystr -> pystr;
  host_float_eq : pystr -> pystr -> bool;
  host_float_eq_int : pystr -> Z -> bool;
  (** [str(e)] of the [JSONDecodeError] that [json.loads(doc)] raises *)
  host_json_error_text : pystr -> pystr;
  (** the largest number of digits [int(s)] accepts (0: no limit), and the
      nesting depth left to the JSON scanner before [RecursionError] *)
  host_int_max_str_digits : N;
  host_json_depth : nat;
  (** [str(e)] of the [TypeError] that calling [pydantic.ValidationError]
      with one string raises *)
  host_pydantic_ctor_text : pystr;
  (** [str(Path(p))], [Path(p).stem], [str(Path(p).parent)],
      [str(Path(a) / b)] *)
  host_path_str : pystr -> pystr;
  host_path_stem : pystr -> pystr;
  host_path_parent : pystr -> pystr;
  host_path_join : pystr -> pystr -> pystr
}.

(* ================================================================== *)
(** * [str.format(document=...)] *)
(* ================================================================== *)

(** Where the scanner of [str.format] stands in the template
    ([MarkupIterator_next] and [parse_field] of CPython). *)
Inductive markup_state : Type :=
| InLiteral
| InFieldName (name : pystr) (in_bracket : bool)
| AfterBang (name : pystr)
| AfterConversion (name : pystr) (conv : N)
| InFormatSpec (name : pystr) (conv : option N) (spec : pystr) (nested : nat).

(** The part of a field name before the first ['.'] or ['[']
    ([field_name_split]), and what follows it. *)
Fixpoint split_first (name : pystr) : pystr * pystr :=
  match name with
  | [] => ([], [])
  | c :: r =>
      if ((c =? 46) || (c =? 91))%N then ([], name)
      else let (a, b) := split_first r in (c :: a, b)
  end.

Definition PY_SSIZE_T_MAX : N := 9223372036854775807.

(** [get_integer]: the index a field name of digits denotes, [None] when a
    character is no digit. *)
Fixpoint get_integer (h : Host) (s : pystr) (acc : N) : result (option N) :=
  match s with
  | [] => Ok (Some acc)
  | c :: r =>
      match host_to_decimal h c with
      | None => Ok None
      | Some d =>
          if ((PY_SSIZE_T_MAX - d) / 10 <? acc)%N
          then Raise (Exn ValueError
                        (py "Too many decimal digits in format string"))
          else get_integer h r (acc * 10 + d)%N
      end
  end.

(** The text one replacement field stands for, in a call that passes no
    positional argument and the single keyword [document]. *)
Definition render_field (h : Host) (document : pystr)
    (name : pystr) (conv : option N) (spec : pystr) : result pystr :=
  let (first, rest) := split_first name in
  idx <-! match first with
          | [] => Ok (Some 0%N)
          | _ :: _ => get_integer h first 0
          end ;;
  match idx with
  | Some i =>
      Raise (Exn IndexError
               (py "Replacement index " ++ str_of_N i ++
                py " out of range for positional args tuple"))
  | None =>
      if pystr_eqb first (py "document") then
        match rest, conv, spec with
        | [], None, [] => Ok document
        | [], Some 115%N, [] => Ok document
        | _, _, _ => host_format_field h document rest conv spec
        end
      else Raise (Exn KeyError (host_repr h first))
  end.

Definition format_error (msg : string) : result pystr :=
  Raise (Exn ValueError (py msg)).

(** The scan of the template from state [st]; [out] is the text produced
    so far.  A field is rendered when its closing brace is read, so the
    first fault from the left is the one raised. *)
Fixpoint format_from (h : Host) (document : pystr) (st : markup_state)
    (s out : pystr) {struct s} : result pystr :=
  match st with
  | InLiteral =>
      match s with
      | [] => Ok out
      | c :: r =>
          if (c =? 123)%N then
            match r with
            | [] => format_error "Single '{' encountered in format string"
            | c2 :: r2 =>
                if (c2 =? 123)%N
                then format_from h document InLiteral r2 (out ++ [c])
                else format_from h document (InFieldName [] false) r out
            end
          else if (c =? 125)%N then
            match r with
            | [] => format_error "Single '}' encountered in format string"
            | c2 :: r2 =>
                if (c2 =? 125)%N
                then format_from h document InLiteral r2 (out ++ [c])
                else format_error "Single '}' encountered in format string"
            end
          else format_from h document InLiteral r (out ++ [c])
      end
  | InFieldName name brk =>
      match s with
      | [] => format_error "expected '}' before end of string"
      | c :: r =>
          if brk then
            format_from h document
              (InFieldName (name ++ [c]) (negb (c =? 93)%N)) r out
          else if (c =? 123)%N then
            format_error "unexpected '{' in field name"
          else if (c =? 91)%N then
            format_from h document (InFieldName (name ++ [c]) true) r out
          else if (c =? 125)%N then
            txt <-! render_field h document name None [] ;;
            format_from h document InLiteral r (out ++ txt)
          else if (c =? 58)%N then
            format_from h document (InFormatSpec name None [] 0) r out
          else if (c =? 33)%N then
            format_from h document (AfterBang name) r out
          else format_from h document (InFieldName (name ++ [c]) false) r out
      end
  | AfterBang name =>
      match s with
      | [] =>
          format_error "end of string while looking for conversion specifier"
      | c :: r => format_from h document (AfterConversion name c) r out
      end
  | AfterConversion name conv =>
      match s with
      | [] => format_error "unmatched '{' in format spec"
      | c :: r =>
          if (c =? 125)%N then
            txt <-! render_field h document name (Some conv) [] ;;
            format_from h document InLiteral r (out ++ txt)
          else if (c =? 58)%N then
            format_from h document (InFormatSpec name (Some conv) [] 0) r out
          else format_error "expected ':' after conversion specifier"
      end
  | InFormatSpec name conv spec nested =>
      match s with
      | [] => format_error "unmatched '{' in format spec"
      | c :: r =>
          if (c =? 123)%N then
            format_from h document
              (InFormatSpec name conv (spec ++ [c]) (S nested)) r out
          else if (c =? 125)%N then
            match nested with
            | O =>
                txt <-! render_field h document name conv spec ;;
                format_from h document InLiteral r (out ++ txt)
            | S k =>
                format_from h document
                  (InFormatSpec name conv (spec ++ [c]) k) r out
            end
          else
            format_from h document
              (InFormatSpec name conv (spec ++ [c]) nested) r out
      end
  end.

(** [template.format(document=document)] *)
Definition str_format (h : Host) (template document : pystr) : result pystr :=
  format_from h document InLiteral template [].

(* ================================================================== *)
(** * JSON values and [json.loads] *)
(* ================================================================== *)

(** What [json.loads] returns: [None], [bool], [int], [float], [str],
    [list], [dict].  A [float] is kept as the lexeme it was read from
    ([JFloat l] is [float(l)]); a [dict] keeps its keys in insertion
    order. *)
#[warnings="-register-all"]
Inductive json : Type :=
| JNull
| JBool (b : bool)
| JInt (z : Z)
| JFloat (lexeme : pystr)
| JStr (s : pystr)
| JArr (items : list json)
| JObj (members : list (pystr * json)).

(** [d.get(k)], [k in d] and [d[k] = v] on the members of a [dict]. *)
Fixpoint dict_get (k : pystr) (d : list (pystr * json)) : option json :=
  match d with
  | [] => None
  | (k', v) :: r => if pystr_eqb k k' then Some v else dict_get k r
  end.

Definition dict_has (k : pystr) (d : list (pystr * json)) : bool :=
  match dict_get k d with
  | Some _ => true
  | None => false
  end.

Fixpoint dict_set (k : pystr) (v : json) (d : list (pystr * json))
  : list (pystr * json) :=
  match d with
  | [] => [(k, v)]
  | (k', v') :: r =>
      if pystr_eqb k k' then (k', v) :: r else (k', v') :: dict_set k v r
  end.

(** Why the scanner of [json] stops: a syntax error ([JSONDecodeError]),
    an integer literal of more digits than [int] accepts ([ValueError]),
    or containers nested deeper than the interpreter allows
    ([RecursionError]; its text names the container the scanner was
    entering, an array or an object). *)
Inductive scan_fault : Type :=
| BadSyntax
| IntTooLong (digits : nat)
| TooDeep (array : bool).

Inductive scan (A : Type) : Type :=
| Scanned (a : A) (rest : pystr)
| Faulty (f : scan_fault)
| NoFuel.
Arguments Faulty {A} f.
Arguments NoFuel {A}.

(** JSON's own whitespace: space, tab, line feed, carriage return. *)
Definition is_ws (c : N) : bool :=
  ((c =? 32) || (c =? 9) || (c =? 10) || (c =? 13))%N.

Fixpoint skip_ws (s : pystr) : pystr :=
  match s with
  | [] => []
  | c :: r => if is_ws c then skip_ws r else s
  end.

Definition is_digit (c : N) : bool := ((48 <=? c) && (c <=? 57))%N.

Definition hexval (c : N) : option N :=
  if is_digit c then Some (c - 48)%N
  else if ((97 <=? c) && (c <=? 102))%N then Some (c - 87)%N
  else if ((65 <=? c) && (c <=? 70))%N then Some (c - 55)%N
  else None.

Definition hex4 (a b c d : N) : option N :=
  match hexval a, hexval b, hexval c, hexval d with
  | Some x, Some y, Some z, Some w => Some (((x * 16 + y) * 16 + z) * 16 + w)%N
  | _, _, _, _ => None
  end.

Definition is_high_surrogate (u : N) : bool := ((55296 <=? u) && (u <=? 56319))%N.
Definition is_low_surrogate (u : N) : bool := ((56320 <=? u) && (u <=? 57343))%N.
Definition join_surrogates (hi lo : N) : N :=
  (65536 + ((hi - 55296) * 1024 + (lo - 56320)))%N.

(** The character a one-letter escape stands for. *)
Definition unescape (e : N) : option N :=
  if (e =? 34)%N then Some 34%N
  else if (e =? 92)%N then Some 92%N
  else if (e =? 47)%N then Some 47%N
  else if (e =? 98)%N then Some 8%N
  else if (e =? 102)%N then Some 12%N
  else if (e =? 110)%N then Some 10%N
  else if (e =? 114)%N then Some 13%N
  else if (e =? 116)%N then Some 9%N
  else None.

(** Where [scanstring] stands inside a string literal.  [paired] says
    that the character decoded last is a high surrogate written as a
    [\u] escape: a low surrogate written as the next [\u] escape joins
    it. *)
Inductive string_state : Type :=
| Plain (paired : bool)
| Escaped (paired : bool)
| Unicode (paired : bool) (count : nat) (value : N).

(** The character a completed [\uXXXX] escape adds to [acc] (last
    character first). *)
Definition push_unicode (paired : bool) (u : N) (acc : pystr) : pystr :=
  match acc with
  | hi :: acc' =>
      if paired && is_low_surrogate u
      then join_surrogates hi u :: acc'
      else u :: acc
  | [] => [u]
  end.

(** [scanstring] in strict mode, from the character after the opening
    quote, one character at a time; [acc] holds the decoded characters,
    last first. *)
Fixpoint scanstring_from (st : string_state) (s acc : pystr) {struct s}
  : scan pystr :=
  match s with
  | [] => Faulty BadSyntax
  | c :: r =>
      match st with
      | Plain paired =>
          if (c =? 34)%N then Scanned (rev acc) r
          else if (c =? 92)%N then scanstring_from (Escaped paired) r acc
          else if (c <=? 31)%N then Faulty BadSyntax
          else scanstring_from (Plain false) r (c :: acc)
      | Escaped paired =>
          if (c =? 117)%N then scanstring_from (Unicode paired 0 0) r acc
          else
            match unescape c with
            | Some x => scanstring_from (Plain false) r (x :: acc)
            | None => Faulty BadSyntax
            end
      | Unicode paired count value =>
          match hexval c with
          | None => Faulty BadSyntax
          | Some x =>
              let u := (value * 16 + x)%N in
              match count with
              | 3%nat =>
                  scanstring_from (Plain (is_high_surrogate u)) r
                    (push_unicode paired u acc)
              | _ => scanstring_from (Unicode paired (S count) u) r acc
              end
          end
      end
  end.

Definition scanstring (s : pystr) : scan pystr :=
  scanstring_from (Plain false) s [].

Fixpoint span_digits (s : pystr) : pystr * pystr :=
  match s with
  | [] => ([], [])
  | c :: r =>
      if is_digit c then let (d, t) := span_digits r in (c :: d, t)
      else ([], s)
  end.

(** The integer part of a number: [0], or a non-zero digit and the digits
    after it. *)
Definition match_int (s : pystr) : option (pystr * pystr) :=
  match s with
  | [] => None
  | c :: r =>
      if (c =? 48)%N then Some ([c], r)
      else if is_digit c then let (d, t) := span_digits r in Some (c :: d, t)
      else None
  end.

(** The fraction: a point and at least one digit, or nothing. *)
Definition match_frac (s : pystr) : pystr * pystr :=
  match s with
  | p :: c :: r =>
      if (p =? 46)%N && is_digit c
      then let (d, t) := span_digits r in (p :: c :: d, t)
      else ([], s)
  | _ => ([], s)
  end.

Definition is_sign (c : N) : bool := ((c =? 43) || (c =? 45))%N.

(** The exponent: [e] or [E], a sign if there is one, and at least one
    digit, or nothing. *)
Definition match_exp (s : pystr) : pystr * pystr :=
  match s with
  | e :: r =>
      if ((e =? 101) || (e =? 69))%N then
        match r with
        | [] => ([], s)
        | sg :: t =>
            if is_sign sg then
              match t with
              | [] => ([], s)
              | c :: _ =>
                  if is_digit c
                  then let (d, u) := span_digits t in (e :: sg :: d, u)
                  else ([], s)
              end
            else if is_digit sg
            then let (d, u) := span_digits r in (e :: d, u)
            else ([], s)
        end
      else ([], s)
  | [] => ([], s)
  end.

(** [_match_number]: the integer text with its sign, the fraction and
    exponent text, and what follows the number. *)
Definition match_number (s : pystr) : option (pystr * pystr * pystr) :=
  let (sgn, s1) := match s with
                   | c :: r => if (c =? 45)%N then ([c], r) else ([], s)
                   | [] => ([], s)
                   end in
  match match_int s1 with
  | None => None
  | Some (ip, s2) =>
      let (fp, s3) := match_frac s2 in
      let (ep, s4) := match_exp s3 in
      Some (sgn ++ ip, fp ++ ep, s4)
  end.

Fixpoint N_of_digits (s : pystr) (acc : N) : N :=
  match s with
  | [] => acc
  | c :: r => N_of_digits r (acc * 10 + (c - 48))%N
  end.

(** [int(text)] for the integer text of a JSON number. *)
Definition int_of_text (text : pystr) : Z :=
  match text with
  | c :: r => if (c =? 45)%N then (- Z.of_N (N_of_digits r 0))%Z
              else Z.of_N (N_of_digits text 0)
  | [] => 0%Z
  end.

Definition count_digits (text : pystr) : nat :=
  List.length (List.filter is_digit text).

(** The value of a matched number: a [float] when it has a fraction or an
    exponent, else an [int], refused when it has more digits than
    [maxd] (0: no limit). *)
Definition number_value (maxd : N) (ip fe : pystr) : json + scan_fault :=
  match fe with
  | _ :: _ => inl (JFloat (ip ++ fe))
  | [] =>
      if ((0 <? maxd) && (maxd <? N.of_nat (count_digits ip)))%N
      then inr (IntTooLong (count_digits ip))
      else inl (JInt (int_of_text ip))
  end.

(** A named constant: the literal, or a syntax error. *)
Definition scan_literal (lit : string) (v : json) (s : pystr) : scan json :=
  if startswith (py lit) s
  then Scanned v (skipn (String.length lit) s)
  else Faulty BadSyntax.

(** A number ([_match_number] and the conversion of its text). *)
Definition scan_number (maxd : N) (s : pystr) : scan json :=
  match match_number s with
  | None => Faulty BadSyntax
  | Some (ip, fe, rest) =>
      match number_value maxd ip fe with
      | inl v => Scanned v rest
      | inr f => Faulty f
      end
  end.

(** [scan_once] (a [switch] on the first character) and the loops of
    [_parse_array] and [_parse_object].  [n] bounds the number of calls
    (see [json_loads]); [d] is the nesting depth still allowed. *)
Fixpoint scan_once (n d : nat) (maxd : N) (s : pystr) {struct n} : scan json :=
  match n with
  | O => NoFuel
  | S n' =>
      match s with
      | [] => Faulty BadSyntax
      | c :: r =>
          if (c =? 34)%N then
            match scanstring r with
            | Scanned str r' => Scanned (JStr str) r'
            | Faulty f => Faulty f
            | NoFuel => NoFuel
            end
          else if (c =? 123)%N then
            match d with
            | O => Faulty (TooDeep false)
            | S d' =>
                match skip_ws r with
                | c1 :: r1 =>
                    if (c1 =? 125)%N then Scanned (JObj []) r1
                    else scan_members n' d' maxd (c1 :: r1) []
                | [] => Faulty BadSyntax
                end
            end
          else if (c =? 91)%N then
            match d with
            | O => Faulty (TooDeep true)
            | S d' =>
                match skip_ws r with
                | c1 :: r1 =>
                    if (c1 =? 93)%N then Scanned (JArr []) r1
                    else scan_elements n' d' maxd (c1 :: r1) []
                | [] => Faulty BadSyntax
                end
            end
          else if (c =? 110)%N then scan_literal "null" JNull s
          else if (c =? 116)%N then scan_literal "true" (JBool true) s
          else if (c =? 102)%N then scan_literal "false" (JBool false) s
          else if (c =? 78)%N then scan_literal "NaN" (JFloat (py "NaN")) s
          else if (c =? 73)%N
          then scan_literal "Infinity" (JFloat (py "Infinity")) s
          else if (c =? 45)%N && startswith (py "-Infinity") s
          then Scanned (JFloat (py "-Infinity")) (skipn 9 s)
          else scan_number maxd s
      end
  end
with scan_elements (n d : nat) (maxd : N) (s : pystr) (acc : list json)
    {struct n} : scan json :=
  match n with
  | O => NoFuel
  | S n' =>
      match scan_once n' d maxd s with
      | Scanned v r =>
          match skip_ws r with
          | c :: r1 =>
              if (c =? 93)%N then Scanned (JArr (rev (v :: acc))) r1
              else if (c =? 44)%N
              then scan_elements n' d maxd (skip_ws r1) (v :: acc)
              else Faulty BadSyntax
          | [] => Faulty BadSyntax
          end
      | Faulty f => Faulty f
      | NoFuel => NoFuel
      end
  end
with scan_members (n d : nat) (maxd : N) (s : pystr)
    (acc : list (pystr * json)) {struct n} : scan json :=
  match n with
  | O => NoFuel
  | S n' =>
      match s with
      | [] => Faulty BadSyntax
      | q :: r =>
          if (q =? 34)%N then
            match scanstring r with
            | Scanned key r1 =>
                match skip_ws r1 with
                | [] => Faulty BadSyntax
                | c1 :: r2 =>
                    if (c1 =? 58)%N then
                      match scan_once n' d maxd (skip_ws r2) with
                      | Scanned v r3 =>
                          match skip_ws r3 with
                          | [] => Faulty BadSyntax
                          | c3 :: r4 =>
                              if (c3 =? 125)%N
                              then Scanned (JObj (dict_set key v acc)) r4
                              else if (c3 =? 44)%N
                              then scan_members n' d maxd (skip_ws r4)
                                     (dict_set key v acc)
                              else Faulty BadSyntax
                          end
                      | Faulty f => Faulty f
                      | NoFuel => NoFuel
                      end
                    else Faulty BadSyntax
                end
            | Faulty f => Faulty f
            | NoFuel => NoFuel
            end
          else Faulty BadSyntax
      end
  end.

Definition BOM : N := 65279.

Definition scan_fault_exn (h : Host) (doc : pystr) (f : scan_fault) : exn :=
  match f with
  | BadSyntax => Exn JSONDecodeError (host_json_error_text h doc)
  | IntTooLong k =>
      Exn ValueError
        (py "Exceeds the limit (" ++ str_of_N (host_int_max_str_digits h) ++
         py " digits) for integer string conversion: value has " ++
         str_of_N (N.of_nat k) ++
         py " digits; use sys.set_int_max_str_digits() to increase the limit")
  | TooDeep array =>
      Exn RecursionError
        (py "maximum recursion depth exceeded while decoding a JSON " ++
         (if array then py "array" else py "object") ++
         py " from a unicode string")
  end.

(** [json.loads(s)] for a [str]: a leading byte-order mark is refused,
    whitespace around the one value is skipped, anything after it is
    "Extra data".  The call bound [2 * len(s) + 1] is never reached
    (lemma [scan_once_fuel]). *)
Definition json_loads (h : Host) (s : pystr) : result json :=
  if startswith [BOM] s then Raise (scan_fault_exn h s BadSyntax)
  else
    match scan_once (2 * List.length s + 1) (host_json_depth h)
            (host_int_max_str_digits h) (skip_ws s) with
    | Scanned v rest =>
        match skip_ws rest with
        | [] => Ok v
        | _ :: _ => Raise (scan_fault_exn h s BadSyntax)
        end
    | Faulty f => Raise (scan_fault_exn h s f)
    | NoFuel => Raise (scan_fault_exn h s (TooDeep false))
    end.

(* ================================================================== *)
(** * Python operations on JSON values *)
(* ================================================================== *)

(** [type(x).__name__] *)
Definition type_name (x : json) : pystr :=
  match x with
  | JNull => py "NoneType"
  | JBool _ => py "bool"
  | JInt _ => py "int"
  | JFloat _ => py "float"
  | JStr _ => py "str"
  | JArr _ => py "list"
  | JObj _ => py "dict"
  end.

(** [sep.join(parts)] *)
Fixpoint join (sep : pystr) (parts : list pystr) : pystr :=
  match parts with
  | [] => []
  | [p] => p
  | p :: rest => p ++ sep ++ join sep rest
  end.

(** [repr(x)] and [str(x)] *)
Fixpoint py_repr (h : Host) (x : json) : pystr :=
  match x with
  | JNull => py "None"
  | JBool true => py "True"
  | JBool false => py "False"
  | JInt z => str_of_Z z
  | JFloat l => host_float_repr h l
  | JStr s => host_repr h s
  | JArr items => py "[" ++ join (py ", ") (List.map (py_repr h) items) ++ py "]"
  | JObj members =>
      py "{" ++
      join (py ", ")
        (List.map (fun kv => host_repr h (fst kv) ++ py ": " ++ py_repr h (snd kv))
           members) ++
      py "}"
  end.

Definition py_str (h : Host) (x : json) : pystr :=
  match x with
  | JStr s => s
  | _ => py_repr h x
  end.

(** [isinstance(x, str)], [isinstance(x, (int, float))] ([bool] is a
    subclass of [int]) and [isinstance(x, list)]. *)
Definition isinstance_str (x : json) : bool :=
  match x with JStr _ => true | _ => false end.
Definition isinstance_int_float (x : json) : bool :=
  match x with JInt _ | JFloat _ | JBool _ => true | _ => false end.
Definition isinstance_list (x : json) : bool :=
  match x with JArr _ => true | _ => false end.

(** [a == b] *)
Fixpoint py_eq (h : Host) (a b : json) {struct a} : bool :=
  match a, b with
  | JNull, JNull => true
  | JBool x, JBool y => Bool.eqb x y
  | JBool x, JInt z | JInt z, JBool x => (z =? Z.b2z x)%Z
  | JBool x, JFloat l | JFloat l, JBool x => host_float_eq_int h l (Z.b2z x)
  | JInt x, JInt y => (x =? y)%Z
  | JInt z, JFloat l | JFloat l, JInt z => host_float_eq_int h l z
  | JFloat l, JFloat m => host_float_eq h l m
  | JStr s, JStr t => pystr_eqb s t
  | JArr xs, JArr ys =>
      (fix all2 (xs ys : list json) : bool :=
         match xs, ys with
         | [], [] => true
         | x :: xs', y :: ys' => py_eq h x y && all2 xs' ys'
         | _, _ => false
         end) xs ys
  | JObj ms, JObj ns =>
      (List.length ms =? List.length ns)%nat &&
      (fix all_in (ms : list (pystr * json)) : bool :=
         match ms with
         | [] => true
         | (k, v) :: ms' =>
             match dict_get k ns with
             | Some w => py_eq h v w && all_in ms'
             | None => false
             end
         end) ms
  | _, _ => false
  end.

(** [p in s] for two [str] *)
Fixpoint is_substring (p s : pystr) : bool :=
  startswith p s ||
  match s with
  | [] => false
  | _ :: r => is_substring p r
  end.

Definition type_error (parts : list pystr) : exn :=
  Exn TypeError (List.concat parts).

(** [x in data] *)
Definition py_contains (h : Host) (data x : json) : result bool :=
  match data with
  | JObj members =>
      match x with
      | JArr _ | JObj _ =>
          Raise (type_error [py "unhashable type: '"; type_name x; py "'"])
      | JStr k => Ok (dict_has k members)
      | _ => Ok false
      end
  | JArr items => Ok (existsb (py_eq h x) items)
  | JStr s =>
      match x with
      | JStr p => Ok (is_substring p s)
      | _ =>
          Raise (type_error [py "'in <string>' requires string as left operand, not ";
                             type_name x])
      end
  | _ =>
      Raise (type_error [py "argument of type '"; type_name data;
                         py "' is not iterable"])
  end.

(** The items [for x in v] visits. *)
Definition py_iter (v : json) : result (list json) :=
  match v with
  | JArr items => Ok items
  | JObj members => Ok (List.map (fun kv => JStr (fst kv)) members)
  | JStr s => Ok (List.map (fun c => JStr [c]) s)
  | _ => Raise (type_error [py "'"; type_name v; py "' object is not iterable"])
  end.

(** [data[key]] for a [str] key *)
Definition py_getitem (data : json) (key : pystr) (h : Host) : result json :=
  match data with
  | JObj members =>
      match dict_get key members with
      | Some v => Ok v
      | None => Raise (Exn KeyError (host_repr h key))
      end
  | JArr _ =>
      Raise (type_error [py "list indices must be integers or slices, not str"])
  | JStr _ =>
      Raise (type_error [py "string indices must be integers, not 'str'"])
  | _ =>
      Raise (type_error [py "'"; type_name data; py "' object is not subscriptable"])
  end.

Definition attribute_error (x : json) (attr : string) : exn :=
  Exn AttributeError
    (py "'" ++ type_name x ++ py "' object has no attribute '" ++ py attr ++ py "'").

(** [v.items()] *)
Definition py_items (v : json) : result (list (pystr * json)) :=
  match v with
  | JObj members => Ok members
  | _ => Raise (attribute_error v "items")
  end.

(** [v.get(key)]; [None] when the key is absent. *)
Definition py_get (v : json) (key : pystr) : result json :=
  match v with
  | JObj members =>
      match dict_get key members with
      | Some x => Ok x
      | None => Ok JNull
      end
  | _ => Raise (attribute_error v "get")
  end.

(* ================================================================== *)
(** * [json.dumps(obj, indent=2)] *)
(* ================================================================== *)

Definition hex_digit (n : N) : N :=
  if (n <? 10)%N then (48 + n)%N else (87 + n)%N.

(** ["\\u{0:04x}".format(n)] *)
Definition u_escape (n : N) : pystr :=
  [92; 117; hex_digit (n / 4096 mod 16); hex_digit (n / 256 mod 16);
   hex_digit (n / 16 mod 16); hex_digit (n mod 16)]%N.

(** One character under [ensure_ascii]. *)
Definition escape_char (c : N) : pystr :=
  if (c =? 34)%N then [92; 34]%N
  else if (c =? 92)%N then [92; 92]%N
  else if (c =? 10)%N then [92; 110]%N
  else if (c =? 13)%N then [92; 114]%N
  else if (c =? 9)%N then [92; 116]%N
  else if (c =? 8)%N then [92; 98]%N
  else if (c =? 12)%N then [92; 102]%N
  else if ((32 <=? c) && (c <=? 126))%N then [c]
  else if (c <? 65536)%N then u_escape c
  else u_escape (55296 + ((c - 65536) / 1024) mod 1024)%N ++
       u_escape (56320 + (c - 65536) mod 1024)%N.

Definition encode_basestring_ascii (s : pystr) : pystr :=
  34%N :: flat_map escape_char s ++ [34%N].

(** [float.__repr__] as the encoder writes it. *)
Definition floatstr (h : Host) (l : pystr) : pystr :=
  let r := host_float_repr h l in
  if pystr_eqb r (py "nan") then py "NaN"
  else if pystr_eqb r (py "inf") then py "Infinity"
  else if pystr_eqb r (py "-inf") then py "-Infinity"
  else r.

Definition newline_indent (level : nat) : pystr :=
  10%N :: List.concat (List.repeat (py "  ") level).

Fixpoint iterencode (h : Host) (level : nat) (o : json) : pystr :=
  match o with
  | JNull => py "null"
  | JBool true => py "true"
  | JBool false => py "false"
  | JInt z => str_of_Z z
  | JFloat l => floatstr h l
  | JStr s => encode_basestring_ascii s
  | JArr [] => py "[]"
  | JArr items =>
      py "[" ++ newline_indent (S level) ++
      join (py "," ++ newline_indent (S level))
        (List.map (iterencode h (S level)) items) ++
      newline_indent level ++ py "]"
  | JObj [] => py "{}"
  | JObj members =>
      py "{" ++ newline_indent (S level) ++
      join (py "," ++ newline_indent (S level))
        (List.map
           (fun kv => encode_basestring_ascii (fst kv) ++ py ": " ++
                      iterencode h (S level) (snd kv))
           members) ++
      newline_indent level ++ py "}"
  end.

(** [json.dumps(obj, indent=2)] *)
Definition json_dumps_indent2 (h : Host) (obj : json) : pystr :=
  iterencode h 0 obj.

(* ================================================================== *)
(** * [LLMService._validate_against_schema] *)
(* ================================================================== *)

(** The expression [ValidationError(msg)].  The class is pydantic's, whose
    constructor does not take a message: pydantic 1 requires the two
    arguments [errors] and [model], pydantic 2 defines no constructor at
    all.  Evaluating the call raises [TypeError]; no [ValidationError]
    comes into being. *)
Definition ValidationError_call (h : Host) (msg : pystr) : result exn :=
  Raise (Exn TypeError (host_pydantic_ctor_text h)).

(** [raise ValidationError(msg)] *)
Definition raise_ValidationError {A : Type} (h : Host) (msg : pystr) : result A :=
  e <-! ValidationError_call h msg ;; Raise e.

(** The loop over [schema["required"]]. *)
Fixpoint check_required (h : Host) (data : json) (fields : list json)
  : result unit :=
  match fields with
  | [] => Ok tt
  | field :: rest =>
      present <-! py_contains h data field ;;
      if negb present
      then raise_ValidationError h
             (py "Required field '" ++ py_str h field ++
              py "' missing from response")
      else check_required h data rest
  end.

(** The three-way [if]/[elif] on the declared type of one property. *)
Definition check_type (h : Host) (data : json) (field : pystr)
    (expected_type : json) : result unit :=
  string_fails <-!
    (if py_eq h expected_type (JStr (py "string"))
     then v <-! py_getitem data field h ;; Ok (negb (isinstance_str v))
     else Ok false) ;;
  if string_fails
  then raise_ValidationError h (py "Field '" ++ field ++ py "' should be string")
  else
    number_fails <-!
      (if py_eq h expected_type (JStr (py "number"))
       then v <-! py_getitem data field h ;; Ok (negb (isinstance_int_float v))
       else Ok false) ;;
    if number_fails
    then raise_ValidationError h (py "Field '" ++ field ++ py "' should be number")
    else
      array_fails <-!
        (if py_eq h expected_type (JStr (py "array"))
         then v <-! py_getitem data field h ;; Ok (negb (isinstance_list v))
         else Ok false) ;;
      if array_fails
      then raise_ValidationError h (py "Field '" ++ field ++ py "' should be array")
      else Ok tt.

(** The loop over [schema["properties"].items()]. *)
Fixpoint check_properties (h : Host) (data : json)
    (props : list (pystr * json)) : result unit :=
  match props with
  | [] => Ok tt
  | (field, field_schema) :: rest =>
      present <-! py_contains h data (JStr field) ;;
      (if present
       then expected_type <-! py_get field_schema (py "type") ;;
            check_type h data field expected_type
       else Ok tt) ;;!
      check_properties h data rest
  end.

(** [_validate_against_schema(data, schema)]: returns, or raises. *)
Definition _validate_against_schema (h : Host) (data : json)
    (schema : list (pystr * json)) : result unit :=
  (match dict_get (py "required") schema with
   | Some required =>
       fields <-! py_iter required ;; check_required h data fields
   | None => Ok tt
   end) ;;!
  match dict_get (py "properties") schema with
  | Some properties =>
      props <-! py_items properties ;; check_properties h data props
  | None => Ok tt
  end.

(* ================================================================== *)
(** * Decoding bytes with [errors='ignore'] *)
(* ================================================================== *)

Definition is_continuation (b : N) : bool := ((128 <=? b) && (b <=? 191))%N.

(** The UTF-8 decoder with [errors='ignore'] on byte values: the bytes of
    every malformed sequence are left out (an invalid start byte alone;
    the bytes read so far when a continuation byte is wrong; everything
    that is left when the data end inside a sequence). *)
Fixpoint utf8_decode_ignore (s : list N) : pystr :=
  match s with
  | [] => []
  | c :: r =>
      if (c <? 128)%N then c :: utf8_decode_ignore r
      else if (c <? 194)%N then utf8_decode_ignore r
      else if (c <? 224)%N then
        match r with
        | [] => []
        | c2 :: r2 =>
            if is_continuation c2
            then ((c - 192) * 64 + (c2 - 128))%N :: utf8_decode_ignore r2
            else utf8_decode_ignore r
        end
      else if (c <? 240)%N then
        match r with
        | [] => []
        | c2 :: r2 =>
            if negb (is_continuation c2) ||
               (if (c2 <? 160)%N then (c =? 224)%N else (c =? 237)%N)
            then utf8_decode_ignore r
            else
              match r2 with
              | [] => []
              | c3 :: r3 =>
                  if is_continuation c3
                  then (((c - 224) * 64 + (c2 - 128)) * 64 + (c3 - 128))%N
                         :: utf8_decode_ignore r3
                  else utf8_decode_ignore r2
              end
        end
      else if (c <? 245)%N then
        match r with
        | [] => []
        | c2 :: r2 =>
            if negb (is_continuation c2) ||
               (if (c2 <? 144)%N then (c =? 240)%N else (c =? 244)%N)
            then utf8_decode_ignore r
            else
              match r2 with
              | [] => []
              | c3 :: r3 =>
                  if negb (is_continuation c3) then utf8_decode_ignore r2
                  else
                    match r3 with
                    | [] => []
                    | c4 :: r4 =>
                        if is_continuation c4
                        then ((((c - 240) * 64 + (c2 - 128)) * 64 + (c3 - 128)) * 64
                              + (c4 - 128))%N :: utf8_decode_ignore r4
                        else utf8_decode_ignore r3
                    end
              end
        end
      else utf8_decode_ignore r
  end.

(** Windows-1252: the code point of a byte, [None] for the five bytes the
    code page leaves undefined. *)
Definition cp1252_table : list (option N) :=
  List.map (fun n => if (n =? 0)%N then None else Some n)
    [8364; 0; 8218; 402; 8222; 8230; 8224; 8225; 710; 8240; 352; 8249; 338;
     0; 381; 0; 0; 8216; 8217; 8220; 8221; 8226; 8211; 8212; 732; 8482; 353;
     8250; 339; 0; 382; 376]%N.

Definition cp1252_char (b : N) : option N :=
  if ((128 <=? b) && (b <=? 159))%N
  then nth (N.to_nat (b - 128)) cp1252_table None
  else Some b.

Definition cp1252_decode_ignore (s : list N) : pystr :=
  flat_map (fun b => match cp1252_char b with Some c => [c] | None => [] end) s.

(** [bytes.decode(encoding, errors='ignore')] for the encodings the
    service names. *)
Definition decode_ignore (encoding : pystr) (content : list byte)
  : result pystr :=
  let s := List.map Byte.to_N content in
  if pystr_eqb encoding (py "utf-8") then Ok (utf8_decode_ignore s)
  else if pystr_eqb encoding (py "utf-8-sig") then
    Ok (utf8_decode_ignore
          (if startswith [239; 187; 191]%N s then skipn 3 s else s))
  else if pystr_eqb encoding (py "latin1") ||
          pystr_eqb encoding (py "iso-8859-1") then Ok s
  else if pystr_eqb encoding (py "cp1252") then Ok (cp1252_decode_ignore s)
  else Raise (Exn LookupError (py "unknown encoding: " ++ encoding)).

(** What text mode does to line ends on reading (the default
    [newline=None]): ["\r\n"] and a lone ["\r"] are read as ["\n"]. *)
Fixpoint universal_newlines (s : pystr) : pystr :=
  match s with
  | [] => []
  | c :: r =>
      if (c =? 13)%N then
        match r with
        | c2 :: r2 =>
            if (c2 =? 10)%N then 10%N :: universal_newlines r2
            else 10%N :: universal_newlines r
        | [] => [10%N]
        end
      else c :: universal_newlines r
  end.

(* ================================================================== *)
(** * The outside world: calls, answers, and the monad [M] *)
(* ================================================================== *)

(** The request both providers are sent. *)
Record chat_request : Type := {
  req_model : pystr;
  req_system : pystr;
  req_user : pystr;
  req_temperature : Q;
  req_max_tokens : Z
}.

(** Every call that leaves the process or reaches a third-party library,
    as it appears in the trace. *)
Inductive event : Type :=
| EvExists (path : pystr)
| EvMkdtemp
| EvRun (cmd : list pystr) (timeout : Z)
| EvGlob (dir pattern : pystr)
| EvMkdir (path : pystr)
| EvMove (src dst : pystr)
| EvStat (path : pystr)
| EvCleanup (dir : pystr)
| EvMagic (path : pystr)
| EvOpen (path mode : pystr) (encoding : option pystr)
| EvImport (module name : pystr)
| EvPdfReader (path : pystr)
| EvDocument (path : pystr)
| EvReadExcel (path : pystr)
| EvOpenAI (req : chat_request)
| EvAnthropic (req : chat_request).

Definition trace : Type := list event.

(** [subprocess.CompletedProcess] *)
Record completed_process : Type := { returncode : Z; stderr : pystr }.

(** A PDF reader object: whether it has the attribute [pages] (the current
    API) and, page by page, what extracting the text gives. *)
Record pdf_reader : Type := {
  has_pages : bool;
  page_texts : list (result pystr)
}.

(** The answers of the operating system, of the third-party extractors and
    of the model provider during one call of a service. *)
Record Env : Type := {
  (** [Path.exists()]: whether the file is there, or the [OSError] that
      [exists] lets through: it answers [False] for a missing file or
      directory and for a path that cannot be encoded, and the versions
      of [pathlib] that look at the [errno] re-raise the other faults of
      [stat] (a directory that may not be searched, for one) *)
  env_exists : pystr -> result bool;
  env_mkdtemp : result pystr;
  env_run : list pystr -> result completed_process;
  env_glob : pystr -> pystr -> result (list pystr);
  env_mkdir : pystr -> result unit;
  env_move : pystr -> pystr -> result unit;
  env_stat_size : pystr -> result Z;
  env_cleanup : pystr -> result unit;
  env_magic : pystr -> result pystr;
  (** opening the file and reading all of it: its bytes, or the fault *)
  env_open : pystr -> result (list byte);
  env_import : pystr -> pystr -> result unit;
  env_pdf_reader : pystr -> result pdf_reader;
  env_document : pystr -> result (list pystr);
  env_read_excel : pystr -> result pystr;
  env_openai : chat_request -> result (list (option pystr));
  env_anthropic : chat_request -> result (list (option pystr));
  (** [datetime.utcnow()] at the entry of [extract_data] and when it builds
      its outcome, in microseconds *)
  env_utcnow_entry : Z;
  env_utcnow_exit : Z
}.

(** A computation that may raise and that appends its calls to the trace. *)
Definition M (A : Type) : Type := trace -> result A * trace.

Definition ret {A : Type} (a : A) : M A := fun t => (Ok a, t).

Definition bind {A B : Type} (m : M A) (k : A -> M B) : M B :=
  fun t => match m t with
           | (Ok a, t') => k a t'
           | (Raise e, t') => (Raise e, t')
           end.

Definition raise {A : Type} (e : exn) : M A := fun t => (Raise e, t).

Definition lift {A : Type} (r : result A) : M A := fun t => (r, t).

(** A call to the outside: the event is recorded, the answer returned. *)
Definition call {A : Type} (ev : event) (answer : result A) : M A :=
  fun t => (answer, t ++ [ev]).

(** [try: body  except bases as e: handler e] *)
Definition try_except {A : Type} (body : M A) (bases : list exn_class)
    (handler : exn -> M A) : M A :=
  fun t => match body t with
           | (Ok a, t') => (Ok a, t')
           | (Raise e, t') =>
               if catches bases e then handler e t' else (Raise e, t')
           end.

Notation "x <- c ;; k" := (bind c (fun x => k))
  (at level 61, c at next level, right associativity) : py_scope.

(** [with tempfile.TemporaryDirectory() as temp_dir: body]: the directory
    is removed when the block is left, whichever way; a fault of the
    removal replaces the block's result. *)
Definition with_TemporaryDirectory {A : Type} (env : Env)
    (body : pystr -> M A) : M A :=
  temp_dir <- call EvMkdtemp (env_mkdtemp env) ;;
  fun t =>
    let (r, t') := body temp_dir t in
    match call (EvCleanup temp_dir) (env_cleanup env temp_dir) t' with
    | (Ok _, t'') => (r, t'')
    | (Raise e, t'') => (Raise e, t'')
    end.

(* ================================================================== *)
(** * [ConversionService] *)
(* ================================================================== *)

(** The [dict] [convert_document] returns: with [success] true the keys
    [output_path], [file_size] and [format]; with [success] false the keys
    [error] and [format]. *)
Inductive conversion_outcome : Type :=
| ConvSuccess (output_path : pystr) (file_size : Z) (format : pystr)
| ConvFailure (error : pystr) (format : pystr).

(** The chain of [if]/[elif] on [output_format]: the LibreOffice filter
    name and the extension of the file it writes. *)
Definition conversion_parameters (output_format : pystr)
  : result (pystr * pystr) :=
  if pystr_eqb output_format (py "pdf")
  then Ok (py "writer_pdf_Export", py ".pdf")
  else if pystr_eqb output_format (py "txt")
  then Ok (py "Text (encoded)", py ".txt")
  else if pystr_eqb output_format (py "csv")
  then Ok (py "Text - txt - csv (StarCalc)", py ".csv")
  else if pystr_eqb output_format (py "html")
  then Ok (py "HTML (StarWriter)", py ".html")
  else Raise (Exn ValueError (py "Unsupported output format: " ++ output_format)).

(** [ConversionService.convert_document]; [storage_path] is
    [self.storage_path].  First the block under
    [with tempfile.TemporaryDirectory()]. *)
Definition in_temporary_directory (h : Host) (env : Env)
    (storage_path input_file output_format temp_dir : pystr)
  : M conversion_outcome :=
  let temp_path := host_path_str h temp_dir in
  params <- lift (conversion_parameters output_format) ;;
  let extension := snd params in
  let cmd := [py "libreoffice"; py "--headless"; py "--convert-to";
              output_format; py "--outdir"; temp_path; input_file] in
  result <- call (EvRun cmd 60) (env_run env cmd) ;;
  if negb (returncode result =? 0)%Z
  then raise (Exn RuntimeError
                (py "LibreOffice conversion failed: " ++ stderr result))
  else
    converted_files <-
      call (EvGlob temp_path (py "*" ++ extension))
           (env_glob env temp_path (py "*" ++ extension)) ;;
    match converted_files with
    | [] => raise (Exn RuntimeError (py "No converted file found"))
    | converted_file :: _ =>
        let output_filename :=
          host_path_stem h input_file ++ py "_" ++ output_format ++ extension in
        let output_path :=
          host_path_join h (host_path_join h storage_path (py "conversions"))
            output_filename in
        let parent := host_path_parent h output_path in
        _ <- call (EvMkdir parent) (env_mkdir env parent) ;;
        _ <- call (EvMove converted_file output_path)
                  (env_move env converted_file output_path) ;;
        file_size <- call (EvStat output_path) (env_stat_size env output_path) ;;
        ret (ConvSuccess output_path file_size output_format)
    end.

(** The body of the [try] of [convert_document]. *)
Definition convert_document_body (h : Host) (env : Env) (storage_path : pystr)
    (input_path output_format : pystr) : M conversion_outcome :=
  let input_file := host_path_str h input_path in
  found <- call (EvExists input_file) (env_exists env input_file) ;;
  if negb found
  then raise (Exn FileNotFoundError (py "Input file not found: " ++ input_path))
  else with_TemporaryDirectory env
         (in_temporary_directory h env storage_path input_file output_format).

Definition convert_document (h : Host) (env : Env) (storage_path : pystr)
    (input_path output_format : pystr) : M conversion_outcome :=
  try_except
    (convert_document_body h env storage_path input_path output_format)
    [Exception]
    (fun e => ret (ConvFailure (exn_text e) output_format)).

(** One attempt of the loop of [_safe_read_text]:
    [open(file_path, 'r', encoding=encoding, errors='ignore')] and
    [f.read()]. *)
Definition read_text (env : Env) (file_path encoding : pystr) : M pystr :=
  content <- call (EvOpen file_path (py "r") (Some encoding))
                  (env_open env file_path) ;;
  text <- lift (decode_ignore encoding content) ;;
  ret (universal_newlines text).

(** The [for] loop of [_safe_read_text]: the first attempt that does not
    raise a [UnicodeError] ends the function; [otherwise] is the code
    after the loop. *)
Fixpoint try_encodings (env : Env) (file_path : pystr)
    (encodings : list pystr) (otherwise : M pystr) : M pystr :=
  match encodings with
  | [] => otherwise
  | encoding :: rest =>
      try_except (read_text env file_path encoding)
        [UnicodeDecodeError; UnicodeError]
        (fun _ => try_encodings env file_path rest otherwise)
  end.

Definition encodings : list pystr :=
  [py "utf-8"; py "utf-8-sig"; py "latin1"; py "cp1252"; py "iso-8859-1"].

(** [ConversionService._safe_read_text] *)
Definition _safe_read_text (env : Env) (file_path : pystr) : M pystr :=
  try_encodings env file_path encodings
    (try_except
       (content <- call (EvOpen file_path (py "rb") None)
                        (env_open env file_path) ;;
        ret (utf8_decode_ignore (List.map Byte.to_N content)))
       [Exception]
       (fun e => ret (py "Error reading file: " ++ exn_text e))).

(** [text += page_text + "\n"] over the pages. *)
Fixpoint concat_pages (pages : list (result pystr)) (text : pystr)
  : result pystr :=
  match pages with
  | [] => Ok text
  | page :: rest =>
      page_text <-! page ;; concat_pages rest (text ++ page_text ++ [10%N])
  end.

(** [ConversionService._extract_pdf_text] *)
Definition _extract_pdf_text (env : Env) (file_path : pystr) : M pystr :=
  try_except
    (_ <- try_except
            (call (EvImport (py "PyPDF2") (py "PdfReader"))
                  (env_import env (py "PyPDF2") (py "PdfReader")))
            [ImportError]
            (fun _ => call (EvImport (py "pypdf2") (py "PdfFileReader"))
                           (env_import env (py "pypdf2") (py "PdfFileReader"))) ;;
     reader <- call (EvPdfReader file_path) (env_pdf_reader env file_path) ;;
     if has_pages reader
     then lift (concat_pages (page_texts reader) [])
     else lift (concat_pages (page_texts reader) []))
    [ImportError]
    (fun _ => raise (Exn RuntimeError
                       (py "PyPDF2/pypdf2 not available for PDF text extraction"))).

(** [ConversionService._extract_docx_text] *)
Definition _extract_docx_text (env : Env) (file_path : pystr) : M pystr :=
  try_except
    (_ <- call (EvImport (py "docx") (py "Document"))
               (env_import env (py "docx") (py "Document")) ;;
     paragraphs <- call (EvDocument file_path) (env_document env file_path) ;;
     ret (flat_map (fun text => text ++ [10%N]) paragraphs))
    [ImportError]
    (fun _ => raise (Exn RuntimeError
                       (py "python-docx not available for DOCX text extraction"))).

(** [ConversionService._extract_excel_text] *)
Definition _extract_excel_text (env : Env) (file_path : pystr) : M pystr :=
  try_except
    (_ <- call (EvImport (py "pandas") []) (env_import env (py "pandas") []) ;;
     call (EvReadExcel file_path) (env_read_excel env file_path))
    [ImportError]
    (fun _ => raise (Exn RuntimeError
                       (py "pandas/openpyxl not available for Excel text extraction"))).

(** [ConversionService._extract_powerpoint_text] *)
Definition _extract_powerpoint_text (h : Host) (env : Env)
    (storage_path file_path : pystr) : M pystr :=
  try_except
    (result <- convert_document h env storage_path file_path (py "txt") ;;
     match result with
     | ConvSuccess output_path _ _ => _safe_read_text env output_path
     | ConvFailure error _ =>
         raise (Exn RuntimeError (py "PowerPoint conversion failed: " ++ error))
     end)
    [Exception]
    (fun e => ret (py "Error extracting PowerPoint text: " ++ exn_text e)).

Definition mime_word : list pystr :=
  [py "application/vnd.openxmlformats-officedocument.wordprocessingml.document";
   py "application/msword"].
Definition mime_excel : list pystr :=
  [py "application/vnd.openxmlformats-officedocument.spreadsheetml.sheet";
   py "application/vnd.ms-excel"].
Definition mime_powerpoint : list pystr :=
  [py "application/vnd.openxmlformats-officedocument.presentationml.presentation";
   py "application/vnd.ms-powerpoint"].

(** [x in [a, b]] for strings *)
Definition in_list (x : pystr) (l : list pystr) : bool :=
  existsb (pystr_eqb x) l.

(** The strategy [extract_text] picks for a MIME type. *)
Inductive strategy : Type :=
| Pdf | Word | Excel | PowerPoint | PlainText | Fallback.

Definition dispatch (file_type : pystr) : strategy :=
  if pystr_eqb file_type (py "application/pdf") then Pdf
  else if in_list file_type mime_word then Word
  else if in_list file_type mime_excel then Excel
  else if in_list file_type mime_powerpoint then PowerPoint
  else if startswith (py "text/") file_type then PlainText
  else Fallback.

(** The body of the [try] of [extract_text] once the type is known. *)
Definition run_strategy (h : Host) (env : Env) (storage_path file_path : pystr)
    (s : strategy) : M pystr :=
  match s with
  | Pdf => _extract_pdf_text env file_path
  | Word => _extract_docx_text env file_path
  | Excel => _extract_excel_text env file_path
  | PowerPoint => _extract_powerpoint_text h env storage_path file_path
  | PlainText => _safe_read_text env file_path
  | Fallback =>
      result <- convert_document h env storage_path file_path (py "txt") ;;
      match result with
      | ConvSuccess output_path _ _ => _safe_read_text env output_path
      | ConvFailure error _ =>
          raise (Exn RuntimeError (py "Could not extract text: " ++ error))
      end
  end.

(** The body of the [try] of [extract_text]. *)
Definition extract_text_body (h : Host) (env : Env)
    (storage_path file_path : pystr) : M pystr :=
  file_type <- call (EvMagic file_path) (env_magic env file_path) ;;
  run_strategy h env storage_path file_path (dispatch file_type).

(** [ConversionService.extract_text] *)
Definition extract_text (h : Host) (env : Env) (storage_path file_path : pystr)
  : M pystr :=
  try_except (extract_text_body h env storage_path file_path)
    [Exception]
    (fun _ => ret []).

(* ================================================================== *)
(** * [LLMService] *)
(* ================================================================== *)

(** [LLMConfig] *)
Record LLMConfig : Type := {
  provider : pystr;
  model : pystr;
  api_key : pystr;
  temperature : Q;
  max_tokens : Z
}.

(** The [dict] [extract_data] returns.  A key the source leaves out of a
    branch is [None] here; [processing_time_seconds] is in all of them. *)
Record extraction_outcome : Type := {
  success : bool;
  extracted_data : option json;
  error : option pystr;
  raw_response : option pystr;
  processing_time_seconds : Q
}.

(** [(later - earlier).total_seconds()], both in microseconds. *)
Definition total_seconds (later earlier : Z) : Q :=
  Qmake (later - earlier) 1000000.

Definition request (cfg : LLMConfig) (system_prompt user_prompt : pystr)
  : chat_request :=
  {| req_model := model cfg;
     req_system := system_prompt;
     req_user := user_prompt;
     req_temperature := temperature cfg;
     req_max_tokens := max_tokens cfg |}.

(** [LLMService._call_openai]: [response.choices[0].message.content],
    which the API leaves [None] in some answers. *)
Definition _call_openai (env : Env) (cfg : LLMConfig)
    (system_prompt user_prompt : pystr) : M (option pystr) :=
  let req := request cfg system_prompt user_prompt in
  choices <- call (EvOpenAI req) (env_openai env req) ;;
  match choices with
  | content :: _ => ret content
  | [] => raise (Exn IndexError (py "list index out of range"))
  end.

(** [LLMService._call_anthropic]: [response.content[0].text]; a block that
    is no text block has no such attribute. *)
Definition _call_anthropic (env : Env) (cfg : LLMConfig)
    (system_prompt user_prompt : pystr) : M (option pystr) :=
  let req := request cfg system_prompt user_prompt in
  blocks <- call (EvAnthropic req) (env_anthropic env req) ;;
  match blocks with
  | Some text :: _ => ret (Some text)
  | None :: _ =>
      raise (Exn AttributeError
               (py "'ToolUseBlock' object has no attribute 'text'"))
  | [] => raise (Exn IndexError (py "list index out of range"))
  end.

(** The assembly of the user prompt: [str.format], and the literal
    replacement when it raises [KeyError]. *)
Definition assemble_prompt (h : Host) (user_prompt_template document_text : pystr)
  : M pystr :=
  try_except
    (lift (str_format h user_prompt_template document_text))
    [KeyError]
    (fun _ => ret (replace (py "{document}") document_text user_prompt_template)).

Definition FENCE : pystr := py "```".
Definition FENCE_JSON : pystr := py "```json".

(** The cleaning of the answer: the lines from [response.strip()] to the
    second [strip()]. *)
Definition clean_text (response : pystr) : pystr :=
  let cleaned_response := strip response in
  let cleaned_response :=
    if startswith FENCE_JSON cleaned_response
    then slice_from 7 cleaned_response else cleaned_response in
  let cleaned_response :=
    if startswith FENCE cleaned_response
    then slice_from 3 cleaned_response else cleaned_response in
  let cleaned_response :=
    if endswith FENCE cleaned_response
    then slice_drop_last 3 cleaned_response else cleaned_response in
  strip cleaned_response.

(** The same on what the provider call returned, [None] included. *)
Definition clean_response (response : option pystr) : result pystr :=
  match response with
  | Some text => Ok (clean_text text)
  | None =>
      Raise (Exn AttributeError
               (py "'NoneType' object has no attribute 'strip'"))
  end.

Definition schema_instruction (h : Host) (json_schema : list (pystr * json))
  : pystr :=
  [10; 10]%N ++
  py "You must respond with valid JSON that conforms to this schema:" ++
  [10%N] ++ json_dumps_indent2 h (JObj json_schema).

(** The dispatch on [self.config.provider]. *)
Definition call_provider (env : Env) (cfg : LLMConfig)
    (full_system_prompt user_prompt : pystr) : M (option pystr) :=
  if pystr_eqb (provider cfg) (py "openai")
  then _call_openai env cfg full_system_prompt user_prompt
  else if pystr_eqb (provider cfg) (py "anthropic")
  then _call_anthropic env cfg full_system_prompt user_prompt
  else raise (Exn ValueError (py "Unsupported provider: " ++ provider cfg)).

(** The body of the inner [try]: clean, parse, validate. *)
Definition parse_and_validate (h : Host) (response : option pystr)
    (json_schema : list (pystr * json)) : result json :=
  cleaned_response <-! clean_response response ;;
  extracted_data <-! json_loads h cleaned_response ;;
  _validate_against_schema h extracted_data json_schema ;;!
  Ok extracted_data.

(** The three [dict]s [extract_data] returns. *)
Definition success_outcome (data : json) (response : option pystr) (elapsed : Q)
  : extraction_outcome :=
  {| success := true;
     extracted_data := Some data;
     error := None;
     raw_response := response;
     processing_time_seconds := elapsed |}.

Definition invalid_response_outcome (e : exn) (response : option pystr)
    (elapsed : Q) : extraction_outcome :=
  {| success := false;
     extracted_data := None;
     error := Some (py "Invalid JSON response: " ++ exn_text e);
     raw_response := response;
     processing_time_seconds := elapsed |}.

Definition failure_outcome (e : exn) (elapsed : Q) : extraction_outcome :=
  {| success := false;
     extracted_data := None;
     error := Some (exn_text e);
     raw_response := None;
     processing_time_seconds := elapsed |}.

(** The body of the outer [try] of [extract_data]. *)
Definition extract_data_body (h : Host) (env : Env) (cfg : LLMConfig)
    (document_text system_prompt user_prompt_template : pystr)
    (json_schema : list (pystr * json)) (elapsed : Q) : M extraction_outcome :=
  user_prompt <- assemble_prompt h user_prompt_template document_text ;;
  let full_system_prompt := system_prompt ++ schema_instruction h json_schema in
  response <- call_provider env cfg full_system_prompt user_prompt ;;
  parsed <-
    try_except
      (extracted_data <- lift (parse_and_validate h response json_schema) ;;
       ret (inl extracted_data))
      [JSONDecodeError; ValidationError]
      (fun e => ret (inr (invalid_response_outcome e response elapsed))) ;;
  match parsed with
  | inr invalid => ret invalid
  | inl extracted_data => ret (success_outcome extracted_data response elapsed)
  end.

(** [LLMService.extract_data]; [cfg] is [self.config]. *)
Definition extract_data (h : Host) (env : Env) (cfg : LLMConfig)
    (document_text system_prompt user_prompt_template : pystr)
    (json_schema : list (pystr * json)) : M extraction_outcome :=
  let start_time := env_utcnow_entry env in
  let elapsed := total_seconds (env_utcnow_exit env) start_time in
  try_except
    (extract_data_body h env cfg document_text system_prompt
       user_prompt_template json_schema elapsed)
    [Exception]
    (fun e => ret (failure_outcome e elapsed)).

(* ================================================================== *)
(** * Texts, a host and a world for the examples *)
(* ================================================================== *)

(** [s] between double quotes. *)
Definition quoted (s : string) : pystr := 34%N :: py s ++ [34%N].

(** A text inside a Markdown code fence: the opening fence with its
    language tag, the text on lines of its own, the closing fence. *)
Definition fenced (tag text : pystr) : pystr :=
  FENCE ++ tag ++ [10%N] ++ text ++ [10%N] ++ FENCE.

(** The text [{"vendor": "Acme"}] and the schema [{"required": ["vendor"]}]. *)
Definition vendor_text : pystr :=
  py "{" ++ quoted "vendor" ++ py ": " ++ quoted "Acme" ++ py "}".
Definition vendor_schema : list (pystr * json) :=
  [(py "required", JArr [JStr (py "vendor")])].

(** The text [{"total": "9720"}], the text [{"total": true}] and the
    schema [{"required": ["total"], "properties": {"total": {"type":
    "number"}}}], with and without its [required] list. *)
Definition total_text : pystr :=
  py "{" ++ quoted "total" ++ py ": " ++ quoted "9720" ++ py "}".
Definition total_properties : pystr * json :=
  (py "properties", JObj [(py "total", JObj [(py "type", JStr (py "number"))])]).
Definition total_schema : list (pystr * json) :=
  [(py "required", JArr [JStr (py "total")]); total_properties].

(** A host with CPython's and pydantic 2's wording, whose [repr] and
    decimal digits are right for the ASCII texts of the examples. *)
Definition example_host : Host := {|
  host_repr := fun s => 39%N :: s ++ [39%N];
  host_to_decimal := fun c => if is_digit c then Some (c - 48)%N else None;
  host_format_field := fun _ _ _ _ =>
    Raise (Exn ValueError (py "Invalid format specifier"));
  host_float_repr := fun l => l;
  host_float_eq := pystr_eqb;
  host_float_eq_int := fun _ _ => false;
  host_json_error_text := fun _ => py "Expecting value: line 1 column 1 (char 0)";
  host_int_max_str_digits := 4300;
  host_json_depth := 1000;
  host_pydantic_ctor_text := py "No constructor defined";
  host_path_str := fun p => p;
  host_path_stem := fun p => p;
  host_path_parent := fun p => p;
  host_path_join := fun a b => a ++ 47%N :: b
|}.

Definition unavailable {A : Type} : result A :=
  Raise (Exn OSError (py "unavailable")).

(** A world in which the input file is there or not ([found]), [magic]
    answers [mime], opening a file gives [content], and the provider
    answers [answer]; scratch directories can be made and removed, and
    nothing else is available. *)
Definition example_env (found : bool) (mime : result pystr)
    (content : result (list byte)) (answer : result (list (option pystr)))
  : Env := {|
  env_exists := fun _ => Ok found;
  env_mkdtemp := Ok (py "/tmp/tmpk3x9");
  env_run := fun _ => unavailable;
  env_glob := fun _ _ => unavailable;
  env_mkdir := fun _ => unavailable;
  env_move := fun _ _ => unavailable;
  env_stat_size := fun _ => unavailable;
  env_cleanup := fun _ => Ok tt;
  env_magic := fun _ => mime;
  env_open := fun _ => content;
  env_import := fun _ _ => unavailable;
  env_pdf_reader := fun _ => unavailable;
  env_document := fun _ => unavailable;
  env_read_excel := fun _ => unavailable;
  env_openai := fun _ => answer;
  env_anthropic := fun _ => answer;
  env_utcnow_entry := 1000000;
  env_utcnow_exit := 3500000
|}.

(** A world whose provider answers [text]. *)
Definition answering (text : pystr) : Env :=
  example_env false unavailable unavailable (Ok [Some text]).

Definition example_config : LLMConfig := {|
  provider := py "openai";
  model := py "gpt-4o";
  api_key := py "sk-example";
  temperature := 1 # 10;
  max_tokens := 4000
|}.

(* ================================================================== *)
(** * Notions the statements use *)
(* ================================================================== *)

(** A fault that the handler [except (json.JSONDecodeError,
    ValidationError)] does not take. *)
Definition passes_inner_handler (e : exn) : Prop :=
  catches [JSONDecodeError; ValidationError] e = false.



(** The formats [convert_document] has a branch for. *)
Definition supported_formats : list pystr :=
  [py "pdf"; py "txt"; py "csv"; py "html"].

(** The events of a trace that start the external converter. *)
Definition is_run (ev : event) : bool :=
  match ev with
  | EvRun _ _ => true
  | _ => false
  end.

Definition converter_runs (t : trace) : list event := List.filter is_run t.

(** The six attempts of [_safe_read_text] on a file that cannot be
    opened. *)
Definition all_attempts (file_path : pystr) : trace :=
  List.map (fun encoding => EvOpen file_path (py "r") (Some encoding)) encodings
  ++ [EvOpen file_path (py "rb") None].

(** A character that can begin or end a JSON value: no whitespace of
    either kind, no backquote, no byte-order mark. *)
Definition token_char (c : N) : bool :=
  negb (py_isspace c) && negb (c =? 96)%N && negb (c =? BOM)%N.

(** The text begins, and ends, with such a character. *)
Definition starts_solid (s : pystr) : Prop :=
  exists c r, s = c :: r /\ token_char c = true.

Definition ends_solid (s : pystr) : Prop :=
  exists r c, s = r ++ [c] /\ token_char c = true.

(** The text does not go on with a character [bad] for what precedes it. *)
Definition head_avoids (bad : N -> bool) (x : pystr) : Prop :=
  match x with
  | [] => True
  | c :: _ => bad c = false
  end.

(** A character that would make a number longer. *)
Definition number_char (c : N) : bool :=
  (is_digit c || (c =? 46) || (c =? 101) || (c =? 69))%N.

(** What a fraction or an exponent looks like: nothing, or a text that
    begins with [first] and ends with a digit. *)
Definition optional_part (first : N -> bool) (p : pystr) : Prop :=
  p = [] \/
  (exists c r, p = c :: r /\ first c = true) /\
  (exists pre z, p = pre ++ [z] /\ is_digit z = true).

Definition is_point (c : N) : bool := (c =? 46)%N.

Definition is_e (c : N) : bool := ((c =? 101) || (c =? 69))%N.

(** A text that is a number: it begins with a digit, or with a minus sign
    and a digit, and ends with a digit. *)
Definition number_shape (body : pystr) : Prop :=
  ((exists c r, body = c :: r /\ is_digit c = true) \/
   (exists c r, body = 45%N :: c :: r /\ is_digit c = true)) /\
  (exists pre z, body = pre ++ [z] /\ is_digit z = true).

(** What a successful scan has read: a text [body] that begins and ends
    with a solid character, and that is read the same way whatever
    follows it, as long as that does not make a number longer. *)
Definition local_scan (f : pystr -> scan json) (s : pystr) (v : json)
    (rest : pystr) : Prop :=
  exists body,
    s = body ++ rest /\ starts_solid body /\ ends_solid body /\
    forall x, head_avoids number_char x -> f (body ++ x) = Scanned v x.

(* ================================================================== *)
(** * Templates written piece by piece *)
(* ================================================================== *)

(** What a prompt template is made of: literal text, the placeholder
    [{document}], a brace written twice, and a replacement field of
    another name. *)
Inductive piece : Type :=
| Text (s : pystr)
| Placeholder
| Brace (closing : bool)
| Field (name : pystr).

(** The piece as it stands in the template. *)
Definition piece_source (p : piece) : pystr :=
  match p with
  | Text s => s
  | Placeholder => py "{document}"
  | Brace false => py "{{"
  | Brace true => py "}}"
  | Field name => 123%N :: name ++ [125%N]
  end.

Definition template_of (pieces : list piece) : pystr :=
  flat_map piece_source pieces.

(** What the piece stands for once [str.format] has run: the document for
    the placeholder, one brace for a brace written twice. *)
Definition piece_value (document : pystr) (p : piece) : pystr :=
  match p with
  | Text s => s
  | Placeholder => document
  | Brace false => [123%N]
  | Brace true => [125%N]
  | Field name => 123%N :: name ++ [125%N]
  end.

(** What the piece stands for after the literal replacement of
    [{document}]: only the placeholder changes. *)
Definition piece_literal (document : pystr) (p : piece) : pystr :=
  match p with
  | Placeholder => document
  | _ => piece_source p
  end.

Definition is_brace (c : N) : bool := ((c =? 123) || (c =? 125))%N.

(** A character with a meaning of its own inside a replacement field. *)
Definition is_field_syntax (c : N) : bool :=
  (is_brace c || (c =? 91) || (c =? 93) || (c =? 46) || (c =? 58) ||
   (c =? 33))%N.

(** Literal text has no brace.  The name of a field is not empty, does not
    begin with a decimal digit, is not [document], and has none of the
    characters ['{'], ['}'], ['['], [']'], ['.'], [':'], ['!']. *)
Definition well_formed (h : Host) (p : piece) : Prop :=
  match p with
  | Text s => existsb is_brace s = false
  | Field name =>
      (exists c r, name = c :: r /\ host_to_decimal h c = None) /\
      existsb is_field_syntax name = false /\
      name <> py "document"
  | _ => True
  end.

Definition is_field (p : piece) : bool :=
  match p with Field _ => true | _ => false end.

Definition is_escaped (p : piece) : bool :=
  match p with Brace _ => true | _ => false end.

(** The name of the first field of another name. *)
Fixpoint first_field (pieces : list piece) : option pystr :=
  match pieces with
  | [] => None
  | Field name :: _ => Some name
  | _ :: rest => first_field rest
  end.

(* ================================================================== *)
(** * What one conversion does *)
(* ================================================================== *)

(** The command line [convert_document] starts LibreOffice with. *)
Definition libreoffice_command (h : Host)
    (output_format temp_dir input_file : pystr) : list pystr :=
  [py "libreoffice"; py "--headless"; py "--convert-to"; output_format;
   py "--outdir"; host_path_str h temp_dir; input_file].

(** Where the converted file is stored:
    [storage_path / "conversions" / f"{stem}_{output_format}{extension}"]. *)
Definition stored_path (h : Host)
    (storage_path input_file output_format extension : pystr) : pystr :=
  host_path_join h (host_path_join h storage_path (py "conversions"))
    (host_path_stem h input_file ++ py "_" ++ output_format ++ extension).

(** The events of a conversion that succeeds. *)
Definition successful_conversion (h : Host)
    (storage_path input_file output_format extension temp_dir converted : pystr)
  : trace :=
  let output_path :=
    stored_path h storage_path input_file output_format extension in
  [EvExists input_file; EvMkdtemp;
   EvRun (libreoffice_command h output_format temp_dir input_file) 60;
   EvGlob (host_path_str h temp_dir) (py "*" ++ extension);
   EvMkdir (host_path_parent h output_path);
   EvMove converted output_path;
   EvStat output_path;
   EvCleanup temp_dir].

(** The events that make or remove a scratch directory, and the events
    that change the storage. *)
Definition is_scratch (ev : event) : bool :=
  match ev with
  | EvMkdtemp | EvCleanup _ => true
  | _ => false
  end.

Definition changes_storage (ev : event) : bool :=
  match ev with
  | EvMkdir _ | EvMove _ _ => true
  | _ => false
  end.

(* ================================================================== *)
(** * What text extraction touches, and UTF-8 as it is written *)
(* ================================================================== *)

(** The events of an extraction that reads the file in place: the type
    detection, the import of an extractor, the extractor at work, the
    opening of the file. *)
Definition reads_in_place (ev : event) : bool :=
  match ev with
  | EvMagic _ | EvImport _ _ | EvPdfReader _ | EvDocument _ | EvReadExcel _
  | EvOpen _ _ _ => true
  | _ => false
  end.

(** The strategies that read the file in place; the two others convert it
    with LibreOffice first. *)
Definition in_place (s : strategy) : bool :=
  match s with
  | Pdf | Word | Excel | PlainText => true
  | PowerPoint | Fallback => false
  end.

(** The bytes UTF-8 writes for one code point. *)
Definition utf8_encode_char (c : N) : list N :=
  if (c <? 128)%N then [c]
  else if (c <? 2048)%N then [192 + c / 64; 128 + c mod 64]%N
  else if (c <? 65536)%N
  then [224 + c / 4096; 128 + (c / 64) mod 64; 128 + c mod 64]%N
  else [240 + c / 262144; 128 + (c / 4096) mod 64; 128 + (c / 64) mod 64;
        128 + c mod 64]%N.

Definition utf8_encode (s : pystr) : list N := flat_map utf8_encode_char s.

(** A code point UTF-8 can write: up to [U+10FFFF], no surrogate. *)
Definition is_scalar (c : N) : bool :=
  ((c <? 55296) || (57343 <? c) && (c <? 1114112))%N.

(** The text has a carriage return. *)
Definition has_cr (s : pystr) : bool := existsb (N.eqb 13) s.

(** The events that try to import an extractor library. *)
Definition is_import (ev : event) : bool :=
  match ev with
  | EvImport _ _ => true
  | _ => false
  end.

(* ================================================================== *)
(** * Schemas as the validator reads them *)
(* ================================================================== *)

(** The declared type of a property: [field_schema.get("type")]. *)
Definition declared_type (field_schema : list (pystr * json)) : json :=
  match dict_get (py "type") field_schema with
  | Some declared => declared
  | None => JNull
  end.

(** The value is of the declared type, as far as the validator looks:
    ["string"], ["number"] and ["array"] are checked, any other
    declaration passes. *)
Definition type_matches (declared v : json) : bool :=
  match declared with
  | JStr s =>
      if pystr_eqb s (py "string") then isinstance_str v
      else if pystr_eqb s (py "number") then isinstance_int_float v
      else if pystr_eqb s (py "array") then isinstance_list v
      else true
  | _ => true
  end.

(** A property that is present is of its declared type. *)
Definition property_conforms (d : list (pystr * json))
    (property : pystr * list (pystr * json)) : bool :=
  match dict_get (fst property) d with
  | Some v => type_matches (declared_type (snd property)) v
  | None => true
  end.

(** The [dict] [d] has every required name, and each of its properties
    that the schema declares is of the declared type. *)
Definition conforms (d : list (pystr * json)) (required : list pystr)
    (properties : list (pystr * list (pystr * json))) : bool :=
  forallb (fun field => dict_has field d) required &&
  forallb (property_conforms d) properties.

(** The schema lists [required] under ["required"] (or has no such key
    and [required] is empty), and declares [properties] under
    ["properties"] (or has no such key and there are none). *)
Definition schema_requires (schema : list (pystr * json))
    (required : list pystr) : Prop :=
  match dict_get (py "required") schema with
  | Some v => v = JArr (List.map JStr required)
  | None => required = []
  end.

Definition schema_declares (schema : list (pystr * json))
    (properties : list (pystr * list (pystr * json))) : Prop :=
  match dict_get (py "properties") schema with
  | Some v => v = JObj (List.map (fun p => (fst p, JObj (snd p))) properties)
  | None => properties = []
  end.

(* ================================================================== *)
(** * [LLMService.__init__] and the extraction endpoint of [app/main.py] *)
(* ================================================================== *)

(** The two client classes of the provider libraries: what constructing
    a client from an API key gives, a client or a fault. *)
Inductive llm_client : Type :=
| OpenAIClient (api_key : pystr)
| AnthropicClient (api_key : pystr).

Record Sdk : Type := {
  openai_OpenAI : pystr -> result llm_client;
  anthropic_Anthropic : pystr -> result llm_client
}.

(** An [LLMService] object: [self.config] and [self.client]. *)
Record LLMService : Type := {
  service_config : LLMConfig;
  service_client : llm_client
}.

(** [LLMService.__init__] *)
Definition LLMService_init (sdk : Sdk) (config : LLMConfig)
  : result LLMService :=
  if pystr_eqb (provider config) (py "openai") then
    client <-! openai_OpenAI sdk (api_key config) ;;
    Ok {| service_config := config; service_client := client |}
  else if pystr_eqb (provider config) (py "anthropic") then
    client <-! anthropic_Anthropic sdk (api_key config) ;;
    Ok {| service_config := config; service_client := client |}
  else Raise (Exn ValueError (py "Unsupported LLM provider: " ++ provider config)).

(** [STORAGE_PATH] of [app/main.py], which the conversion service of the
    application is constructed with. *)
Definition STORAGE_PATH : pystr := py "/app/storage".

(** [HTTPException(status_code=..., detail=...)] *)
Record HTTPException : Type := {
  status_code : Z;
  detail : pystr
}.

(** The columns of [ProcessingTemplate] the extraction reads. *)
Record ProcessingTemplate : Type := {
  template_system_prompt : pystr;
  template_user_prompt_template : pystr;
  template_json_schema : list (pystr * json);
  preferred_format : pystr
}.

(** The block "Get document in preferred format" of the endpoint
    [extract_data] of [app/main.py].  [conversion] is the answer of the
    query for a stored successful conversion of the artifact to the
    preferred format: the [file_path] of the first row, [None] when there
    is no row, or the fault of the query.  The block gives the document
    text, or the [HTTPException] it raises. *)
Definition get_document_text (h : Host) (env : Env)
    (artifact_file_path : pystr) (template : ProcessingTemplate)
    (conversion : result (option pystr)) : M (pystr + HTTPException) :=
  if pystr_eqb (preferred_format template) (py "text") then
    document_text <- extract_text h env STORAGE_PATH artifact_file_path ;;
    ret (inl document_text)
  else
    conversion <- lift conversion ;;
    match conversion with
    | Some conversion_file_path =>
        document_text <- extract_text h env STORAGE_PATH conversion_file_path ;;
        ret (inl document_text)
    | None =>
        result <- convert_document h env STORAGE_PATH artifact_file_path
                    (preferred_format template) ;;
        match result with
        | ConvSuccess output_path _ _ =>
            document_text <- extract_text h env STORAGE_PATH output_path ;;
            ret (inl document_text)
        | ConvFailure error _ =>
            ret (inr {| status_code := 500;
                        detail := py "Conversion failed: " ++ error |})
        end
    end.

(** The endpoint [extract_data] of [app/main.py] from its first line to
    the call of [llm_service.extract_data]: the three checks, the
    document text, the extraction.  [artifact] and [template] are the
    answers of the two queries (the [file_path] of the artifact, the
    template), [None] when there is no row.  The endpoint then stores the
    outcome and answers with the stored row; that part is not modelled. *)
Definition extract_endpoint (h : Host) (env : Env)
    (llm_service : option LLMService)
    (artifact : result (option pystr))
    (template : result (option ProcessingTemplate))
    (conversion : result (option pystr))
  : M (extraction_outcome + HTTPException) :=
  match llm_service with
  | None =>
      ret (inr {| status_code := 503; detail := py "LLM service not configured" |})
  | Some llm_service =>
      artifact <- lift artifact ;;
      match artifact with
      | None =>
          ret (inr {| status_code := 404; detail := py "Artifact not found" |})
      | Some artifact_file_path =>
          template <- lift template ;;
          match template with
          | None =>
              ret (inr {| status_code := 404; detail := py "Template not found" |})
          | Some template =>
              document <- get_document_text h env artifact_file_path template
                            conversion ;;
              match document with
              | inr http_error => ret (inr http_error)
              | inl document_text =>
                  result <- extract_data h env (service_config llm_service)
                              document_text
                              (template_system_prompt template)
                              (template_user_prompt_template template)
                              (template_json_schema template) ;;
                  ret (inl result)
              end
          end
      end
  end.

(** The events that reach a model provider. *)
Definition is_provider_call (ev : event) : bool :=
  match ev with
  | EvOpenAI _ | EvAnthropic _ => true
  | _ => false
  end.

(** A character a JSON value can begin with: a quote, a brace, a
    bracket, the first letter of [null], [true], [false], [NaN],
    [Infinity], a minus sign, a digit. *)
Definition begins_value (c : N) : bool :=
  ((c =? 34) || (c =? 123) || (c =? 91) || (c =? 110) || (c =? 116) ||
   (c =? 102) || (c =? 78) || (c =? 73) || (c =? 45) || is_digit c)%N.

(* ================================================================== *)
(** * More worlds and values for the examples *)
(* ================================================================== *)

(** The part of [s] before the first [sep], and the part after it
    ([None] when [s] has no [sep]). *)
Fixpoint cut_at (sep : N) (s : pystr) : pystr * option pystr :=
  match s with
  | [] => ([], None)
  | c :: r =>
      if (c =? sep)%N then ([], Some r)
      else let (a, b) := cut_at sep r in (c :: a, b)
  end.

(** [Path(p).name], [str(Path(p).parent)] and [Path(p).stem] for an
    absolute path written without a trailing slash. *)
Definition posix_name (p : pystr) : pystr := rev (fst (cut_at 47 (rev p))).

Definition posix_parent (p : pystr) : pystr :=
  match snd (cut_at 47 (rev p)) with
  | Some [] => py "/"
  | Some r => rev r
  | None => py "."
  end.

Definition posix_stem (p : pystr) : pystr :=
  let name := posix_name p in
  match cut_at 46 (rev name) with
  | (_, Some (c :: r)) => rev (c :: r)
  | _ => name
  end.

(** [example_host] with these functions for the paths. *)
Definition posix_host : Host := {|
  host_repr := host_repr example_host;
  host_to_decimal := host_to_decimal example_host;
  host_format_field := host_format_field example_host;
  host_float_repr := host_float_repr example_host;
  host_float_eq := host_float_eq example_host;
  host_float_eq_int := host_float_eq_int example_host;
  host_json_error_text := host_json_error_text example_host;
  host_int_max_str_digits := host_int_max_str_digits example_host;
  host_json_depth := host_json_depth example_host;
  host_pydantic_ctor_text := host_pydantic_ctor_text example_host;
  host_path_str := fun p => p;
  host_path_stem := posix_stem;
  host_path_parent := posix_parent;
  host_path_join := fun a b => a ++ 47%N :: b
|}.

(** A world for the extractors: [magic] answers [mime], the import of
    [PyPDF2] answers [first_import] and every other import succeeds, the
    PDF reader gives [pages], the Word reader gives [paragraphs]; no file
    can be opened and nothing else is available. *)
Definition extractor_env (mime : pystr) (first_import : result unit)
    (pages : list (result pystr)) (paragraphs : list pystr) : Env := {|
  env_exists := fun _ => Ok true;
  env_mkdtemp := unavailable;
  env_run := fun _ => unavailable;
  env_glob := fun _ _ => unavailable;
  env_mkdir := fun _ => unavailable;
  env_move := fun _ _ => unavailable;
  env_stat_size := fun _ => unavailable;
  env_cleanup := fun _ => Ok tt;
  env_magic := fun _ => Ok mime;
  env_open := fun _ => Raise (Exn PermissionError (py "[Errno 13] Permission denied"));
  env_import := fun module _ =>
    if pystr_eqb module (py "PyPDF2") then first_import else Ok tt;
  env_pdf_reader := fun _ => Ok {| has_pages := true; page_texts := pages |};
  env_document := fun _ => Ok paragraphs;
  env_read_excel := fun _ => unavailable;
  env_openai := fun _ => unavailable;
  env_anthropic := fun _ => unavailable;
  env_utcnow_entry := 1000000;
  env_utcnow_exit := 3500000
|}.

(** A world in which no extractor library is installed: every import
    raises [ModuleNotFoundError]. *)
Definition bare_env (mime : pystr) : Env := {|
  env_exists := fun _ => Ok true;
  env_mkdtemp := unavailable;
  env_run := fun _ => unavailable;
  env_glob := fun _ _ => unavailable;
  env_mkdir := fun _ => unavailable;
  env_move := fun _ _ => unavailable;
  env_stat_size := fun _ => unavailable;
  env_cleanup := fun _ => Ok tt;
  env_magic := fun _ => Ok mime;
  env_open := fun _ => unavailable;
  env_import := fun module _ =>
    Raise (Exn ModuleNotFoundError (py "No module named '" ++ module ++ py "'"));
  env_pdf_reader := fun _ => unavailable;
  env_document := fun _ => unavailable;
  env_read_excel := fun _ => unavailable;
  env_openai := fun _ => unavailable;
  env_anthropic := fun _ => unavailable;
  env_utcnow_entry := 1000000;
  env_utcnow_exit := 3500000
|}.

(** A world in which LibreOffice works: the run exits with [code], the
    scratch directory then holds [found], the storage can be written, a
    stored file has 2048 bytes, [magic] answers [mime] and every file
    that is opened holds [content]. *)
Definition converting_env (code : Z) (found : list pystr) (mime : pystr)
    (content : list byte) : Env := {|
  env_exists := fun _ => Ok true;
  env_mkdtemp := Ok (py "/tmp/tmpk3x9");
  env_run := fun _ => Ok {| returncode := code; stderr := [] |};
  env_glob := fun _ _ => Ok found;
  env_mkdir := fun _ => Ok tt;
  env_move := fun _ _ => Ok tt;
  env_stat_size := fun _ => Ok 2048%Z;
  env_cleanup := fun _ => Ok tt;
  env_magic := fun _ => Ok mime;
  env_open := fun _ => Ok content;
  env_import := fun _ _ => unavailable;
  env_pdf_reader := fun _ => unavailable;
  env_document := fun _ => unavailable;
  env_read_excel := fun _ => unavailable;
  env_openai := fun _ => unavailable;
  env_anthropic := fun _ => unavailable;
  env_utcnow_entry := 1000000;
  env_utcnow_exit := 3500000
|}.

(** A service object made for [example_config], and provider libraries
    whose clients can always be constructed. *)
Definition example_service : LLMService :=
  {| service_config := example_config;
     service_client := OpenAIClient (py "sk-example") |}.

Definition example_sdk : Sdk :=
  {| openai_OpenAI := fun key => Ok (OpenAIClient key);
     anthropic_Anthropic := fun key => Ok (AnthropicClient key) |}.

(** The template of the examples, with the preferred format [format]. *)
Definition vendor_template (format : pystr) : ProcessingTemplate :=
  {| template_system_prompt := py "Extract the vendor.";
     template_user_prompt_template := py "Doc: {document}";
     template_json_schema := vendor_schema;
     preferred_format := format |}.

(* ================================================================== *)
(** * Properties *)
(* ================================================================== *)

Unset Implicit Arguments.

(** ** Exceptions and handlers *)

Lemma issubclass_Exception (c : exn_class) : issubclass c Exception = true.
Proof. destruct c; reflexivity. Qed.

Lemma catches_Exception (e : exn) : catches [Exception] e = true.
Proof.
  unfold catches. simpl. rewrite issubclass_Exception. reflexivity.
Qed.

(** [except Exception] lets nothing through. *)
Lemma try_except_Exception {A : Type} (body : M A) (handler : exn -> M A)
    (t : trace) :
  try_except body [Exception] handler t =
  match body t with
  | (Ok a, t') => (Ok a, t')
  | (Raise e, t') => handler e t'
  end.
Proof.
  unfold try_except. destruct (body t) as [[a | e] t']; [reflexivity |].
  rewrite catches_Exception. reflexivity.
Qed.

Lemma convert_document_unfold (h : Host) (env : Env)
    (storage_path input_path output_format : pystr) (t : trace) :
  convert_document h env storage_path input_path output_format t =
  match convert_document_body h env storage_path input_path output_format t with
  | (Ok outcome, t') => (Ok outcome, t')
  | (Raise e, t') => (Ok (ConvFailure (exn_text e) output_format), t')
  end.
Proof. unfold convert_document. apply try_except_Exception. Qed.

Lemma extract_text_unfold (h : Host) (env : Env)
    (storage_path file_path : pystr) (t : trace) :
  extract_text h env storage_path file_path t =
  match extract_text_body h env storage_path file_path t with
  | (Ok text, t') => (Ok text, t')
  | (Raise _, t') => (Ok [], t')
  end.
Proof. unfold extract_text. apply try_except_Exception. Qed.

Lemma extract_data_unfold (h : Host) (env : Env) (cfg : LLMConfig)
    (document_text system_prompt user_prompt_template : pystr)
    (json_schema : list (pystr * json)) (t : trace) :
  let elapsed := total_seconds (env_utcnow_exit env) (env_utcnow_entry env) in
  extract_data h env cfg document_text system_prompt user_prompt_template
    json_schema t =
  match extract_data_body h env cfg document_text system_prompt
          user_prompt_template json_schema elapsed t with
  | (Ok outcome, t') => (Ok outcome, t')
  | (Raise e, t') => (Ok (failure_outcome e elapsed), t')
  end.
Proof. unfold extract_data. apply try_except_Exception. Qed.

(** C1.  Each of the three public operations, [convert_document],
    [extract_text] and [extract_data], returns a value on every input and
    in every world, and never raises: when the body of its [try] raises
    [e], [convert_document] returns the failure outcome with the text of
    [e] and the format, [extract_text] returns the empty string, and
    [extract_data] returns the failure outcome with the text of [e] and
    the elapsed time. *)
Theorem public_operations_never_raise (h : Host) (env : Env) :
  (forall storage_path input_path output_format t,
      exists outcome t',
        convert_document h env storage_path input_path output_format t
        = (Ok outcome, t') /\
        forall e t1,
          convert_document_body h env storage_path input_path output_format t
          = (Raise e, t1) ->
          outcome = ConvFailure (exn_text e) output_format /\ t' = t1) /\
  (forall storage_path file_path t,
      exists text t',
        extract_text h env storage_path file_path t = (Ok text, t') /\
        forall e t1,
          extract_text_body h env storage_path file_path t = (Raise e, t1) ->
          text = [] /\ t' = t1) /\
  (forall cfg document_text system_prompt user_prompt_template json_schema t,
      exists outcome t',
        extract_data h env cfg document_text system_prompt
          user_prompt_template json_schema t = (Ok outcome, t') /\
        forall e t1,
          extract_data_body h env cfg document_text system_prompt
            user_prompt_template json_schema
            (total_seconds (env_utcnow_exit env) (env_utcnow_entry env)) t
          = (Raise e, t1) ->
          outcome =
            failure_outcome e
              (total_seconds (env_utcnow_exit env) (env_utcnow_entry env)) /\
          error outcome = Some (exn_text e) /\ t' = t1).
Proof.
  split; [| split]; intros.
  - rewrite convert_document_unfold.
    destruct (convert_document_body _ _ _ _ _ _) as [[o | e] t'];
      eexists; eexists; (split; [reflexivity |]); intros e' t1 H;
      inversion H; subst; auto.
  - rewrite extract_text_unfold.
    destruct (extract_text_body _ _ _ _ _) as [[o | e] t'];
      eexists; eexists; (split; [reflexivity |]); intros e' t1 H;
      inversion H; subst; auto.
  - rewrite extract_data_unfold.
    destruct (extract_data_body _ _ _ _ _ _ _ _ _) as [[o | e] t'];
      eexists; eexists; (split; [reflexivity |]); intros e' t1 H;
      inversion H; subst; auto.
Qed.

(** ** The flow of [extract_data] *)

(** Assembling the prompt calls nothing outside: three cases, by what
    [str.format] does. *)
Lemma assemble_prompt_unfold (h : Host) (template document : pystr) (t : trace) :
  assemble_prompt h template document t =
  match str_format h template document with
  | Ok user_prompt => (Ok user_prompt, t)
  | Raise e =>
      if catches [KeyError] e
      then (Ok (replace (py "{document}") document template), t)
      else (Raise e, t)
  end.
Proof.
  unfold assemble_prompt, try_except, lift, ret.
  destruct (str_format h template document) as [p | e]; [reflexivity |].
  destruct (catches [KeyError] e); reflexivity.
Qed.

Lemma extract_data_body_unfold (h : Host) (env : Env) (cfg : LLMConfig)
    (document_text system_prompt user_prompt_template : pystr)
    (json_schema : list (pystr * json)) (elapsed : Q) (t : trace) :
  extract_data_body h env cfg document_text system_prompt
    user_prompt_template json_schema elapsed t =
  match assemble_prompt h user_prompt_template document_text t with
  | (Raise e, t1) => (Raise e, t1)
  | (Ok user_prompt, t1) =>
      match call_provider env cfg
              (system_prompt ++ schema_instruction h json_schema)
              user_prompt t1 with
      | (Raise e, t2) => (Raise e, t2)
      | (Ok response, t2) =>
          match parse_and_validate h response json_schema with
          | Ok data => (Ok (success_outcome data response elapsed), t2)
          | Raise e =>
              if catches [JSONDecodeError; ValidationError] e
              then (Ok (invalid_response_outcome e response elapsed), t2)
              else (Raise e, t2)
          end
      end
  end.
Proof.
  unfold extract_data_body, bind.
  destruct (assemble_prompt _ _ _ t) as [[up | e] t1]; [| reflexivity].
  destruct (call_provider _ _ _ _ t1) as [[response | e] t2]; [| reflexivity].
  unfold try_except, bind, lift, ret.
  destruct (parse_and_validate h response json_schema) as [data | e];
    [reflexivity |].
  destruct (catches [JSONDecodeError; ValidationError] e); reflexivity.
Qed.

(** ** Schema validation *)

Lemma raise_ValidationError_is_TypeError {A : Type} (h : Host) (msg : pystr) :
  @raise_ValidationError A h msg = Raise (Exn TypeError (host_pydantic_ctor_text h)).
Proof. reflexivity. Qed.

Lemma py_contains_fault (h : Host) (data x : json) (e : exn) :
  py_contains h data x = Raise e -> passes_inner_handler e.
Proof.
  destruct data, x; simpl; intros H; inversion H; reflexivity.
Qed.

Lemma py_getitem_fault (h : Host) (data : json) (key : pystr) (e : exn) :
  py_getitem data key h = Raise e -> passes_inner_handler e.
Proof.
  destruct data; simpl; intros H; try (inversion H; reflexivity).
  destruct (dict_get key members); inversion H; reflexivity.
Qed.

Lemma py_get_fault (v : json) (key : pystr) (e : exn) :
  py_get v key = Raise e -> passes_inner_handler e.
Proof.
  destruct v; simpl; intros H; try (inversion H; reflexivity).
  destruct (dict_get key members); inversion H.
Qed.

Lemma check_required_fault (h : Host) (data : json) (fields : list json)
    (e : exn) :
  check_required h data fields = Raise e -> passes_inner_handler e.
Proof.
  induction fields as [| field rest IH]; simpl; [discriminate |].
  destruct (py_contains h data field) as [present | e'] eqn:Hc; simpl.
  - destruct present; simpl; [exact IH |].
    intros H; inversion H; reflexivity.
  - intros H; inversion H; subst. eapply py_contains_fault; eassumption.
Qed.

Lemma check_type_fault (h : Host) (data : json) (field : pystr)
    (expected_type : json) (e : exn) :
  check_type h data field expected_type = Raise e -> passes_inner_handler e.
Proof.
  unfold check_type.
  destruct (py_eq h expected_type (JStr (py "string"))).
  - destruct (py_getitem data field h) as [v | e'] eqn:Hg; simpl;
      [| intros H; inversion H; subst; eapply py_getitem_fault; exact Hg].
    destruct (negb (isinstance_str v)); [intros H; inversion H; reflexivity |].
    simpl.
    destruct (py_eq h expected_type (JStr (py "number"))); simpl.
    + destruct (negb (isinstance_int_float v));
        [intros H; inversion H; reflexivity |].
      destruct (py_eq h expected_type (JStr (py "array"))); simpl;
        [| discriminate].
      destruct (negb (isinstance_list v)); [| discriminate].
      intros H; inversion H; reflexivity.
    + destruct (py_eq h expected_type (JStr (py "array"))); simpl;
        [| discriminate].
      destruct (negb (isinstance_list v)); [| discriminate].
      intros H; inversion H; reflexivity.
  - simpl.
    destruct (py_eq h expected_type (JStr (py "number"))).
    + destruct (py_getitem data field h) as [v | e'] eqn:Hg; simpl;
        [| intros H; inversion H; subst; eapply py_getitem_fault; exact Hg].
      destruct (negb (isinstance_int_float v));
        [intros H; inversion H; reflexivity |].
      destruct (py_eq h expected_type (JStr (py "array"))); simpl;
        [| discriminate].
      destruct (negb (isinstance_list v)); [| discriminate].
      intros H; inversion H; reflexivity.
    + simpl.
      destruct (py_eq h expected_type (JStr (py "array"))); [| discriminate].
      destruct (py_getitem data field h) as [v | e'] eqn:Hg; simpl;
        [| intros H; inversion H; subst; eapply py_getitem_fault; exact Hg].
      destruct (negb (isinstance_list v)); [| discriminate].
      intros H; inversion H; reflexivity.
Qed.

Lemma check_properties_fault (h : Host) (data : json)
    (props : list (pystr * json)) (e : exn) :
  check_properties h data props = Raise e -> passes_inner_handler e.
Proof.
  induction props as [| [field field_schema] rest IH]; simpl; [discriminate |].
  destruct (py_contains h data (JStr field)) as [present | e'] eqn:Hc; simpl;
    [| intros H; inversion H; subst; eapply py_contains_fault; eassumption].
  destruct present; simpl; [| exact IH].
  destruct (py_get field_schema (py "type")) as [ty | e'] eqn:Hg; simpl;
    [| intros H; inversion H; subst; eapply py_get_fault; eassumption].
  destruct (check_type h data field ty) as [[] | e'] eqn:Ht; simpl;
    [exact IH |].
  intros H; inversion H; subst. eapply check_type_fault; eassumption.
Qed.

(** Whatever [_validate_against_schema] raises, the handler meant for it
    does not take: no [ValidationError] is ever raised. *)
Lemma validation_fault_passes_inner_handler (h : Host) (data : json)
    (schema : list (pystr * json)) (e : exn) :
  _validate_against_schema h data schema = Raise e -> passes_inner_handler e.
Proof.
  unfold _validate_against_schema.
  destruct (dict_get (py "required") schema) as [required |].
  - destruct (py_iter required) as [fields | e'] eqn:Hi; simpl.
    + destruct (check_required h data fields) as [[] | e'] eqn:Hr; simpl.
      * destruct (dict_get (py "properties") schema) as [properties |];
          [| discriminate].
        destruct (py_items properties) as [props | e'] eqn:Hp; simpl.
        -- apply check_properties_fault.
        -- intros H; inversion H; subst.
           destruct properties; simpl in Hp; inversion Hp; reflexivity.
      * intros H; inversion H; subst. eapply check_required_fault; eassumption.
    + intros H; inversion H; subst.
      destruct required; simpl in Hi; inversion Hi; reflexivity.
  - simpl.
    destruct (dict_get (py "properties") schema) as [properties |];
      [| discriminate].
    destruct (py_items properties) as [props | e'] eqn:Hp; simpl.
    + apply check_properties_fault.
    + intros H; inversion H; subst.
      destruct properties; simpl in Hp; inversion Hp; reflexivity.
Qed.

(** C2.  What [extract_data] returns when the parsed answer does not pass
    [_validate_against_schema]: the prompt was assembled, the provider
    answered [response], the cleaned answer parsed to [data], and the
    validation raised [e].  The outcome is the one of the outer handler:
    [success] false, [error] the text of [e] without the words "Invalid
    JSON response", and no [raw_response].  It is not the outcome of a
    parse failure, because the validation never raises a
    [ValidationError] ([validation_fault_passes_inner_handler]). *)
Theorem schema_violation_outcome (h : Host) (env : Env) (cfg : LLMConfig)
    (document_text system_prompt user_prompt_template : pystr)
    (json_schema : list (pystr * json)) (t t2 : trace)
    (user_prompt response : pystr) (data : json) (e : exn) :
  assemble_prompt h user_prompt_template document_text t = (Ok user_prompt, t) ->
  call_provider env cfg (system_prompt ++ schema_instruction h json_schema)
    user_prompt t = (Ok (Some response), t2) ->
  json_loads h (clean_text response) = Ok data ->
  _validate_against_schema h data json_schema = Raise e ->
  extract_data h env cfg document_text system_prompt user_prompt_template
    json_schema t
  = (Ok {| success := false;
           extracted_data := None;
           error := Some (exn_text e);
           raw_response := None;
           processing_time_seconds :=
             total_seconds (env_utcnow_exit env) (env_utcnow_entry env) |},
     t2).
Proof.
  intros Hp Hc Hl Hv.
  rewrite extract_data_unfold, extract_data_body_unfold, Hp, Hc.
  pose proof (validation_fault_passes_inner_handler _ _ _ _ Hv) as Hu.
  unfold passes_inner_handler in Hu.
  unfold parse_and_validate, clean_response, rbind.
  rewrite Hl, Hv, Hu. reflexivity.
Qed.

(** The schema [{"required": ["total"], "properties": {"total": {"type":
    "number"}}}] and the answer [{"total": "9720"}]: the outcome carries
    the text of the [TypeError] of pydantic's constructor and no raw
    response. *)
Lemma schema_violation_outcome_at_total :
  extract_data example_host (answering total_text) example_config
    (py "Invoice 17") (py "Extract the total.") (py "Doc: {document}")
    total_schema []
  = (Ok {| success := false;
           extracted_data := None;
           error := Some (py "No constructor defined");
           raw_response := None;
           processing_time_seconds := total_seconds 3500000 1000000 |},
     [EvOpenAI
        (request example_config
           (py "Extract the total." ++ schema_instruction example_host total_schema)
           (py "Doc: Invoice 17"))]).
Proof.
  eapply (schema_violation_outcome example_host (answering total_text)
            example_config (py "Invoice 17") (py "Extract the total.")
            (py "Doc: {document}") total_schema [] _ (py "Doc: Invoice 17")
            total_text (JObj [(py "total", JStr (py "9720"))])
            (Exn TypeError (py "No constructor defined")));
    vm_compute; reflexivity.
Defined.

(** The assembly of the prompt makes no call: the trace is as it was. *)
Lemma assemble_prompt_trace (h : Host) (template document : pystr)
    (t t1 : trace) (r : result pystr) :
  assemble_prompt h template document t = (r, t1) -> t1 = t.
Proof.
  rewrite assemble_prompt_unfold.
  destruct (str_format h template document) as [p | e].
  - intros H. inversion H. reflexivity.
  - destruct (catches [KeyError] e); intros H; inversion H; reflexivity.
Qed.

(** C6.  With the schema [{"required": ["vendor"]}] and the answer
    [{"vendor": "Acme"}] (the prompt assembled, the provider having
    answered, one level of nesting allowed to the JSON scanner),
    [extract_data] returns the success outcome whose value is the [dict]
    with the one key [vendor] and the value ["Acme"].  And every success
    outcome of [extract_data], for every schema, template and answer,
    carries the value the cleaned answer parsed to, the answer itself as
    the provider gave it, and the time between the two readings of the
    clock. *)
Theorem vendor_success_outcome (h : Host) (env : Env) (cfg : LLMConfig)
    (document_text system_prompt user_prompt_template : pystr) (t : trace) :
  (forall (t2 : trace) (user_prompt : pystr),
      (1 <= host_json_depth h)%nat ->
      assemble_prompt h user_prompt_template document_text t
      = (Ok user_prompt, t) ->
      call_provider env cfg (system_prompt ++ schema_instruction h vendor_schema)
        user_prompt t = (Ok (Some vendor_text), t2) ->
      extract_data h env cfg document_text system_prompt user_prompt_template
        vendor_schema t
      = (Ok {| success := true;
               extracted_data := Some (JObj [(py "vendor", JStr (py "Acme"))]);
               error := None;
               raw_response := Some vendor_text;
               processing_time_seconds :=
                 total_seconds (env_utcnow_exit env) (env_utcnow_entry env) |},
         t2)) /\
  (forall json_schema outcome t',
      extract_data h env cfg document_text system_prompt user_prompt_template
        json_schema t = (Ok outcome, t') ->
      success outcome = true ->
      exists user_prompt response data,
        assemble_prompt h user_prompt_template document_text t
        = (Ok user_prompt, t) /\
        call_provider env cfg (system_prompt ++ schema_instruction h json_schema)
          user_prompt t = (Ok (Some response), t') /\
        json_loads h (clean_text response) = Ok data /\
        _validate_against_schema h data json_schema = Ok tt /\
        extracted_data outcome = Some data /\
        raw_response outcome = Some response /\
        processing_time_seconds outcome =
          total_seconds (env_utcnow_exit env) (env_utcnow_entry env)).
Proof.
  split.
  - intros t2 user_prompt Hd Hp Hc.
    rewrite extract_data_unfold, extract_data_body_unfold, Hp, Hc.
    unfold parse_and_validate, json_loads.
    destruct (host_json_depth h) as [| d]; [lia |].
    vm_compute. reflexivity.
  - intros json_schema outcome t' H Hs.
    rewrite extract_data_unfold, extract_data_body_unfold in H.
    destruct (assemble_prompt h user_prompt_template document_text t)
      as [[user_prompt | e] t1] eqn:Hp;
      [| inversion H; subst; discriminate].
    pose proof (assemble_prompt_trace _ _ _ _ _ _ Hp) as Ht. subst t1.
    destruct (call_provider env cfg
                (system_prompt ++ schema_instruction h json_schema)
                user_prompt t) as [[response | e] t3] eqn:Hcp;
      [| inversion H; subst; discriminate].
    unfold parse_and_validate, clean_response, rbind in H.
    destruct response as [response |];
      [| inversion H; subst; discriminate].
    destruct (json_loads h (clean_text response)) as [data | e] eqn:Hl.
    + destruct (_validate_against_schema h data json_schema) as [[] | e] eqn:Hv.
      * inversion H; subst. exists user_prompt, response, data.
        repeat split; auto.
      * destruct (catches [JSONDecodeError; ValidationError] e);
          inversion H; subst; discriminate.
    + destruct (catches [JSONDecodeError; ValidationError] e);
        inversion H; subst; discriminate.
Qed.

Lemma vendor_success_outcome_witness :
  extract_data example_host (answering vendor_text) example_config
    (py "Invoice 17") (py "Extract the vendor.") (py "Doc: {document}")
    vendor_schema []
  = (Ok {| success := true;
           extracted_data := Some (JObj [(py "vendor", JStr (py "Acme"))]);
           error := None;
           raw_response := Some vendor_text;
           processing_time_seconds := total_seconds 3500000 1000000 |},
     [EvOpenAI
        (request example_config
           (py "Extract the vendor." ++
            schema_instruction example_host vendor_schema)
           (py "Doc: Invoice 17"))]).
Proof.
  refine (proj1 (vendor_success_outcome example_host (answering vendor_text)
                   example_config (py "Invoice 17") (py "Extract the vendor.")
                   (py "Doc: {document}") [])
            _ (py "Doc: Invoice 17") _ _ _).
  - vm_compute. lia.
  - vm_compute. reflexivity.
  - vm_compute. reflexivity.
Defined.

(** ** Prompt assembly *)

(** The example of the design document: the placeholder is replaced. *)
Lemma assemble_prompt_example :
  assemble_prompt example_host (py "Doc: {document}") (py "Hello") []
  = (Ok (py "Doc: Hello"), []).
Proof. vm_compute. reflexivity. Qed.

(** A template with a field of another name: [str.format] raises
    [KeyError], and the literal replacement is used. *)
Lemma assemble_prompt_falls_back_on_KeyError (h : Host)
    (template document : pystr) (e : exn) (t : trace) :
  str_format h template document = Raise e ->
  catches [KeyError] e = true ->
  assemble_prompt h template document t
  = (Ok (replace (py "{document}") document template), t).
Proof.
  intros Hf Hk. rewrite assemble_prompt_unfold, Hf, Hk. reflexivity.
Qed.

Lemma assemble_prompt_fallback_example :
  assemble_prompt example_host (py "Fill {name}: {document}") (py "Hello") []
  = (Ok (py "Fill {name}: Hello"), []).
Proof. vm_compute. reflexivity. Qed.

(** C3.  A template on which [str.format] raises anything but a
    [KeyError] fails the whole call: [extract_data] returns the failure
    outcome with the text of that fault, and the provider is not called
    (the trace is the one the call started with). *)
Theorem template_fault_fails_the_call (h : Host) (env : Env) (cfg : LLMConfig)
    (document_text system_prompt user_prompt_template : pystr)
    (json_schema : list (pystr * json)) (t : trace) (e : exn) :
  str_format h user_prompt_template document_text = Raise e ->
  catches [KeyError] e = false ->
  extract_data h env cfg document_text system_prompt user_prompt_template
    json_schema t
  = (Ok {| success := false;
           extracted_data := None;
           error := Some (exn_text e);
           raw_response := None;
           processing_time_seconds :=
             total_seconds (env_utcnow_exit env) (env_utcnow_entry env) |},
     t).
Proof.
  intros Hf Hk.
  rewrite extract_data_unfold, extract_data_body_unfold, assemble_prompt_unfold.
  rewrite Hf, Hk. reflexivity.
Qed.

(** The template ["Doc: {document} {"], whose last brace is not closed:
    the call fails with the [ValueError] of [str.format], although the
    provider would have answered [{"vendor": "Acme"}]. *)
Lemma template_fault_at_unmatched_brace :
  extract_data example_host (answering vendor_text) example_config
    (py "Hello") (py "Extract the vendor.") (py "Doc: {document} {")
    vendor_schema []
  = (Ok {| success := false;
           extracted_data := None;
           error := Some (py "Single '{' encountered in format string");
           raw_response := None;
           processing_time_seconds := total_seconds 3500000 1000000 |},
     []).
Proof.
  apply (template_fault_fails_the_call example_host (answering vendor_text)
           example_config (py "Hello") (py "Extract the vendor.")
           (py "Doc: {document} {") vendor_schema []
           (Exn ValueError (py "Single '{' encountered in format string")));
    vm_compute; reflexivity.
Defined.

(** A positional field does the same with an [IndexError]. *)
Lemma template_fault_at_positional_field :
  str_format example_host (py "Items {}: {document}") (py "Hello")
  = Raise (Exn IndexError
             (py "Replacement index 0 out of range for positional args tuple")).
Proof. vm_compute. reflexivity. Qed.

(** ** The type check of schema validation *)

Lemma pystr_eqb_true (a b : pystr) : pystr_eqb a b = true <-> a = b.
Proof.
  unfold pystr_eqb. destruct (list_eq_dec N.eq_dec a b); split; auto; discriminate.
Qed.

Lemma pystr_eqb_refl (a : pystr) : pystr_eqb a a = true.
Proof. apply pystr_eqb_true. reflexivity. Qed.

Lemma py_eq_JStr (h : Host) (x : json) (s : pystr) :
  py_eq h x (JStr s) = true -> x = JStr s.
Proof.
  destruct x; simpl; try discriminate.
  intros H. apply pystr_eqb_true in H. subst. reflexivity.
Qed.

Lemma py_eq_JStr_false (h : Host) (x : json) (s : pystr) :
  x <> JStr s -> py_eq h x (JStr s) = false.
Proof.
  intros H. destruct (py_eq h x (JStr s)) eqn:E; [| reflexivity].
  apply py_eq_JStr in E. contradiction.
Qed.

(** C10.  A declared type that is none of ["string"], ["number"],
    ["array"] is not checked: the check of the property succeeds on every
    [data], without reading [data[field]].  A [bool] under a property
    declared ["number"] passes the check; and the value [{"total": true}]
    is valid for the schema [{"properties": {"total": {"type":
    "number"}}}]. *)
Theorem bool_passes_number_and_other_types_unchecked (h : Host) (data : json)
    (field : pystr) (declared : json) :
  declared <> JStr (py "string") ->
  declared <> JStr (py "number") ->
  declared <> JStr (py "array") ->
  check_type h data field declared = Ok tt /\
  (forall b members,
      dict_get field members = Some (JBool b) ->
      check_type h (JObj members) field (JStr (py "number")) = Ok tt) /\
  _validate_against_schema h (JObj [(py "total", JBool true)])
    [total_properties] = Ok tt.
Proof.
  intros Hs Hn Ha. split; [| split].
  - unfold check_type.
    rewrite (py_eq_JStr_false h _ _ Hs), (py_eq_JStr_false h _ _ Hn),
      (py_eq_JStr_false h _ _ Ha).
    reflexivity.
  - intros b members Hg. unfold check_type, py_getitem. rewrite Hg.
    reflexivity.
  - reflexivity.
Qed.

Lemma bool_passes_number_and_other_types_unchecked_witness :
  check_type example_host (JArr []) (py "total") (JStr (py "boolean")) = Ok tt /\
  (forall b members,
      dict_get (py "total") members = Some (JBool b) ->
      check_type example_host (JObj members) (py "total") (JStr (py "number"))
      = Ok tt) /\
  _validate_against_schema example_host (JObj [(py "total", JBool true)])
    [total_properties] = Ok tt.
Proof.
  apply (bool_passes_number_and_other_types_unchecked example_host (JArr [])
           (py "total") (JStr (py "boolean")));
    discriminate.
Defined.

(** ** [convert_document] and the closed set of formats *)

Lemma pystr_eqb_false (a b : pystr) : a <> b -> pystr_eqb a b = false.
Proof.
  intros H. destruct (pystr_eqb a b) eqn:E; [| reflexivity].
  apply pystr_eqb_true in E. contradiction.
Qed.

Lemma conversion_parameters_unsupported (output_format : pystr) :
  ~ In output_format supported_formats ->
  conversion_parameters output_format
  = Raise (Exn ValueError (py "Unsupported output format: " ++ output_format)).
Proof.
  intros H. unfold conversion_parameters.
  rewrite !pystr_eqb_false; [reflexivity | | | |];
    intros E; apply H; rewrite E; simpl; auto.
Qed.

Lemma conversion_parameters_supported (output_format : pystr) :
  In output_format supported_formats ->
  exists filter_name extension,
    conversion_parameters output_format = Ok (filter_name, extension).
Proof.
  intros [H | [H | [H | [H | []]]]]; subst; eexists; eexists; reflexivity.
Qed.

(** Under an unsupported format the block under the scratch directory
    stops at once. *)
Lemma in_temporary_directory_unsupported (h : Host) (env : Env)
    (storage_path input_file output_format temp_dir : pystr) (t : trace) :
  ~ In output_format supported_formats ->
  in_temporary_directory h env storage_path input_file output_format temp_dir t
  = (Raise (Exn ValueError (py "Unsupported output format: " ++ output_format)),
     t).
Proof.
  intros H. unfold in_temporary_directory, bind, lift.
  rewrite (conversion_parameters_unsupported _ H). reflexivity.
Qed.

(** What [convert_document] does under an unsupported format, case by
    case. *)
Lemma convert_document_unsupported (h : Host) (env : Env)
    (storage_path input_path output_format : pystr) (t : trace) :
  ~ In output_format supported_formats ->
  let input_file := host_path_str h input_path in
  convert_document h env storage_path input_path output_format t =
  match env_exists env input_file with
  | Ok true =>
      match env_mkdtemp env with
      | Ok temp_dir =>
          match env_cleanup env temp_dir with
          | Ok _ =>
              (Ok (ConvFailure (py "Unsupported output format: " ++ output_format)
                     output_format),
               t ++ [EvExists input_file; EvMkdtemp; EvCleanup temp_dir])
          | Raise e =>
              (Ok (ConvFailure (exn_text e) output_format),
               t ++ [EvExists input_file; EvMkdtemp; EvCleanup temp_dir])
          end
      | Raise e =>
          (Ok (ConvFailure (exn_text e) output_format),
           t ++ [EvExists input_file; EvMkdtemp])
      end
  | Ok false =>
      (Ok (ConvFailure (py "Input file not found: " ++ input_path) output_format),
       t ++ [EvExists input_file])
  | Raise e =>
      (Ok (ConvFailure (exn_text e) output_format), t ++ [EvExists input_file])
  end.
Proof.
  intros H input_file.
  rewrite convert_document_unfold.
  unfold convert_document_body, with_TemporaryDirectory, bind, call, raise.
  fold input_file.
  destruct (env_exists env input_file) as [[|] | e]; simpl;
    [| reflexivity | reflexivity].
  destruct (env_mkdtemp env) as [temp_dir | e]; simpl.
  - rewrite (in_temporary_directory_unsupported _ _ _ _ _ _ _ H).
    rewrite <- !app_assoc. simpl.
    destruct (env_cleanup env temp_dir) as [[] | e]; reflexivity.
  - rewrite <- app_assoc. reflexivity.
Qed.

Lemma converter_runs_app (t l : trace) :
  converter_runs (t ++ l) = converter_runs t ++ converter_runs l.
Proof. apply filter_app. Qed.

(** C8 as the code has it.  For a format outside [pdf], [txt], [csv],
    [html], [convert_document] returns a failure outcome and does not
    start the converter (the trace gains no [EvRun]); when the input file
    exists, and the scratch directory is made and removed without a
    fault, the failure is the one of the unsupported format. *)
Theorem unsupported_format_fails_without_converter (h : Host) (env : Env)
    (storage_path input_path output_format : pystr) (t : trace) :
  ~ In output_format supported_formats ->
  (exists cause t',
      convert_document h env storage_path input_path output_format t
      = (Ok (ConvFailure cause output_format), t') /\
      converter_runs t' = converter_runs t) /\
  (forall temp_dir,
      env_exists env (host_path_str h input_path) = Ok true ->
      env_mkdtemp env = Ok temp_dir ->
      env_cleanup env temp_dir = Ok tt ->
      convert_document h env storage_path input_path output_format t
      = (Ok (ConvFailure (py "Unsupported output format: " ++ output_format)
               output_format),
         t ++ [EvExists (host_path_str h input_path); EvMkdtemp;
               EvCleanup temp_dir])).
Proof.
  intros H. pose proof (convert_document_unsupported h env storage_path
                          input_path output_format t H) as E.
  cbv zeta in E. split.
  - rewrite E.
    destruct (env_exists env (host_path_str h input_path)) as [[|] | e0].
    + destruct (env_mkdtemp env) as [temp_dir | e].
      * destruct (env_cleanup env temp_dir) as [[] | e];
          eexists; eexists; (split; [reflexivity |]);
          rewrite converter_runs_app; simpl; apply app_nil_r.
      * eexists; eexists; (split; [reflexivity |]).
        rewrite converter_runs_app; simpl; apply app_nil_r.
    + eexists; eexists; (split; [reflexivity |]).
      rewrite converter_runs_app; simpl; apply app_nil_r.
    + eexists; eexists; (split; [reflexivity |]).
      rewrite converter_runs_app; simpl; apply app_nil_r.
  - intros temp_dir Hx Hm Hc. rewrite E, Hx, Hm, Hc. reflexivity.
Qed.

Lemma unsupported_format_fails_without_converter_witness :
  convert_document example_host
    (example_env true unavailable unavailable unavailable)
    (py "/app/storage") (py "/data/report.odt") (py "docx") []
  = (Ok (ConvFailure (py "Unsupported output format: docx") (py "docx")),
     [EvExists (py "/data/report.odt"); EvMkdtemp; EvCleanup (py "/tmp/tmpk3x9")]).
Proof.
  refine (proj2 (unsupported_format_fails_without_converter example_host
                   (example_env true unavailable unavailable unavailable)
                   (py "/app/storage") (py "/data/report.odt") (py "docx") [] _)
            (py "/tmp/tmpk3x9") _ _ _).
  - vm_compute. intuition discriminate.
  - reflexivity.
  - reflexivity.
  - reflexivity.
Defined.

(** C8 as stated fails when the input file is missing: the check of the
    file comes first, and the failure is the one of the missing file. *)
Lemma unsupported_format_of_missing_file :
  convert_document example_host
    (example_env false unavailable unavailable unavailable)
    (py "/app/storage") (py "/data/missing.odt") (py "docx") []
  = (Ok (ConvFailure (py "Input file not found: /data/missing.odt") (py "docx")),
     [EvExists (py "/data/missing.odt")]).
Proof. vm_compute. reflexivity. Qed.

(** ** [_safe_read_text] *)

Lemma decode_ignore_utf8 (content : list byte) :
  decode_ignore (py "utf-8") content
  = Ok (utf8_decode_ignore (List.map Byte.to_N content)).
Proof. unfold decode_ignore. rewrite pystr_eqb_refl. reflexivity. Qed.


(** [_safe_read_text], case by case.  When the file opens, the first
    attempt returns its content, decoded as UTF-8 with the malformed
    sequences left out and the line ends translated.  When opening raises
    [e]: a [UnicodeError] makes every attempt and the binary read fail, and
    the text of the fault is returned as the content; any other fault
    leaves the function at the first attempt. *)
Lemma safe_read_text_unfold (env : Env) (file_path : pystr) (t : trace) :
  _safe_read_text env file_path t =
  match env_open env file_path with
  | Ok content =>
      (Ok (universal_newlines (utf8_decode_ignore (List.map Byte.to_N content))),
       t ++ [EvOpen file_path (py "r") (Some (py "utf-8"))])
  | Raise e =>
      if catches [UnicodeDecodeError; UnicodeError] e
      then (Ok (py "Error reading file: " ++ exn_text e),
            t ++ all_attempts file_path)
      else (Raise e, t ++ [EvOpen file_path (py "r") (Some (py "utf-8"))])
  end.
Proof.
  unfold _safe_read_text, encodings, all_attempts.
  cbn [try_encodings List.map].
  unfold try_except, read_text, bind, call, lift, ret.
  destruct (env_open env file_path) as [content | e].
  - rewrite decode_ignore_utf8. reflexivity.
  - destruct (catches [UnicodeDecodeError; UnicodeError] e) eqn:Hc;
      [| reflexivity].
    rewrite catches_Exception. rewrite <- !app_assoc. reflexivity.
Qed.

(** C7.  [_safe_read_text] raises when the file cannot be opened and the
    fault is no [UnicodeError] (a missing file, a file without read
    permission): the first attempt lets the fault through, no other
    encoding is tried and the binary read is not reached. *)
Theorem safe_read_text_raises_when_open_fails (env : Env) (file_path : pystr)
    (t : trace) (e : exn) :
  env_open env file_path = Raise e ->
  catches [UnicodeDecodeError; UnicodeError] e = false ->
  _safe_read_text env file_path t
  = (Raise e, t ++ [EvOpen file_path (py "r") (Some (py "utf-8"))]).
Proof.
  intros Ho Hc. rewrite safe_read_text_unfold, Ho, Hc. reflexivity.
Qed.

Lemma safe_read_text_raises_on_unreadable_file :
  _safe_read_text
    (example_env true (Ok (py "text/plain"))
       (Raise (Exn PermissionError
                 (py "[Errno 13] Permission denied: '/data/notes.txt'")))
       unavailable)
    (py "/data/notes.txt") []
  = (Raise (Exn PermissionError
              (py "[Errno 13] Permission denied: '/data/notes.txt'")),
     [EvOpen (py "/data/notes.txt") (py "r") (Some (py "utf-8"))]).
Proof.
  apply (safe_read_text_raises_when_open_fails
           (example_env true (Ok (py "text/plain"))
              (Raise (Exn PermissionError
                        (py "[Errno 13] Permission denied: '/data/notes.txt'")))
              unavailable)
           (py "/data/notes.txt") []); reflexivity.
Defined.

(** On a file with malformed UTF-8 the function returns the text without
    the malformed bytes: here [a], the stray byte [ff], [b]. *)
Lemma safe_read_text_on_invalid_utf8 :
  _safe_read_text
    (example_env true (Ok (py "text/plain")) (Ok [x61; xff; x62]) unavailable)
    (py "/data/notes.txt") []
  = (Ok (py "ab"), [EvOpen (py "/data/notes.txt") (py "r") (Some (py "utf-8"))]).
Proof. vm_compute. reflexivity. Qed.

(** C9 as the code has it.  On a file that opens, [_safe_read_text]
    returns the UTF-8 decoding of its bytes with the malformed sequences
    left out and the line ends translated as text mode does; it opens the
    file once, as UTF-8: no other encoding is tried and the binary read is
    not reached. *)
Theorem safe_read_text_on_openable_file (env : Env) (file_path : pystr)
    (t : trace) (content : list byte) :
  env_open env file_path = Ok content ->
  _safe_read_text env file_path t
  = (Ok (universal_newlines (utf8_decode_ignore (List.map Byte.to_N content))),
     t ++ [EvOpen file_path (py "r") (Some (py "utf-8"))]).
Proof.
  intros Ho. rewrite safe_read_text_unfold, Ho. reflexivity.
Qed.

Lemma safe_read_text_on_openable_file_witness :
  _safe_read_text
    (example_env true (Ok (py "text/plain")) (Ok [x61; x0d; x0a; x62])
       unavailable)
    (py "/data/notes.txt") []
  = (Ok (universal_newlines
           (utf8_decode_ignore (List.map Byte.to_N [x61; x0d; x0a; x62]))),
     [EvOpen (py "/data/notes.txt") (py "r") (Some (py "utf-8"))]).
Proof.
  apply (safe_read_text_on_openable_file
           (example_env true (Ok (py "text/plain")) (Ok [x61; x0d; x0a; x62])
              unavailable)
           (py "/data/notes.txt") [] [x61; x0d; x0a; x62]).
  reflexivity.
Defined.

(** C9 as stated fails on a file with a carriage return: the bytes of
    [a], CR, LF, [b] are read as [a], LF, [b], while their UTF-8 decoding
    keeps the carriage return. *)
Lemma safe_read_text_translates_line_ends :
  _safe_read_text
    (example_env true (Ok (py "text/plain")) (Ok [x61; x0d; x0a; x62])
       unavailable)
    (py "/data/notes.txt") []
  = (Ok [97; 10; 98]%N,
     [EvOpen (py "/data/notes.txt") (py "r") (Some (py "utf-8"))]) /\
  utf8_decode_ignore (List.map Byte.to_N [x61; x0d; x0a; x62])
  = [97; 13; 10; 98]%N.
Proof. split; vm_compute; reflexivity. Qed.

(** ** [extract_text] and its strategies *)

Lemma extract_text_by_strategy (h : Host) (env : Env)
    (storage_path file_path : pystr) (t : trace) :
  extract_text h env storage_path file_path t =
  match env_magic env file_path with
  | Raise _ => (Ok [], t ++ [EvMagic file_path])
  | Ok file_type =>
      match run_strategy h env storage_path file_path (dispatch file_type)
              (t ++ [EvMagic file_path]) with
      | (Ok text, t') => (Ok text, t')
      | (Raise _, t') => (Ok [], t')
      end
  end.
Proof.
  rewrite extract_text_unfold. unfold extract_text_body, bind, call.
  destruct (env_magic env file_path) as [file_type | e]; reflexivity.
Qed.


(** Every [match] and [if] of the hypothesis, taken apart from the
    inside. *)
Ltac innermost_case H :=
  match type of H with
  | context [match ?x with _ => _ end] =>
      lazymatch x with
      | context [match _ with _ => _ end] => fail
      | _ => destruct x eqn:?
      end
  end.

Ltac split_cases H := repeat (innermost_case H).

Lemma extract_pdf_text_ok (env : Env) (file_path : pystr) (t t' : trace)
    (text : pystr) :
  _extract_pdf_text env file_path t = (Ok text, t') ->
  exists reader,
    env_pdf_reader env file_path = Ok reader /\
    concat_pages (page_texts reader) [] = Ok text.
Proof.
  unfold _extract_pdf_text, try_except, bind, call, lift, raise.
  intros H.
  destruct (env_pdf_reader env file_path) as [reader | e] eqn:Hr.
  - exists reader. split; [reflexivity |].
    destruct (concat_pages (page_texts reader) []) as [s | e] eqn:Hc.
    + split_cases H; inversion H; subst; reflexivity.
    + split_cases H; inversion H.
  - split_cases H; inversion H.
Qed.



(** What [_safe_read_text] returns when it returns: the decoded content
    of the file, or the text of the fault of opening it. *)
Lemma safe_read_text_ok (env : Env) (file_path : pystr) (t t' : trace)
    (text : pystr) :
  _safe_read_text env file_path t = (Ok text, t') ->
  (exists content,
      env_open env file_path = Ok content /\
      text = universal_newlines (utf8_decode_ignore (List.map Byte.to_N content)))
  \/
  (exists e,
      env_open env file_path = Raise e /\
      catches [UnicodeDecodeError; UnicodeError] e = true /\
      text = py "Error reading file: " ++ exn_text e).
Proof.
  rewrite safe_read_text_unfold. intros H.
  destruct (env_open env file_path) as [content | e].
  - left. exists content. inversion H. auto.
  - destruct (catches [UnicodeDecodeError; UnicodeError] e) eqn:Hc;
      inversion H.
    right. exists e. auto.
Qed.




(** ** Whitespace and [strip] *)

Lemma is_ws_cases (c : N) :
  is_ws c = true -> c = 32%N \/ c = 9%N \/ c = 10%N \/ c = 13%N.
Proof.
  unfold is_ws. rewrite !orb_true_iff, !N.eqb_eq. tauto.
Qed.

Lemma is_ws_isspace (c : N) : is_ws c = true -> py_isspace c = true.
Proof.
  intros H. destruct (is_ws_cases c H) as [E | [E | [E | E]]]; subst; reflexivity.
Qed.

Lemma token_char_not_space (c : N) : token_char c = true -> py_isspace c = false.
Proof.
  unfold token_char. rewrite !andb_true_iff, !negb_true_iff. tauto.
Qed.

Lemma token_char_not_ws (c : N) : token_char c = true -> is_ws c = false.
Proof.
  intros H. destruct (is_ws c) eqn:E; [| reflexivity].
  apply is_ws_isspace in E. apply token_char_not_space in H. congruence.
Qed.

Lemma forallb_ws_isspace (w : pystr) :
  forallb is_ws w = true -> forallb py_isspace w = true.
Proof.
  induction w as [| c w IH]; simpl; [reflexivity |].
  rewrite !andb_true_iff. intros [H1 H2]. split; [apply is_ws_isspace |]; auto.
Qed.

Lemma skip_ws_app (w x : pystr) :
  forallb is_ws w = true -> skip_ws (w ++ x) = skip_ws x.
Proof.
  induction w as [| c w IH]; simpl; [reflexivity |].
  rewrite andb_true_iff. intros [H1 H2]. rewrite H1. auto.
Qed.

Lemma skip_ws_solid (c : N) (x : pystr) :
  is_ws c = false -> skip_ws (c :: x) = c :: x.
Proof. intros H. simpl. rewrite H. reflexivity. Qed.

Lemma skip_ws_split (s : pystr) :
  exists w, s = w ++ skip_ws s /\ forallb is_ws w = true.
Proof.
  induction s as [| c s [w [E Hw]]]; simpl.
  - exists []. auto.
  - destruct (is_ws c) eqn:Hc.
    + exists (c :: w). simpl. rewrite Hc, Hw, <- E. auto.
    + exists []. auto.
Qed.

Lemma skip_ws_head (s : pystr) (c : N) (r : pystr) :
  skip_ws s = c :: r -> is_ws c = false.
Proof.
  induction s as [| a s IH]; simpl; [discriminate |].
  destruct (is_ws a) eqn:Ha; [exact IH |].
  intros H. inversion H; subst. exact Ha.
Qed.

Lemma skip_ws_nil (s : pystr) : skip_ws s = [] -> forallb is_ws s = true.
Proof.
  induction s as [| a s IH]; simpl; [reflexivity |].
  destruct (is_ws a); [exact IH | discriminate].
Qed.

Lemma lstrip_app (w x : pystr) :
  forallb py_isspace w = true -> lstrip (w ++ x) = lstrip x.
Proof.
  induction w as [| c w IH]; simpl; [reflexivity |].
  rewrite andb_true_iff. intros [H1 H2]. rewrite H1. auto.
Qed.

Lemma lstrip_solid (c : N) (x : pystr) :
  py_isspace c = false -> lstrip (c :: x) = c :: x.
Proof. intros H. simpl. rewrite H. reflexivity. Qed.

Lemma forallb_rev {A : Type} (f : A -> bool) (l : list A) :
  forallb f (rev l) = forallb f l.
Proof.
  induction l as [| a l IH]; simpl; [reflexivity |].
  rewrite forallb_app, IH. simpl. rewrite andb_true_r. apply andb_comm.
Qed.

Lemma rstrip_app (x w : pystr) :
  forallb py_isspace w = true -> rstrip (x ++ w) = rstrip x.
Proof.
  intros H. unfold rstrip. rewrite rev_app_distr, lstrip_app; [reflexivity |].
  rewrite forallb_rev. exact H.
Qed.

Lemma rstrip_solid (x : pystr) (c : N) :
  py_isspace c = false -> rstrip (x ++ [c]) = x ++ [c].
Proof.
  intros H. unfold rstrip. rewrite rev_app_distr. simpl. rewrite H.
  simpl. rewrite rev_involutive. reflexivity.
Qed.

(** [strip] takes the whitespace around a text that begins and ends with
    a character that is no whitespace, and nothing else. *)
Lemma strip_core (a body b : pystr) :
  forallb py_isspace a = true -> forallb py_isspace b = true ->
  (exists c r, body = c :: r /\ py_isspace c = false) ->
  (exists r c, body = r ++ [c] /\ py_isspace c = false) ->
  strip (a ++ body ++ b) = body.
Proof.
  intros Ha Hb [c [r [E Hc]]] [r' [c' [E' Hc']]].
  unfold strip. rewrite lstrip_app by exact Ha.
  rewrite E. simpl app. rewrite lstrip_solid by exact Hc.
  change (c :: r ++ b) with ((c :: r) ++ b). rewrite <- E.
  rewrite rstrip_app by exact Hb.
  rewrite E'. apply rstrip_solid. exact Hc'.
Qed.

Lemma strip_solid_core (a body b : pystr) :
  forallb py_isspace a = true -> forallb py_isspace b = true ->
  starts_solid body -> ends_solid body ->
  strip (a ++ body ++ b) = body.
Proof.
  intros Ha Hb [c [r [E Hc]]] [r' [c' [E' Hc']]].
  apply strip_core; auto.
  - exists c, r. split; [exact E | apply token_char_not_space; exact Hc].
  - exists r', c'. split; [exact E' | apply token_char_not_space; exact Hc'].
Qed.

Lemma strip_solid (body : pystr) :
  starts_solid body -> ends_solid body -> strip body = body.
Proof.
  intros Hs He. pose proof (strip_solid_core [] body [] eq_refl eq_refl Hs He) as H.
  simpl in H. rewrite app_nil_r in H. exact H.
Qed.

(** [strip] and one more line feed on either side. *)
Lemma lstrip_snoc_space (x : pystr) (c : N) :
  py_isspace c = true ->
  lstrip (x ++ [c]) = match lstrip x with [] => [] | y => y ++ [c] end.
Proof.
  intros H. induction x as [| a x IH]; simpl.
  - rewrite H. reflexivity.
  - destruct (py_isspace a); [exact IH | reflexivity].
Qed.

Lemma rstrip_nil : rstrip [] = [].
Proof. reflexivity. Qed.

Lemma strip_snoc_space (x : pystr) (c : N) :
  py_isspace c = true -> strip (x ++ [c]) = strip x.
Proof.
  intros H. unfold strip. rewrite (lstrip_snoc_space x c H).
  destruct (lstrip x) as [| a y] eqn:E; [reflexivity |].
  apply rstrip_app. simpl. rewrite H. reflexivity.
Qed.

Lemma strip_cons_space (c : N) (x : pystr) :
  py_isspace c = true -> strip (c :: x) = strip x.
Proof. intros H. unfold strip. simpl. rewrite H. reflexivity. Qed.

(** ** Prefixes, suffixes and slices *)

Lemma startswith_app (p x : pystr) : startswith p (p ++ x) = true.
Proof.
  induction p as [| a p IH]; simpl; [reflexivity |].
  rewrite N.eqb_refl. exact IH.
Qed.

Lemma startswith_split (p s : pystr) :
  startswith p s = true -> s = p ++ skipn (List.length p) s.
Proof.
  revert s. induction p as [| a p IH]; intros s; simpl; [reflexivity |].
  destruct s as [| b s]; [discriminate |].
  rewrite andb_true_iff, N.eqb_eq. intros [E H]. subst. f_equal. auto.
Qed.

Lemma endswith_app (x p : pystr) : endswith p (x ++ p) = true.
Proof. unfold endswith. rewrite rev_app_distr. apply startswith_app. Qed.

Lemma slice_drop_last_app (x p : pystr) :
  slice_drop_last (List.length p) (x ++ p) = x.
Proof.
  unfold slice_drop_last. rewrite length_app, Nat.add_sub.
  rewrite firstn_app, Nat.sub_diag, firstn_all. simpl. apply app_nil_r.
Qed.

Lemma startswith_head_false (p s : pystr) (a b : N) :
  a <> b -> startswith (a :: p) (b :: s) = false.
Proof. intros H. simpl. apply N.eqb_neq in H. rewrite H. reflexivity. Qed.

Lemma endswith_last_false (p s : pystr) (a b : N) :
  a <> b -> endswith (p ++ [a]) (s ++ [b]) = false.
Proof.
  intros H. unfold endswith. rewrite !rev_app_distr. simpl.
  apply N.eqb_neq in H. rewrite H. reflexivity.
Qed.

(** The cleaning of a fenced text, for the tag [json] and for no tag:
    what is left is the text, stripped. *)
Lemma clean_text_fenced_json (text : pystr) :
  clean_text (fenced (py "json") text) = strip text.
Proof.
  unfold clean_text, fenced.
  assert (E : strip (FENCE ++ py "json" ++ [10%N] ++ text ++ [10%N] ++ FENCE)
              = FENCE_JSON ++ (10%N :: text ++ [10%N]) ++ FENCE).
  { replace (FENCE ++ py "json" ++ [10%N] ++ text ++ [10%N] ++ FENCE)
      with ([] ++ (FENCE_JSON ++ (10%N :: text ++ [10%N]) ++ FENCE) ++ []).
    - apply strip_core; try reflexivity.
      + exists 96%N. eexists. split; reflexivity.
      + exists (FENCE_JSON ++ (10%N :: text ++ [10%N]) ++ [96; 96]%N), 96%N.
        split; [| reflexivity].
        rewrite <- !app_assoc. reflexivity.
    - rewrite app_nil_r. simpl. rewrite <- !app_assoc. reflexivity. }
  rewrite E. rewrite startswith_app.
  change (slice_from 7 (FENCE_JSON ++ (10%N :: text ++ [10%N]) ++ FENCE))
    with ((10%N :: text ++ [10%N]) ++ FENCE).
  change (startswith FENCE ((10%N :: text ++ [10%N]) ++ FENCE)) with false.
  cbv iota. rewrite endswith_app.
  change 3%nat with (List.length FENCE). rewrite slice_drop_last_app.
  rewrite strip_cons_space by reflexivity.
  apply strip_snoc_space. reflexivity.
Qed.

Lemma clean_text_fenced_bare (text : pystr) :
  clean_text (fenced [] text) = strip text.
Proof.
  unfold clean_text, fenced.
  assert (E : strip (FENCE ++ [] ++ [10%N] ++ text ++ [10%N] ++ FENCE)
              = FENCE ++ (10%N :: text ++ [10%N]) ++ FENCE).
  { replace (FENCE ++ [] ++ [10%N] ++ text ++ [10%N] ++ FENCE)
      with ([] ++ (FENCE ++ (10%N :: text ++ [10%N]) ++ FENCE) ++ []).
    - apply strip_core; try reflexivity.
      + exists 96%N. eexists. split; reflexivity.
      + exists (FENCE ++ (10%N :: text ++ [10%N]) ++ [96; 96]%N), 96%N.
        split; [| reflexivity].
        rewrite <- !app_assoc. reflexivity.
    - rewrite app_nil_r. simpl. rewrite <- !app_assoc. reflexivity. }
  rewrite E.
  change (startswith FENCE_JSON (FENCE ++ (10%N :: text ++ [10%N]) ++ FENCE))
    with false.
  cbv iota. rewrite startswith_app.
  change (slice_from 3 (FENCE ++ (10%N :: text ++ [10%N]) ++ FENCE))
    with ((10%N :: text ++ [10%N]) ++ FENCE).
  rewrite endswith_app.
  change 3%nat with (List.length FENCE). rewrite slice_drop_last_app.
  rewrite strip_cons_space by reflexivity.
  apply strip_snoc_space. reflexivity.
Qed.

(** ** The scanner of strings *)

(** A string literal is read up to its closing quote, whatever follows
    it. *)
Lemma scanstring_from_local (s : pystr) :
  forall st acc str rest,
    scanstring_from st s acc = Scanned str rest ->
    exists pre,
      s = pre ++ 34%N :: rest /\
      forall x, scanstring_from st (pre ++ 34%N :: x) acc = Scanned str x.
Proof.
  induction s as [| c r IH]; intros st acc str rest H; simpl in H;
    [discriminate |].
  destruct st as [paired | paired | paired count value].
  - destruct (c =? 34)%N eqn:Eq.
    + inversion H; subst. apply N.eqb_eq in Eq. subst.
      exists []. split; [reflexivity |]. intros x. reflexivity.
    + destruct (c =? 92)%N eqn:Eb.
      * apply IH in H. destruct H as [pre [E L]]. exists (c :: pre).
        split; [simpl; congruence |].
        intros x. simpl. rewrite Eq, Eb. apply L.
      * destruct (c <=? 31)%N eqn:Ec; [discriminate |].
        apply IH in H. destruct H as [pre [E L]]. exists (c :: pre).
        split; [simpl; congruence |].
        intros x. simpl. rewrite Eq, Eb, Ec. apply L.
  - destruct (c =? 117)%N eqn:Eu.
    + apply IH in H. destruct H as [pre [E L]]. exists (c :: pre).
      split; [simpl; congruence |].
      intros x. simpl. rewrite Eu. apply L.
    + destruct (unescape c) as [u |] eqn:Ee; [| discriminate].
      apply IH in H. destruct H as [pre [E L]]. exists (c :: pre).
      split; [simpl; congruence |].
      intros x. simpl. rewrite Eu, Ee. apply L.
  - destruct (hexval c) as [d |] eqn:Eh; [| discriminate].
    cbv zeta in H.
    destruct count as [| [| [| [| count]]]];
      apply IH in H; destruct H as [pre [E L]]; exists (c :: pre);
      (split; [simpl; congruence |]);
      intros x; simpl; rewrite Eh; apply L.
Qed.

Lemma scanstring_local (s str rest : pystr) :
  scanstring s = Scanned str rest ->
  exists pre,
    s = pre ++ 34%N :: rest /\
    forall x, scanstring (pre ++ 34%N :: x) = Scanned str x.
Proof. apply scanstring_from_local. Qed.

(** ** The scanner of numbers *)

Lemma head_avoids_digit (x : pystr) :
  head_avoids number_char x -> head_avoids is_digit x.
Proof.
  destruct x as [| c x]; simpl; [auto |]. unfold number_char.
  rewrite !orb_false_iff. tauto.
Qed.

Lemma span_digits_local (s d t : pystr) :
  span_digits s = (d, t) ->
  s = d ++ t /\ forallb is_digit d = true /\
  forall x, head_avoids is_digit x -> span_digits (d ++ x) = (d, x).
Proof.
  revert d t. induction s as [| c r IH]; intros d t H; simpl in H.
  - inversion H; subst. split; [reflexivity | split; [reflexivity |]].
    intros x Hx. destruct x as [| a x]; [reflexivity |].
    simpl in *. rewrite Hx. reflexivity.
  - destruct (is_digit c) eqn:Ec.
    + destruct (span_digits r) as [d' t'] eqn:Er. inversion H; subst.
      destruct (IH d' t eq_refl) as [E [F L]]. split; [| split].
      * simpl. congruence.
      * simpl. rewrite Ec. exact F.
      * intros x Hx. simpl. rewrite Ec, (L x Hx). reflexivity.
    + inversion H; subst. split; [reflexivity | split; [reflexivity |]].
      intros x Hx. destruct x as [| a x]; [reflexivity |].
      simpl in *. rewrite Hx. reflexivity.
Qed.

(** The last character of a non-empty text of digits is a digit. *)
Lemma last_digit (c : N) (d : pystr) :
  is_digit c = true -> forallb is_digit d = true ->
  exists pre z, c :: d = pre ++ [z] /\ is_digit z = true.
Proof.
  revert c. induction d as [| a d IH]; intros c Hc Hd.
  - exists [], c. auto.
  - simpl in Hd. apply andb_true_iff in Hd. destruct Hd as [Ha Hd].
    destruct (IH a Ha Hd) as [pre [z [E Hz]]].
    exists (c :: pre), z. split; [simpl; congruence | exact Hz].
Qed.

Lemma match_int_local (s ip t : pystr) :
  match_int s = Some (ip, t) ->
  s = ip ++ t /\
  (exists c d, ip = c :: d /\ is_digit c = true /\ forallb is_digit d = true) /\
  forall x, head_avoids is_digit x -> match_int (ip ++ x) = Some (ip, x).
Proof.
  unfold match_int. destruct s as [| c r]; [discriminate |].
  destruct (c =? 48)%N eqn:E0.
  - intros H. inversion H; subst. apply N.eqb_eq in E0. subst.
    split; [reflexivity | split].
    + exists 48%N, []. auto.
    + intros x _. reflexivity.
  - destruct (is_digit c) eqn:Ec; [| discriminate].
    destruct (span_digits r) as [d u] eqn:Er. intros H. inversion H; subst.
    destruct (span_digits_local r d t Er) as [E [F L]]. split; [| split].
    + simpl. congruence.
    + exists c, d. auto.
    + intros x Hx. simpl. rewrite E0, Ec, (L x Hx). reflexivity.
Qed.

Lemma snoc_cons {A : Type} (a : A) (pre : list A) (z : A) (l : list A) :
  l = pre ++ [z] -> a :: l = (a :: pre) ++ [z].
Proof. intros H. simpl. congruence. Qed.

Lemma match_frac_local (s fp t : pystr) :
  match_frac s = (fp, t) ->
  s = fp ++ t /\ optional_part is_point fp /\
  forall x, head_avoids (fun c => is_digit c || is_point c) x ->
            match_frac (fp ++ x) = (fp, x).
Proof.
  assert (N0 : forall x, head_avoids (fun c => is_digit c || is_point c) x ->
                         match_frac x = ([], x)).
  { intros x Hx. destruct x as [| a [| b x]]; try reflexivity.
    simpl in *. apply orb_false_iff in Hx. destruct Hx as [_ Hx].
    unfold is_point in Hx. rewrite Hx. reflexivity. }
  unfold match_frac at 1. destruct s as [| p [| c r]].
  - intros H. inversion H; subst. split; [reflexivity | split; [left; reflexivity |]].
    intros x Hx. simpl. apply N0. exact Hx.
  - intros H. inversion H; subst. split; [reflexivity | split; [left; reflexivity |]].
    intros x Hx. simpl. apply N0. exact Hx.
  - destruct ((p =? 46)%N && is_digit c) eqn:E.
    + destruct (span_digits r) as [d u] eqn:Er. intros H. inversion H; subst.
      apply andb_true_iff in E. destruct E as [Ep Ec].
      destruct (span_digits_local r d t Er) as [E [F L]]. split; [| split].
      * simpl. congruence.
      * right. split.
        -- exists p, (c :: d). auto.
        -- destruct (last_digit c d Ec F) as [pre [z [Ez Hz]]].
           exists (p :: pre), z. split; [apply snoc_cons; exact Ez | exact Hz].
      * intros x Hx. simpl. rewrite Ep, Ec. simpl.
        rewrite (L x); [reflexivity |].
        destruct x as [| a x]; simpl in *; [auto |].
        apply orb_false_iff in Hx. tauto.
    + intros H. inversion H; subst. split; [reflexivity | split; [left; reflexivity |]].
      intros x Hx. simpl. apply N0. exact Hx.
Qed.

Lemma match_exp_local (s ep t : pystr) :
  match_exp s = (ep, t) ->
  s = ep ++ t /\ optional_part is_e ep /\
  forall x, head_avoids (fun c => is_digit c || is_e c) x ->
            match_exp (ep ++ x) = (ep, x).
Proof.
  assert (N0 : forall x, head_avoids (fun c => is_digit c || is_e c) x ->
                         match_exp x = ([], x)).
  { intros x Hx. destruct x as [| a x]; [reflexivity |].
    simpl in *. apply orb_false_iff in Hx. destruct Hx as [_ Hx].
    unfold is_e in Hx. rewrite Hx. reflexivity. }
  assert (D : forall x, head_avoids (fun c => is_digit c || is_e c) x ->
                        head_avoids is_digit x).
  { intros x Hx. destruct x as [| a x]; simpl in *; [auto |].
    apply orb_false_iff in Hx. tauto. }
  unfold match_exp at 1. destruct s as [| e r].
  - intros H. inversion H; subst. split; [reflexivity | split; [left; reflexivity |]].
    intros x Hx. simpl. apply N0. exact Hx.
  - destruct ((e =? 101) || (e =? 69))%N eqn:Ee.
    2:{ intros H. inversion H; subst. split; [reflexivity | split; [left; reflexivity |]].
        intros x Hx. simpl. apply N0. exact Hx. }
    destruct r as [| sg u].
    { intros H. inversion H; subst. split; [reflexivity | split; [left; reflexivity |]].
      intros x Hx. simpl. apply N0. exact Hx. }
    destruct (is_sign sg) eqn:Es.
    + destruct u as [| c u'].
      { intros H. inversion H; subst. split; [reflexivity | split; [left; reflexivity |]].
        intros x Hx. simpl. apply N0. exact Hx. }
      destruct (is_digit c) eqn:Ec.
      * destruct (span_digits (c :: u')) as [d v] eqn:Er.
        intros H. inversion H; subst.
        destruct (span_digits_local _ d t Er) as [E [F L]].
        assert (Hd : exists d', d = c :: d').
        { simpl in Er. rewrite Ec in Er.
          destruct (span_digits u') as [d' t']. inversion Er. eauto. }
        destruct Hd as [d' Hd]. subst d.
        split; [| split].
        -- simpl. simpl in E. congruence.
        -- right. split.
           ++ exists e, (sg :: c :: d'). auto.
           ++ simpl in F. apply andb_true_iff in F. destruct F as [_ F].
              destruct (last_digit c d' Ec F) as [pre [z [Ez Hz]]].
              exists (e :: sg :: pre), z.
              split; [do 2 apply snoc_cons; exact Ez | exact Hz].
        -- intros x Hx. unfold match_exp. cbn [app]. rewrite Ee, Es, Ec.
           change (c :: d' ++ x) with ((c :: d') ++ x).
           rewrite (L x (D x Hx)). reflexivity.
      * intros H. inversion H; subst. split; [reflexivity | split; [left; reflexivity |]].
        intros x Hx. simpl. apply N0. exact Hx.
    + destruct (is_digit sg) eqn:Ec.
      * destruct (span_digits (sg :: u)) as [d v] eqn:Er.
        intros H. inversion H; subst.
        destruct (span_digits_local _ d t Er) as [E [F L]].
        assert (Hd : exists d', d = sg :: d').
        { simpl in Er. rewrite Ec in Er.
          destruct (span_digits u) as [d' t']. inversion Er. eauto. }
        destruct Hd as [d' Hd]. subst d.
        split; [| split].
        -- simpl. simpl in E. congruence.
        -- right. split.
           ++ exists e, (sg :: d'). auto.
           ++ simpl in F. apply andb_true_iff in F. destruct F as [_ F].
              destruct (last_digit sg d' Ec F) as [pre [z [Ez Hz]]].
              exists (e :: pre), z.
              split; [apply snoc_cons; exact Ez | exact Hz].
        -- intros x Hx. unfold match_exp. cbn [app]. rewrite Ee, Es, Ec.
           change (sg :: d' ++ x) with ((sg :: d') ++ x).
           rewrite (L x (D x Hx)). reflexivity.
      * intros H. inversion H; subst. split; [reflexivity | split; [left; reflexivity |]].
        intros x Hx. simpl. apply N0. exact Hx.
Qed.

Lemma optional_part_head_avoids (first bad : N -> bool) (p y : pystr) :
  optional_part first p ->
  (forall c, first c = true -> bad c = false) ->
  head_avoids bad y -> head_avoids bad (p ++ y).
Proof.
  intros [E | [[c [r [E Hc]]] _]] Hb Hy; subst; simpl; auto.
Qed.

Lemma is_point_not_digit (c : N) : is_point c = true -> is_digit c = false.
Proof. unfold is_point. rewrite N.eqb_eq. intros E. subst. reflexivity. Qed.

Lemma is_e_not_digit_or_point (c : N) :
  is_e c = true -> is_digit c || is_point c = false.
Proof.
  unfold is_e. rewrite orb_true_iff, !N.eqb_eq.
  intros [E | E]; subst; reflexivity.
Qed.

Lemma is_e_not_digit (c : N) : is_e c = true -> is_digit c = false.
Proof.
  intros H. apply is_e_not_digit_or_point in H.
  apply orb_false_iff in H. tauto.
Qed.

Lemma number_char_false (c : N) :
  number_char c = false ->
  is_digit c = false /\ is_point c = false /\ is_e c = false.
Proof.
  unfold number_char, is_point, is_e. rewrite !orb_false_iff. tauto.
Qed.

Lemma ends_digit_app (a b : pystr) :
  (exists pre z, b = pre ++ [z] /\ is_digit z = true) ->
  exists pre z, a ++ b = pre ++ [z] /\ is_digit z = true.
Proof.
  intros [pre [z [E Hz]]]. exists (a ++ pre), z. subst.
  rewrite app_assoc. auto.
Qed.

Lemma ends_digit_optional (first : N -> bool) (a p : pystr) :
  (exists pre z, a = pre ++ [z] /\ is_digit z = true) ->
  optional_part first p ->
  exists pre z, a ++ p = pre ++ [z] /\ is_digit z = true.
Proof.
  intros Ha [E | [_ Hp]].
  - subst. rewrite app_nil_r. exact Ha.
  - apply ends_digit_app. exact Hp.
Qed.

Lemma match_number_local (s ip fe rest : pystr) :
  match_number s = Some (ip, fe, rest) ->
  s = (ip ++ fe) ++ rest /\ number_shape (ip ++ fe) /\
  forall x, head_avoids number_char x ->
            match_number ((ip ++ fe) ++ x) = Some (ip, fe, x).
Proof.
  unfold match_number at 1.
  destruct s as [| c r]; [discriminate |].
  set (signed := (c =? 45)%N).
  destruct (match_int (if signed then r else c :: r)) as [[ip0 s2] |] eqn:Hi.
  2:{ destruct signed; rewrite Hi; discriminate. }
  destruct (match_frac s2) as [fp s3] eqn:Hf.
  destruct (match_exp s3) as [ep s4] eqn:He.
  intros H.
  assert (H' : ((if signed then [c] else []) ++ ip0, fp ++ ep, s4)
               = (ip, fe, rest)).
  { destruct signed; rewrite Hi, Hf, He in H; inversion H; reflexivity. }
  clear H. inversion H'; subst ip fe rest. clear H'.
  destruct (match_int_local _ _ _ Hi) as [Ei [[c0 [d0 [Eip [Hc0 Hd0]]]] Li]].
  destruct (match_frac_local _ _ _ Hf) as [Ef [Of Lf]].
  destruct (match_exp_local _ _ _ He) as [Ee [Oe Le]].
  assert (Hend : exists pre z, ip0 ++ fp ++ ep = pre ++ [z] /\ is_digit z = true).
  { rewrite app_assoc. apply (ends_digit_optional is_e); [| exact Oe].
    apply (ends_digit_optional is_point); [| exact Of].
    rewrite Eip. apply last_digit; assumption. }
  assert (Hloc : forall x, head_avoids number_char x ->
                           match_int (ip0 ++ fp ++ ep ++ x) = Some (ip0, fp ++ ep ++ x)
                           /\ match_frac (fp ++ ep ++ x) = (fp, ep ++ x)
                           /\ match_exp (ep ++ x) = (ep, x)).
  { intros x Hx.
    assert (A3 : head_avoids (fun c => is_digit c || is_e c) x).
    { destruct x as [| a x]; simpl in *; [auto |].
      destruct (number_char_false a Hx) as [D [P E]]. rewrite D, E. reflexivity. }
    assert (A2 : head_avoids (fun c => is_digit c || is_point c) (ep ++ x)).
    { apply (optional_part_head_avoids is_e); [exact Oe | |].
      - apply is_e_not_digit_or_point.
      - destruct x as [| a x]; simpl in *; [auto |].
        destruct (number_char_false a Hx) as [D [P E]]. rewrite D, P. reflexivity. }
    assert (A1 : head_avoids is_digit (fp ++ ep ++ x)).
    { apply (optional_part_head_avoids is_point); [exact Of | |].
      - apply is_point_not_digit.
      - apply (optional_part_head_avoids is_e); [exact Oe | |].
        + apply is_e_not_digit.
        + apply head_avoids_digit. exact Hx. }
    split; [apply Li; exact A1 |].
    split; [apply Lf; exact A2 | apply Le; exact A3]. }
  destruct signed eqn:Es; unfold signed in Es.
  - apply N.eqb_eq in Es. subst c.
    split; [| split].
    + simpl. rewrite <- !app_assoc. simpl. congruence.
    + split.
      * right. exists c0, (d0 ++ fp ++ ep). rewrite Eip. auto.
      * rewrite <- app_assoc. apply ends_digit_app. exact Hend.
    + intros x Hx. destruct (Hloc x Hx) as [L1 [L2 L3]].
      unfold match_number. rewrite <- !app_assoc. cbn [app].
      rewrite N.eqb_refl, L1, L2, L3. reflexivity.
  - split; [| split].
    + simpl. rewrite <- !app_assoc. congruence.
    + split.
      * left. exists c0, (d0 ++ fp ++ ep). rewrite Eip. auto.
      * exact Hend.
    + intros x Hx. destruct (Hloc x Hx) as [L1 [L2 L3]].
      assert (Ec : c0 = c).
      { rewrite Eip in Ei. simpl in Ei. inversion Ei. reflexivity. }
      unfold match_number. cbn [app]. rewrite <- !app_assoc.
      pose proof L1 as L1'. rewrite Eip in L1' at 1. cbn [app] in L1'.
      rewrite Eip at 1. cbn [app]. rewrite Ec in *. rewrite Es.
      rewrite L1, L2, L3. reflexivity.
Qed.

Lemma scan_number_local (maxd : N) (s : pystr) (v : json) (rest : pystr) :
  scan_number maxd s = Scanned v rest ->
  exists body,
    s = body ++ rest /\ number_shape body /\
    forall x, head_avoids number_char x ->
              scan_number maxd (body ++ x) = Scanned v x.
Proof.
  unfold scan_number at 1.
  destruct (match_number s) as [[[ip fe] t] |] eqn:Hm; [| discriminate].
  destruct (number_value maxd ip fe) as [w | f] eqn:Hv; [| discriminate].
  intros H. inversion H; subst.
  destruct (match_number_local _ _ _ _ Hm) as [E [Sh L]].
  exists (ip ++ fe). split; [exact E | split; [exact Sh |]].
  intros x Hx. unfold scan_number. rewrite (L x Hx), Hv. reflexivity.
Qed.

Lemma length_py (s : string) : List.length (py s) = String.length s.
Proof.
  unfold py. rewrite length_map.
  induction s as [| a s IH]; simpl; congruence.
Qed.

Lemma scan_literal_local (lit : string) (v : json) (s : pystr) (w : json)
    (rest : pystr) :
  scan_literal lit v s = Scanned w rest ->
  w = v /\ s = py lit ++ rest /\
  forall x, scan_literal lit v (py lit ++ x) = Scanned v x.
Proof.
  unfold scan_literal.
  destruct (startswith (py lit) s) eqn:E; [| discriminate].
  intros H. inversion H; subst. split; [reflexivity | split].
  - rewrite <- length_py. apply startswith_split. exact E.
  - intros x. rewrite startswith_app, <- length_py.
    rewrite skipn_app, skipn_all, Nat.sub_diag. reflexivity.
Qed.

(** ** The scanner of values *)

Lemma is_digit_cases (c : N) :
  is_digit c = true ->
  In c [48; 49; 50; 51; 52; 53; 54; 55; 56; 57]%N.
Proof.
  unfold is_digit. rewrite andb_true_iff, !N.leb_le. intros [H1 H2].
  assert (E : (c = 48 \/ c = 49 \/ c = 50 \/ c = 51 \/ c = 52 \/ c = 53 \/
               c = 54 \/ c = 55 \/ c = 56 \/ c = 57)%N) by lia.
  simpl. intuition.
Qed.

Lemma is_digit_token (c : N) : is_digit c = true -> token_char c = true.
Proof.
  intros H. apply is_digit_cases in H. simpl in H.
  repeat (destruct H as [H | H]; [subst; reflexivity | idtac]). contradiction.
Qed.

Lemma starts_solid_app (a b : pystr) : starts_solid a -> starts_solid (a ++ b).
Proof.
  intros [c [r [E H]]]. exists c, (r ++ b). subst. auto.
Qed.

Lemma ends_solid_app (a b : pystr) : ends_solid b -> ends_solid (a ++ b).
Proof.
  intros [r [c [E H]]]. exists (a ++ r), c. subst. rewrite app_assoc. auto.
Qed.

Lemma starts_solid_cons (c : N) (r : pystr) :
  token_char c = true -> starts_solid (c :: r).
Proof. intros H. exists c, r. auto. Qed.

Lemma ends_solid_snoc (r : pystr) (c : N) :
  token_char c = true -> ends_solid (r ++ [c]).
Proof. intros H. exists r, c. auto. Qed.

Lemma number_shape_solid (body : pystr) :
  number_shape body -> starts_solid body /\ ends_solid body.
Proof.
  intros [[[c [r [E H]]] | [c [r [E H]]]] [pre [z [E' Hz]]]]; split.
  - subst. apply starts_solid_cons, is_digit_token, H.
  - rewrite E'. apply ends_solid_snoc, is_digit_token, Hz.
  - subst. apply starts_solid_cons. reflexivity.
  - rewrite E'. apply ends_solid_snoc, is_digit_token, Hz.
Qed.

Lemma ws_not_number_char (a : N) : is_ws a = true -> number_char a = false.
Proof.
  intros H. destruct (is_ws_cases a H) as [E | [E | [E | E]]]; subst; reflexivity.
Qed.

Lemma head_avoids_after_ws (w : pystr) (c : N) (x : pystr) :
  forallb is_ws w = true -> number_char c = false ->
  head_avoids number_char (w ++ c :: x).
Proof.
  destruct w as [| a w]; simpl; [auto |].
  rewrite andb_true_iff. intros [H _] _. apply ws_not_number_char. exact H.
Qed.

Lemma skip_ws_to (w : pystr) (c : N) (x : pystr) :
  forallb is_ws w = true -> is_ws c = false ->
  skip_ws (w ++ c :: x) = c :: x.
Proof.
  intros Hw Hc. rewrite skip_ws_app by exact Hw. apply skip_ws_solid. exact Hc.
Qed.

Lemma skip_ws_found (r : pystr) (c : N) (r1 : pystr) :
  skip_ws r = c :: r1 ->
  exists w, r = w ++ c :: r1 /\ forallb is_ws w = true /\ is_ws c = false.
Proof.
  intros H. destruct (skip_ws_split r) as [w [E Hw]].
  exists w. rewrite H in E. split; [exact E | split; [exact Hw |]].
  eapply skip_ws_head. exact H.
Qed.

Lemma scan_once_step (n d : nat) (maxd : N) (s : pystr) :
  scan_once (S n) d maxd s =
  match s with
  | [] => Faulty BadSyntax
  | c :: r =>
      if (c =? 34)%N then
        match scanstring r with
        | Scanned str r' => Scanned (JStr str) r'
        | Faulty f => Faulty f
        | NoFuel => NoFuel
        end
      else if (c =? 123)%N then
        match d with
        | O => Faulty (TooDeep false)
        | S d' =>
            match skip_ws r with
            | c1 :: r1 =>
                if (c1 =? 125)%N then Scanned (JObj []) r1
                else scan_members n d' maxd (c1 :: r1) []
            | [] => Faulty BadSyntax
            end
        end
      else if (c =? 91)%N then
        match d with
        | O => Faulty (TooDeep true)
        | S d' =>
            match skip_ws r with
            | c1 :: r1 =>
                if (c1 =? 93)%N then Scanned (JArr []) r1
                else scan_elements n d' maxd (c1 :: r1) []
            | [] => Faulty BadSyntax
            end
        end
      else if (c =? 110)%N then scan_literal "null" JNull s
      else if (c =? 116)%N then scan_literal "true" (JBool true) s
      else if (c =? 102)%N then scan_literal "false" (JBool false) s
      else if (c =? 78)%N then scan_literal "NaN" (JFloat (py "NaN")) s
      else if (c =? 73)%N
      then scan_literal "Infinity" (JFloat (py "Infinity")) s
      else if (c =? 45)%N && startswith (py "-Infinity") s
      then Scanned (JFloat (py "-Infinity")) (skipn 9 s)
      else scan_number maxd s
  end.
Proof. reflexivity. Qed.

Lemma scan_elements_step (n d : nat) (maxd : N) (s : pystr) (acc : list json) :
  scan_elements (S n) d maxd s acc =
  match scan_once n d maxd s with
  | Scanned v r =>
      match skip_ws r with
      | c :: r1 =>
          if (c =? 93)%N then Scanned (JArr (rev (v :: acc))) r1
          else if (c =? 44)%N
          then scan_elements n d maxd (skip_ws r1) (v :: acc)
          else Faulty BadSyntax
      | [] => Faulty BadSyntax
      end
  | Faulty f => Faulty f
  | NoFuel => NoFuel
  end.
Proof. reflexivity. Qed.

Lemma scan_members_step (n d : nat) (maxd : N) (s : pystr)
    (acc : list (pystr * json)) :
  scan_members (S n) d maxd s acc =
  match s with
  | [] => Faulty BadSyntax
  | q :: r =>
      if (q =? 34)%N then
        match scanstring r with
        | Scanned key r1 =>
            match skip_ws r1 with
            | [] => Faulty BadSyntax
            | c1 :: r2 =>
                if (c1 =? 58)%N then
                  match scan_once n d maxd (skip_ws r2) with
                  | Scanned v r3 =>
                      match skip_ws r3 with
                      | [] => Faulty BadSyntax
                      | c3 :: r4 =>
                          if (c3 =? 125)%N
                          then Scanned (JObj (dict_set key v acc)) r4
                          else if (c3 =? 44)%N
                          then scan_members n d maxd (skip_ws r4)
                                 (dict_set key v acc)
                          else Faulty BadSyntax
                      end
                  | Faulty f => Faulty f
                  | NoFuel => NoFuel
                  end
                else Faulty BadSyntax
            end
        | Faulty f => Faulty f
        | NoFuel => NoFuel
        end
      else Faulty BadSyntax
  end.
Proof. reflexivity. Qed.

Lemma scan_once_local_string (n d : nat) (maxd : N) (r : pystr) (v : json)
    (rest : pystr) :
  match scanstring r with
  | Scanned str r' => Scanned (JStr str) r'
  | Faulty f => Faulty f
  | NoFuel => NoFuel
  end = Scanned v rest ->
  local_scan (scan_once (S n) d maxd) (34%N :: r) v rest.
Proof.
  destruct (scanstring r) as [str r' | f |] eqn:Hs; try discriminate.
  intros H. inversion H; subst.
  destruct (scanstring_local _ _ _ Hs) as [pre [E L]].
  exists (34%N :: pre ++ [34%N]). split; [| split; [| split]].
  - simpl. rewrite <- app_assoc. simpl. congruence.
  - apply starts_solid_cons. reflexivity.
  - change (34%N :: pre ++ [34%N]) with ((34%N :: pre) ++ [34%N]).
    apply ends_solid_snoc. reflexivity.
  - intros x _. rewrite scan_once_step. cbn [app]. rewrite <- app_assoc.
    cbn [app]. change (34 =? 34)%N with true. cbv iota.
    rewrite (L x). reflexivity.
Qed.

Lemma scan_once_local_literal (n d : nat) (maxd : N) (lit : string) (v : json)
    (s : pystr) (w : json) (rest : pystr) (c : N) (l : pystr) :
  py lit = c :: l -> token_char c = true -> ends_solid (py lit) ->
  (forall x, scan_once (S n) d maxd (py lit ++ x) = scan_literal lit v (py lit ++ x)) ->
  scan_literal lit v s = Scanned w rest ->
  local_scan (scan_once (S n) d maxd) s w rest.
Proof.
  intros Hl Hc He Hd H.
  destruct (scan_literal_local _ _ _ _ _ H) as [Ev [Es L]]. subst w.
  exists (py lit). split; [exact Es | split; [| split]].
  - rewrite Hl. apply starts_solid_cons. exact Hc.
  - exact He.
  - intros x _. rewrite Hd. apply L.
Qed.

Lemma local_scan_container (f : pystr -> scan json) (open : N) (w b rest : pystr)
    (v : json) (g : pystr -> scan json) :
  token_char open = true ->
  starts_solid b -> ends_solid b ->
  (forall x, head_avoids number_char x -> g (b ++ x) = Scanned v x) ->
  (forall x, f (open :: w ++ b ++ x) = g (b ++ x)) ->
  local_scan f (open :: w ++ b ++ rest) v rest.
Proof.
  intros Ho Sb Eb L Hf.
  exists (open :: w ++ b). split; [| split; [| split]].
  - simpl. rewrite <- app_assoc. reflexivity.
  - apply starts_solid_cons. exact Ho.
  - change (open :: w ++ b) with ((open :: w) ++ b). apply ends_solid_app. exact Eb.
  - intros x Hx. cbn [app]. rewrite <- app_assoc. rewrite Hf. apply L. exact Hx.
Qed.

Lemma digit_not_I (c : N) : is_digit c = true -> (73 =? c)%N = false.
Proof.
  intros H. apply is_digit_cases in H. simpl in H.
  repeat (destruct H as [H | H]; [subst; reflexivity | idtac]). contradiction.
Qed.

(** The three scanning functions read a value the same way whatever
    follows it. *)
Lemma scan_local (n : nat) :
  (forall d maxd s v rest,
      scan_once n d maxd s = Scanned v rest ->
      local_scan (scan_once n d maxd) s v rest) /\
  (forall d maxd s acc v rest,
      scan_elements n d maxd s acc = Scanned v rest ->
      local_scan (fun s' => scan_elements n d maxd s' acc) s v rest) /\
  (forall d maxd s acc v rest,
      scan_members n d maxd s acc = Scanned v rest ->
      local_scan (fun s' => scan_members n d maxd s' acc) s v rest).
Proof.
  induction n as [| n [IH1 [IH2 IH3]]].
  { split; [| split]; intros; discriminate. }
  split; [| split].
  - (* scan_once *)
    intros d maxd s v rest H. rewrite scan_once_step in H.
    destruct s as [| c r]; [discriminate |].
    destruct (c =? 34)%N eqn:E34.
    { apply N.eqb_eq in E34. subst c. apply scan_once_local_string. exact H. }
    destruct (c =? 123)%N eqn:E123.
    { apply N.eqb_eq in E123. subst c.
      destruct d as [| d']; [discriminate |].
      destruct (skip_ws r) as [| c1 r1] eqn:Hs; [discriminate |].
      destruct (skip_ws_found _ _ _ Hs) as [w [Er [Hw Hc1]]].
      destruct (c1 =? 125)%N eqn:E125.
      - inversion H; subst v rest. apply N.eqb_eq in E125. subst c1.
        rewrite Er.
        change (123%N :: w ++ 125%N :: r1) with (123%N :: w ++ [125%N] ++ r1).
        apply local_scan_container with (g := fun s' => Scanned (JObj []) (skipn 1 s')).
        + reflexivity.
        + apply starts_solid_cons. reflexivity.
        + apply (ends_solid_snoc []). reflexivity.
        + intros x _. reflexivity.
        + intros x. rewrite scan_once_step.
          change (123 =? 34)%N with false. change (123 =? 123)%N with true.
          cbv iota. cbn [app]. rewrite skip_ws_to by (assumption || reflexivity).
          reflexivity.
      - apply IH3 in H. destruct H as [b [Eb [Sb [Eb' L]]]].
        pose proof Sb as [c' [b' [Ec' Hc']]].
        assert (Ec : c' = c1) by (subst b; simpl in Eb; inversion Eb; reflexivity).
        subst c'. rewrite Er, Eb.
        apply local_scan_container
          with (g := fun s' => scan_members n d' maxd s' []); auto.
        intros x. rewrite scan_once_step.
        change (123 =? 34)%N with false. change (123 =? 123)%N with true.
        cbv iota. rewrite Ec'. cbn [app].
        rewrite skip_ws_to by assumption. rewrite E125. reflexivity. }
    destruct (c =? 91)%N eqn:E91.
    { apply N.eqb_eq in E91. subst c.
      destruct d as [| d']; [discriminate |].
      destruct (skip_ws r) as [| c1 r1] eqn:Hs; [discriminate |].
      destruct (skip_ws_found _ _ _ Hs) as [w [Er [Hw Hc1]]].
      destruct (c1 =? 93)%N eqn:E93.
      - inversion H; subst v rest. apply N.eqb_eq in E93. subst c1.
        rewrite Er.
        change (91%N :: w ++ 93%N :: r1) with (91%N :: w ++ [93%N] ++ r1).
        apply local_scan_container with (g := fun s' => Scanned (JArr []) (skipn 1 s')).
        + reflexivity.
        + apply starts_solid_cons. reflexivity.
        + apply (ends_solid_snoc []). reflexivity.
        + intros x _. reflexivity.
        + intros x. rewrite scan_once_step.
          change (91 =? 34)%N with false. change (91 =? 123)%N with false.
          change (91 =? 91)%N with true.
          cbv iota. cbn [app]. rewrite skip_ws_to by (assumption || reflexivity).
          reflexivity.
      - apply IH2 in H. destruct H as [b [Eb [Sb [Eb' L]]]].
        pose proof Sb as [c' [b' [Ec' Hc']]].
        assert (Ec : c' = c1) by (subst b; simpl in Eb; inversion Eb; reflexivity).
        subst c'. rewrite Er, Eb.
        apply local_scan_container
          with (g := fun s' => scan_elements n d' maxd s' []); auto.
        intros x. rewrite scan_once_step.
        change (91 =? 34)%N with false. change (91 =? 123)%N with false.
        change (91 =? 91)%N with true.
        cbv iota. rewrite Ec'. cbn [app].
        rewrite skip_ws_to by assumption. rewrite E93. reflexivity. }
    destruct (c =? 110)%N eqn:E110.
    { eapply scan_once_local_literal; try exact H; try reflexivity.
      exists (py "nul"), 108%N. split; reflexivity. }
    destruct (c =? 116)%N eqn:E116.
    { eapply scan_once_local_literal; try exact H; try reflexivity.
      exists (py "tru"), 101%N. split; reflexivity. }
    destruct (c =? 102)%N eqn:E102.
    { eapply scan_once_local_literal; try exact H; try reflexivity.
      exists (py "fals"), 101%N. split; reflexivity. }
    destruct (c =? 78)%N eqn:E78.
    { eapply scan_once_local_literal; try exact H; try reflexivity.
      exists (py "Na"), 78%N. split; reflexivity. }
    destruct (c =? 73)%N eqn:E73.
    { eapply scan_once_local_literal; try exact H; try reflexivity.
      exists (py "Infinit"), 121%N. split; reflexivity. }
    destruct ((c =? 45)%N && startswith (py "-Infinity") (c :: r)) eqn:Em.
    { inversion H; subst v rest.
      apply andb_true_iff in Em. destruct Em as [_ Em].
      apply startswith_split in Em.
      exists (py "-Infinity"). split; [exact Em | split; [| split]].
      - apply starts_solid_cons. reflexivity.
      - exists (py "-Infinit"), 121%N. split; reflexivity.
      - intros x _. reflexivity. }
    destruct (scan_number_local _ _ _ _ H) as [body [Eb [Sh L]]].
    destruct (number_shape_solid _ Sh) as [Sb Eb'].
    exists body. split; [exact Eb | split; [exact Sb | split; [exact Eb' |]]].
    intros x Hx. rewrite <- (L x Hx). rewrite scan_once_step.
    destruct Sh as [[[c0 [r0 [E0 H0]]] | [c0 [r0 [E0 H0]]]] _].
    + assert (Ec : c0 = c) by (subst body; simpl in Eb; inversion Eb; reflexivity).
      subst c0. rewrite E0. cbn [app].
      rewrite E34, E123, E91, E110, E116, E102, E78, E73.
      assert (E45 : (c =? 45)%N = false).
      { apply is_digit_cases in H0. simpl in H0.
        repeat (destruct H0 as [H0 | H0]; [subst; reflexivity | idtac]).
        contradiction. }
      rewrite E45. reflexivity.
    + assert (Ec : c = 45%N) by (subst body; simpl in Eb; inversion Eb; reflexivity).
      subst c. rewrite E0. cbn [app].
      change (45 =? 34)%N with false. change (45 =? 123)%N with false.
      change (45 =? 91)%N with false. change (45 =? 110)%N with false.
      change (45 =? 116)%N with false. change (45 =? 102)%N with false.
      change (45 =? 78)%N with false. change (45 =? 73)%N with false.
      cbv iota.
      assert (Ef : startswith (py "-Infinity") (45%N :: c0 :: r0 ++ x) = false).
      { change (py "-Infinity") with (45%N :: 73%N :: py "nfinity").
        cbn [startswith]. rewrite (digit_not_I c0 H0), andb_false_r.
        reflexivity. }
      rewrite Ef, andb_false_r. reflexivity.
  - (* scan_elements *)
    intros d maxd s acc v rest H. rewrite scan_elements_step in H.
    destruct (scan_once n d maxd s) as [v1 r | f |] eqn:H1; try discriminate.
    apply IH1 in H1. destruct H1 as [b1 [E1 [S1 [F1 L1]]]].
    destruct (skip_ws r) as [| c r1] eqn:Hs; [discriminate |].
    destruct (skip_ws_found _ _ _ Hs) as [w [Er [Hw Hc]]].
    destruct (c =? 93)%N eqn:E93.
    + inversion H; subst v rest. apply N.eqb_eq in E93. subst c.
      exists (b1 ++ w ++ [93%N]). split; [| split; [| split]].
      * rewrite E1, Er, <- !app_assoc. reflexivity.
      * apply starts_solid_app. exact S1.
      * rewrite app_assoc. apply ends_solid_snoc. reflexivity.
      * intros x _. rewrite scan_elements_step, <- !app_assoc.
        rewrite L1 by (apply head_avoids_after_ws; [exact Hw | reflexivity]).
        cbn [app]. rewrite skip_ws_to by (assumption || reflexivity).
        reflexivity.
    + destruct (c =? 44)%N eqn:E44; [| discriminate].
      apply N.eqb_eq in E44. subst c.
      destruct (skip_ws_split r1) as [w2 [Er1 Hw2]].
      apply IH2 in H. destruct H as [b2 [E2 [S2 [F2 L2]]]].
      exists (b1 ++ w ++ [44%N] ++ w2 ++ b2). split; [| split; [| split]].
      * rewrite E1, Er, Er1, E2, <- !app_assoc. reflexivity.
      * apply starts_solid_app. exact S1.
      * rewrite !app_assoc. apply ends_solid_app. exact F2.
      * intros x Hx. rewrite scan_elements_step, <- !app_assoc.
        rewrite L1 by (apply head_avoids_after_ws; [exact Hw | reflexivity]).
        cbn [app]. rewrite skip_ws_to by (assumption || reflexivity).
        change (44 =? 93)%N with false. change (44 =? 44)%N with true.
        cbv iota. rewrite skip_ws_app by exact Hw2.
        destruct S2 as [c2 [r2 [Ec2 Hc2]]]. 
        rewrite Ec2 at 1. cbn [app].
        rewrite skip_ws_solid by (apply token_char_not_ws; exact Hc2).
        change (c2 :: r2 ++ x) with ((c2 :: r2) ++ x). rewrite <- Ec2.
        apply L2. exact Hx.
  - (* scan_members *)
    intros d maxd s acc v rest H. rewrite scan_members_step in H.
    destruct s as [| q r]; [discriminate |].
    destruct (q =? 34)%N eqn:Eq; [| discriminate].
    apply N.eqb_eq in Eq. subst q.
    destruct (scanstring r) as [key r1 | f |] eqn:Hk; try discriminate.
    destruct (scanstring_local _ _ _ Hk) as [pre [Epre Lk]].
    destruct (skip_ws r1) as [| c1 r2] eqn:Hs1; [discriminate |].
    destruct (skip_ws_found _ _ _ Hs1) as [w1 [Er1 [Hw1 Hc1]]].
    destruct (c1 =? 58)%N eqn:E58; [| discriminate].
    apply N.eqb_eq in E58. subst c1.
    destruct (skip_ws_split r2) as [w2 [Er2 Hw2]].
    destruct (scan_once n d maxd (skip_ws r2)) as [v1 r3 | f |] eqn:H1;
      try discriminate.
    apply IH1 in H1. destruct H1 as [b1 [E1 [S1 [F1 L1]]]].
    destruct (skip_ws r3) as [| c3 r4] eqn:Hs3; [discriminate |].
    destruct (skip_ws_found _ _ _ Hs3) as [w3 [Er3 [Hw3 Hc3]]].
    assert (Hkey : forall y,
               scan_members (S n) d maxd
                 (34%N :: pre ++ 34%N :: w1 ++ 58%N :: w2 ++ b1 ++ w3 ++ c3 :: y) acc
               = if (c3 =? 125)%N then Scanned (JObj (dict_set key v1 acc)) y
                 else if (c3 =? 44)%N
                 then scan_members n d maxd (skip_ws y) (dict_set key v1 acc)
                 else Faulty BadSyntax).
    { intros y. rewrite scan_members_step.
      change (34 =? 34)%N with true. cbv iota.
      rewrite Lk. rewrite skip_ws_to by (assumption || reflexivity).
      change (58 =? 58)%N with true. cbv iota.
      rewrite skip_ws_app by exact Hw2.
      destruct S1 as [cb [rb [Ecb Hcb]]].
      rewrite Ecb at 1. cbn [app].
      rewrite skip_ws_solid by (apply token_char_not_ws; exact Hcb).
      change (cb :: rb ++ w3 ++ c3 :: y) with ((cb :: rb) ++ w3 ++ c3 :: y).
      rewrite <- Ecb.
      assert (Hn : number_char c3 = false).
      { destruct (c3 =? 125)%N eqn:A; [apply N.eqb_eq in A; subst; reflexivity |].
        destruct (c3 =? 44)%N eqn:B; [apply N.eqb_eq in B; subst; reflexivity |].
        cbv iota in H. discriminate H. }
      rewrite L1 by (apply head_avoids_after_ws; assumption).
      rewrite skip_ws_to by assumption. reflexivity. }
    assert (Hs : 34%N :: r
                 = 34%N :: pre ++ 34%N :: w1 ++ 58%N :: w2 ++ b1 ++ w3 ++ c3 :: r4).
    { rewrite Epre, Er1, Er2, E1, Er3. reflexivity. }
    destruct (c3 =? 125)%N eqn:E125.
    + inversion H; subst v rest. apply N.eqb_eq in E125. subst c3.
      exists (34%N :: pre ++ 34%N :: w1 ++ 58%N :: w2 ++ b1 ++ w3 ++ [125%N]).
      split; [| split; [| split]].
      * rewrite Hs. cbn [app]. f_equal. rewrite <- !app_assoc. cbn [app].
        repeat (f_equal; rewrite <- ?app_assoc; cbn [app]).
      * apply starts_solid_cons. reflexivity.
      * change (34%N :: pre ++ 34%N :: w1 ++ 58%N :: w2 ++ b1 ++ w3 ++ [125%N])
          with ((34%N :: pre) ++ (34%N :: w1) ++ (58%N :: w2) ++ b1 ++ w3 ++ [125%N]).
        rewrite !app_assoc. apply ends_solid_snoc. reflexivity.
      * intros x _.
        replace ((34%N :: pre ++ 34%N :: w1 ++ 58%N :: w2 ++ b1 ++ w3 ++ [125%N]) ++ x)
          with (34%N :: pre ++ 34%N :: w1 ++ 58%N :: w2 ++ b1 ++ w3 ++ 125%N :: x).
        -- rewrite Hkey. reflexivity.
        -- cbn [app]. f_equal. rewrite <- !app_assoc. cbn [app].
           repeat (f_equal; rewrite <- ?app_assoc; cbn [app]).
    + destruct (c3 =? 44)%N eqn:E44; [| discriminate].
      apply N.eqb_eq in E44. subst c3.
      destruct (skip_ws_split r4) as [w4 [Er4 Hw4]].
      apply IH3 in H. destruct H as [b2 [E2 [S2 [F2 L2]]]].
      exists (34%N :: pre ++ 34%N :: w1 ++ 58%N :: w2 ++ b1 ++ w3 ++ 44%N :: w4 ++ b2).
      split; [| split; [| split]].
      * rewrite Hs, Er4, E2. cbn [app]. f_equal. rewrite <- !app_assoc. cbn [app].
        repeat (f_equal; rewrite <- ?app_assoc; cbn [app]).
      * apply starts_solid_cons. reflexivity.
      * change (34%N :: pre ++ 34%N :: w1 ++ 58%N :: w2 ++ b1 ++ w3 ++ 44%N :: w4 ++ b2)
          with ((34%N :: pre) ++ (34%N :: w1) ++ (58%N :: w2) ++ b1 ++ w3 ++ (44%N :: w4) ++ b2).
        rewrite !app_assoc. apply ends_solid_app. exact F2.
      * intros x Hx.
        replace ((34%N :: pre ++ 34%N :: w1 ++ 58%N :: w2 ++ b1 ++ w3 ++ 44%N :: w4 ++ b2) ++ x)
          with (34%N :: pre ++ 34%N :: w1 ++ 58%N :: w2 ++ b1 ++ w3 ++ 44%N :: (w4 ++ b2 ++ x)).
        -- rewrite Hkey. change (44 =? 125)%N with false.
           change (44 =? 44)%N with true. cbv iota.
           rewrite skip_ws_app by exact Hw4.
           destruct S2 as [c2 [t2 [Ec2 Hc2]]].
           rewrite Ec2 at 1. cbn [app].
           rewrite skip_ws_solid by (apply token_char_not_ws; exact Hc2).
           change (c2 :: t2 ++ x) with ((c2 :: t2) ++ x). rewrite <- Ec2.
           apply L2. exact Hx.
        -- cbn [app]. f_equal. rewrite <- !app_assoc. cbn [app].
           repeat (f_equal; rewrite <- ?app_assoc; cbn [app]).
Qed.

(** ** The call bound of the scanner *)

Lemma scanstring_from_fuel (s : pystr) :
  forall st acc, scanstring_from st s acc <> NoFuel.
Proof.
  induction s as [| c r IH]; intros st acc; simpl; [discriminate |].
  destruct st as [paired | paired | paired count value].
  - destruct (c =? 34)%N; [discriminate |].
    destruct (c =? 92)%N; [apply IH |].
    destruct (c <=? 31)%N; [discriminate | apply IH].
  - destruct (c =? 117)%N; [apply IH |].
    destruct (unescape c); [apply IH | discriminate].
  - destruct (hexval c); [| discriminate].
    destruct count as [| [| [| [| count]]]]; apply IH.
Qed.

Lemma scan_literal_fuel (lit : string) (v : json) (s : pystr) :
  scan_literal lit v s <> NoFuel.
Proof. unfold scan_literal. destruct (startswith (py lit) s); discriminate. Qed.

Lemma scan_number_fuel (maxd : N) (s : pystr) : scan_number maxd s <> NoFuel.
Proof.
  unfold scan_number. destruct (match_number s) as [[[ip fe] t] |];
    [| discriminate].
  destruct (number_value maxd ip fe); discriminate.
Qed.

Lemma skip_ws_length (s : pystr) : (List.length (skip_ws s) <= List.length s)%nat.
Proof.
  induction s as [| c s IH]; simpl; [lia |].
  destruct (is_ws c); simpl; lia.
Qed.

Lemma scanstring_length (r key r1 : pystr) :
  scanstring r = Scanned key r1 -> (List.length r1 < List.length r)%nat.
Proof.
  intros H. destruct (scanstring_local _ _ _ H) as [pre [E _]].
  rewrite E, length_app. simpl. lia.
Qed.

Lemma local_scan_length (f : pystr -> scan json) (s : pystr) (v : json)
    (rest : pystr) :
  local_scan f s v rest -> (List.length rest < List.length s)%nat.
Proof.
  intros [body [E [[c [r [Eb _]]] _]]]. rewrite E, Eb, length_app. simpl. lia.
Qed.

Lemma scan_once_length (n d : nat) (maxd : N) (s : pystr) (v : json)
    (rest : pystr) :
  scan_once n d maxd s = Scanned v rest -> (List.length rest < List.length s)%nat.
Proof.
  intros H. apply (proj1 (scan_local n)) in H.
  eapply local_scan_length. exact H.
Qed.

(** With more than twice as many calls allowed as the text has
    characters, the scanner does not reach the bound. *)
Lemma scan_fuel_enough (n : nat) :
  (forall d maxd s,
      (2 * List.length s < n)%nat -> scan_once n d maxd s <> NoFuel) /\
  (forall d maxd s acc,
      (2 * List.length s + 1 < n)%nat -> scan_elements n d maxd s acc <> NoFuel) /\
  (forall d maxd s acc,
      (2 * List.length s + 1 < n)%nat -> scan_members n d maxd s acc <> NoFuel).
Proof.
  induction n as [| n [IH1 [IH2 IH3]]].
  { split; [| split]; intros; lia. }
  split; [| split].
  - intros d maxd s Hn. rewrite scan_once_step.
    destruct s as [| c r]; [discriminate |]. simpl in Hn.
    destruct (c =? 34)%N.
    { pose proof (scanstring_from_fuel r (Plain false) []) as Hf.
      unfold scanstring. destruct (scanstring_from (Plain false) r []);
        try discriminate. contradiction. }
    pose proof (skip_ws_length r) as Hl.
    destruct (c =? 123)%N.
    { destruct d as [| d']; [discriminate |].
      destruct (skip_ws r) as [| c1 r1] eqn:Hs; [discriminate |].
      destruct (c1 =? 125)%N; [discriminate |].
      apply IH3. simpl in *. lia. }
    destruct (c =? 91)%N.
    { destruct d as [| d']; [discriminate |].
      destruct (skip_ws r) as [| c1 r1] eqn:Hs; [discriminate |].
      destruct (c1 =? 93)%N; [discriminate |].
      apply IH2. simpl in *. lia. }
    destruct (c =? 110)%N; [apply scan_literal_fuel |].
    destruct (c =? 116)%N; [apply scan_literal_fuel |].
    destruct (c =? 102)%N; [apply scan_literal_fuel |].
    destruct (c =? 78)%N; [apply scan_literal_fuel |].
    destruct (c =? 73)%N; [apply scan_literal_fuel |].
    destruct ((c =? 45)%N && startswith (py "-Infinity") (c :: r));
      [discriminate | apply scan_number_fuel].
  - intros d maxd s acc Hn. rewrite scan_elements_step.
    destruct (scan_once n d maxd s) as [v r | f |] eqn:H1.
    + apply scan_once_length in H1.
      destruct (skip_ws r) as [| c r1] eqn:Hs; [discriminate |].
      pose proof (skip_ws_length r) as Hl. rewrite Hs in Hl. simpl in Hl.
      destruct (c =? 93)%N; [discriminate |].
      destruct (c =? 44)%N; [| discriminate].
      apply IH2. pose proof (skip_ws_length r1). lia.
    + discriminate.
    + exfalso. apply (IH1 d maxd s); [lia | exact H1].
  - intros d maxd s acc Hn. rewrite scan_members_step.
    destruct s as [| q r]; [discriminate |]. simpl in Hn.
    destruct (q =? 34)%N; [| discriminate].
    destruct (scanstring r) as [key r1 | f |] eqn:Hk.
    + apply scanstring_length in Hk.
      destruct (skip_ws r1) as [| c1 r2] eqn:Hs1; [discriminate |].
      pose proof (skip_ws_length r1) as Hl1. rewrite Hs1 in Hl1. simpl in Hl1.
      destruct (c1 =? 58)%N; [| discriminate].
      pose proof (skip_ws_length r2) as Hl2.
      destruct (scan_once n d maxd (skip_ws r2)) as [v r3 | f |] eqn:H1.
      * apply scan_once_length in H1.
        destruct (skip_ws r3) as [| c3 r4] eqn:Hs3; [discriminate |].
        pose proof (skip_ws_length r3) as Hl3. rewrite Hs3 in Hl3. simpl in Hl3.
        destruct (c3 =? 125)%N; [discriminate |].
        destruct (c3 =? 44)%N; [| discriminate].
        apply IH3. pose proof (skip_ws_length r4). lia.
      * discriminate.
      * exfalso. apply (IH1 d maxd (skip_ws r2)); [lia | exact H1].
    + discriminate.
    + exfalso. apply (scanstring_from_fuel r (Plain false) []). exact Hk.
Qed.

(** Below the bound, the number of calls allowed does not matter. *)
Lemma scan_fuel_more (n : nat) :
  (forall m d maxd s,
      (n <= m)%nat -> scan_once n d maxd s <> NoFuel ->
      scan_once m d maxd s = scan_once n d maxd s) /\
  (forall m d maxd s acc,
      (n <= m)%nat -> scan_elements n d maxd s acc <> NoFuel ->
      scan_elements m d maxd s acc = scan_elements n d maxd s acc) /\
  (forall m d maxd s acc,
      (n <= m)%nat -> scan_members n d maxd s acc <> NoFuel ->
      scan_members m d maxd s acc = scan_members n d maxd s acc).
Proof.
  induction n as [| n [IH1 [IH2 IH3]]].
  { split; [| split]; intros; exfalso; auto. }
  split; [| split].
  - intros m d maxd s Hm. destruct m as [| m]; [lia |].
    rewrite !scan_once_step.
    destruct s as [| c r]; [reflexivity |].
    destruct (c =? 34)%N; [reflexivity |].
    destruct (c =? 123)%N.
    { destruct d as [| d']; [reflexivity |].
      destruct (skip_ws r) as [| c1 r1]; [reflexivity |].
      destruct (c1 =? 125)%N; [reflexivity |].
      apply IH3. lia. }
    destruct (c =? 91)%N.
    { destruct d as [| d']; [reflexivity |].
      destruct (skip_ws r) as [| c1 r1]; [reflexivity |].
      destruct (c1 =? 93)%N; [reflexivity |].
      apply IH2. lia. }
    reflexivity.
  - intros m d maxd s acc Hm. destruct m as [| m]; [lia |].
    rewrite !scan_elements_step.
    destruct (scan_once n d maxd s) as [v r | f |] eqn:H1.
    + rewrite (IH1 m d maxd s) by (lia || (rewrite H1; discriminate)).
      rewrite H1.
      destruct (skip_ws r) as [| c r1]; [reflexivity |].
      destruct (c =? 93)%N; [reflexivity |].
      destruct (c =? 44)%N; [| reflexivity].
      apply IH2. lia.
    + rewrite (IH1 m d maxd s) by (lia || (rewrite H1; discriminate)).
      rewrite H1. reflexivity.
    + intros F. exfalso. apply F. reflexivity.
  - intros m d maxd s acc Hm. destruct m as [| m]; [lia |].
    rewrite !scan_members_step.
    destruct s as [| q r]; [reflexivity |].
    destruct (q =? 34)%N; [| reflexivity].
    destruct (scanstring r) as [key r1 | f |]; try reflexivity.
    destruct (skip_ws r1) as [| c1 r2]; [reflexivity |].
    destruct (c1 =? 58)%N; [| reflexivity].
    destruct (scan_once n d maxd (skip_ws r2)) as [v r3 | f |] eqn:H1.
    + rewrite (IH1 m d maxd (skip_ws r2)) by (lia || (rewrite H1; discriminate)).
      rewrite H1.
      destruct (skip_ws r3) as [| c3 r4]; [reflexivity |].
      destruct (c3 =? 125)%N; [reflexivity |].
      destruct (c3 =? 44)%N; [| reflexivity].
      apply IH3. lia.
    + rewrite (IH1 m d maxd (skip_ws r2)) by (lia || (rewrite H1; discriminate)).
      rewrite H1. reflexivity.
    + intros F. exfalso. apply F. reflexivity.
Qed.

(** [json.loads] never stops at the call bound: what it raises is a fault
    of the text. *)
Lemma scan_once_fuel (h : Host) (s : pystr) :
  scan_once (2 * List.length s + 1) (host_json_depth h)
    (host_int_max_str_digits h) (skip_ws s) <> NoFuel.
Proof.
  apply (proj1 (scan_fuel_enough _)).
  pose proof (skip_ws_length s). lia.
Qed.

(** ** [json.loads] and the whitespace around a value *)

(** A text that [json.loads] accepts is a value between JSON whitespace;
    the value begins and ends with a solid character and parses to the
    same on its own. *)
Lemma json_loads_core (h : Host) (j : pystr) (v : json) :
  json_loads h j = Ok v ->
  exists w body rest,
    j = w ++ body ++ rest /\
    forallb is_ws w = true /\ forallb is_ws rest = true /\
    starts_solid body /\ ends_solid body /\
    json_loads h body = Ok v.
Proof.
  unfold json_loads at 1.
  destruct (startswith [BOM] j); [discriminate |].
  destruct (scan_once (2 * List.length j + 1) (host_json_depth h)
              (host_int_max_str_digits h) (skip_ws j))
    as [v' rest | f |] eqn:Hs; try discriminate.
  destruct (skip_ws rest) eqn:Hr; [| discriminate].
  intros H. inversion H; subst v'. clear H.
  destruct (proj1 (scan_local _) _ _ _ _ _ Hs) as [body [Eb [Sb [Fb L]]]].
  destruct (skip_ws_split j) as [w [Ej Hw]].
  exists w, body, rest.
  split; [rewrite <- Eb; exact Ej |].
  split; [exact Hw |].
  split; [apply skip_ws_nil; exact Hr |].
  split; [exact Sb |]. split; [exact Fb |].
  assert (Hlen : (List.length body <= List.length j)%nat).
  { rewrite Ej, Eb, !length_app. lia. }
  pose proof (L [] I) as L0. rewrite app_nil_r in L0.
  destruct Sb as [c [r [Ec Hc]]].
  unfold json_loads.
  assert (Hbom : startswith [BOM] body = false).
  { rewrite Ec. cbn [startswith]. unfold token_char in Hc.
    rewrite !andb_true_iff, !negb_true_iff in Hc.
    destruct Hc as [_ Hc]. rewrite N.eqb_sym, Hc. reflexivity. }
  rewrite Hbom.
  assert (Hsk : skip_ws body = body).
  { rewrite Ec. apply skip_ws_solid. apply token_char_not_ws. exact Hc. }
  rewrite Hsk.
  assert (Hf : scan_once (2 * List.length body + 1) (host_json_depth h)
                 (host_int_max_str_digits h) body <> NoFuel).
  { apply (proj1 (scan_fuel_enough _)). lia. }
  assert (Hle : (2 * List.length body + 1 <= 2 * List.length j + 1)%nat) by lia.
  rewrite <- (proj1 (scan_fuel_more _) (2 * List.length j + 1)%nat _ _ _ Hle Hf).
  rewrite L0. reflexivity.
Qed.

(** [strip] leaves the value alone. *)
Lemma json_loads_strip (h : Host) (j : pystr) (v : json) :
  json_loads h j = Ok v ->
  json_loads h (strip j) = Ok v /\
  starts_solid (strip j) /\ ends_solid (strip j).
Proof.
  intros H.
  destruct (json_loads_core h j v H) as [w [body [rest [E [Hw [Hr [Sb [Fb Hb]]]]]]]].
  assert (Es : strip j = body).
  { rewrite E. apply strip_solid_core; auto using forallb_ws_isspace. }
  rewrite Es. auto.
Qed.

Lemma token_char_not_backquote (c : N) :
  token_char c = true -> (96 =? c)%N = false.
Proof.
  unfold token_char. rewrite !andb_true_iff, !negb_true_iff.
  intros [[_ H] _]. rewrite N.eqb_sym. exact H.
Qed.

(** The cleaning of a text whose stripped form begins and ends with a
    solid character strips it and does nothing more. *)
Lemma clean_text_solid (s : pystr) :
  starts_solid (strip s) -> ends_solid (strip s) -> clean_text s = strip s.
Proof.
  intros Sb Fb. unfold clean_text.
  pose proof (strip_solid (strip s) Sb Fb) as Hs.
  destruct Sb as [c [r [Ec Hc]]]. destruct Fb as [r' [c' [Ec' Hc']]].
  assert (H1 : startswith FENCE_JSON (strip s) = false).
  { rewrite Ec. change FENCE_JSON with (96%N :: py "``json"). cbn [startswith].
    rewrite (token_char_not_backquote c Hc). reflexivity. }
  assert (H2 : startswith FENCE (strip s) = false).
  { rewrite Ec. change FENCE with (96%N :: py "``"). cbn [startswith].
    rewrite (token_char_not_backquote c Hc). reflexivity. }
  assert (H3 : endswith FENCE (strip s) = false).
  { rewrite Ec'. unfold endswith. rewrite rev_app_distr.
    change (rev FENCE) with (96%N :: py "``"). cbn [rev app startswith].
    rewrite (token_char_not_backquote c' Hc'). reflexivity. }
  rewrite H1, H2, H3. exact Hs.
Qed.

(** C4 as the code has it.  For a text [j] that [json.loads] accepts, the
    cleaning of [j] inside a code fence whose language tag is [json], or
    that has no tag, parses to the value of [j]; and so does the cleaning
    of [j] itself. *)
Theorem fenced_json_parses_as_unfenced (h : Host) (j tag : pystr) (v : json) :
  tag = py "json" \/ tag = [] ->
  json_loads h j = Ok v ->
  json_loads h (clean_text (fenced tag j)) = Ok v /\
  json_loads h (clean_text j) = Ok v.
Proof.
  intros Ht Hj.
  destruct (json_loads_strip h j v Hj) as [Hs [Sb Fb]].
  split.
  - destruct Ht as [E | E]; subst tag.
    + rewrite clean_text_fenced_json. exact Hs.
    + rewrite clean_text_fenced_bare. exact Hs.
  - rewrite (clean_text_solid j Sb Fb). exact Hs.
Qed.

Lemma fenced_json_parses_as_unfenced_witness :
  json_loads example_host (clean_text (fenced (py "json") vendor_text))
  = Ok (JObj [(py "vendor", JStr (py "Acme"))]) /\
  json_loads example_host (clean_text vendor_text)
  = Ok (JObj [(py "vendor", JStr (py "Acme"))]).
Proof.
  apply (fenced_json_parses_as_unfenced example_host vendor_text (py "json")).
  - left. reflexivity.
  - vm_compute. reflexivity.
Defined.

(** C4 as stated fails for another language tag: the cleaning removes the
    fence and leaves the tag, and what is left does not parse. *)
Lemma fenced_with_other_tag_does_not_parse :
  json_loads example_host (clean_text (fenced (py "javascript") vendor_text))
  = Raise (Exn JSONDecodeError (py "Expecting value: line 1 column 1 (char 0)")) /\
  json_loads example_host vendor_text
  = Ok (JObj [(py "vendor", JStr (py "Acme"))]) /\
  clean_text (fenced (py "javascript") vendor_text)
  = py "javascript" ++ [10%N] ++ vendor_text.
Proof. repeat split; vm_compute; reflexivity. Qed.

(* ================================================================== *)
(** * Further properties of the two services and of the endpoint *)
(* ================================================================== *)
(** ** [str.format] on a template written piece by piece *)

Lemma format_literal (h : Host) (document s r : pystr) :
  existsb is_brace s = false ->
  forall out,
    format_from h document InLiteral (s ++ r) out
    = format_from h document InLiteral r (out ++ s).
Proof.
  induction s as [| c s IH]; intros Hs out.
  - rewrite app_nil_r. reflexivity.
  - simpl in Hs. apply orb_false_elim in Hs. destruct Hs as [Hc Hs].
    unfold is_brace in Hc. apply orb_false_elim in Hc. destruct Hc as [H1 H2].
    cbn [app format_from]. rewrite H1, H2, (IH Hs), <- app_assoc. reflexivity.
Qed.

Lemma format_placeholder (h : Host) (document r out : pystr) :
  host_to_decimal h 100%N = None ->
  format_from h document InLiteral (py "{document}" ++ r) out
  = format_from h document InLiteral r (out ++ document).
Proof.
  intros Hd. cbn. unfold render_field. cbn. rewrite Hd. cbn. reflexivity.
Qed.

Lemma format_brace (h : Host) (document r out : pystr) (closing : bool) :
  format_from h document InLiteral (piece_source (Brace closing) ++ r) out
  = format_from h document InLiteral r
      (out ++ piece_value document (Brace closing)).
Proof. destruct closing; reflexivity. Qed.

Lemma split_first_plain (name : pystr) :
  existsb is_field_syntax name = false -> split_first name = (name, []).
Proof.
  induction name as [| c name IH]; intros H; [reflexivity |].
  simpl in H. apply orb_false_elim in H. destruct H as [Hc Hn].
  unfold is_field_syntax in Hc.
  repeat (apply orb_false_elim in Hc; destruct Hc as [Hc ?]).
  cbn [split_first]. rewrite (IH Hn).
  replace ((c =? 46) || (c =? 91))%N with false; [reflexivity |].
  symmetry. apply orb_false_intro; assumption.
Qed.

Lemma render_unknown_field (h : Host) (document name : pystr) :
  well_formed h (Field name) ->
  render_field h document name None [] = Raise (Exn KeyError (host_repr h name)).
Proof.
  intros [[c [r [Hn Hd]]] [Hs Hne]].
  unfold render_field. rewrite (split_first_plain _ Hs).
  subst name. cbn [get_integer rbind]. rewrite Hd. cbn [rbind].
  rewrite (pystr_eqb_false _ _ Hne). reflexivity.
Qed.

Lemma format_field_name (h : Host) (document name r : pystr) :
  existsb is_field_syntax name = false ->
  forall acc out,
    format_from h document (InFieldName acc false) (name ++ 125%N :: r) out
    = (txt <-! render_field h document (acc ++ name) None [] ;;
       format_from h document InLiteral r (out ++ txt)).
Proof.
  induction name as [| c name IH]; intros Hs acc out.
  - rewrite app_nil_r. reflexivity.
  - simpl in Hs. apply orb_false_elim in Hs. destruct Hs as [Hc Hn].
    unfold is_field_syntax, is_brace in Hc.
    repeat (apply orb_false_elim in Hc; destruct Hc as [Hc ?]).
    cbn [app format_from].
    repeat match goal with E : (_ =? _)%N = false |- _ => rewrite E; clear E end.
    rewrite (IH Hn), <- app_assoc. reflexivity.
Qed.

Lemma format_open_field (h : Host) (document r out : pystr) (c : N) :
  (c =? 123)%N = false ->
  format_from h document InLiteral (123%N :: c :: r) out
  = format_from h document (InFieldName [] false) (c :: r) out.
Proof.
  intros Hc. cbn [format_from]. cbn [N.eqb Pos.eqb]. rewrite Hc. reflexivity.
Qed.

Lemma format_unknown_field (h : Host) (document name r out : pystr) :
  well_formed h (Field name) ->
  format_from h document InLiteral (piece_source (Field name) ++ r) out
  = Raise (Exn KeyError (host_repr h name)).
Proof.
  intros Hw. pose proof Hw as [[c [n [Hn Hd]]] [Hs Hne]].
  assert (Hc : (c =? 123)%N = false).
  { subst name. simpl in Hs. apply orb_false_elim in Hs. destruct Hs as [Hc _].
    unfold is_field_syntax, is_brace in Hc.
    repeat (apply orb_false_elim in Hc; destruct Hc as [Hc ?]). assumption. }
  cbn [piece_source app]. rewrite <- app_assoc. cbn [app].
  pose proof (format_field_name h document name r Hs [] out) as F.
  cbn [app] in F.
  rewrite (render_unknown_field h document name Hw) in F. cbn [rbind] in F.
  subst name. cbn [app] in *. rewrite (format_open_field _ _ _ _ _ Hc).
  exact F.
Qed.

(** [str.format] on a template of well-formed pieces: the first field of
    another name raises [KeyError]; without one, every piece is replaced
    by what it stands for. *)
Lemma format_pieces (h : Host) (document : pystr) (pieces : list piece) :
  host_to_decimal h 100%N = None ->
  Forall (well_formed h) pieces ->
  forall out,
    format_from h document InLiteral (template_of pieces) out
    = match first_field pieces with
      | None => Ok (out ++ flat_map (piece_value document) pieces)
      | Some name => Raise (Exn KeyError (host_repr h name))
      end.
Proof.
  intros Hd Hw. induction Hw as [| p ps Hp Hps IH]; intros out.
  - cbn. rewrite app_nil_r. reflexivity.
  - unfold template_of in *. cbn [flat_map first_field].
    destruct p as [s | | closing | name].
    + rewrite (format_literal h document s _ Hp), IH, <- app_assoc. reflexivity.
    + rewrite (format_placeholder h document _ out Hd), IH, <- app_assoc.
      reflexivity.
    + rewrite format_brace, IH, <- app_assoc. reflexivity.
    + apply format_unknown_field. exact Hp.
Qed.

(** ** The literal replacement of [{document}] *)

Lemma startswith_cons_neq (p s : pystr) (a c : N) :
  (a =? c)%N = false -> startswith (a :: p) (c :: s) = false.
Proof. intros H. cbn [startswith]. rewrite H. reflexivity. Qed.

Lemma replace_literal (new s r : pystr) :
  existsb is_brace s = false ->
  replace_from (py "{document}") new 0 (s ++ r)
  = s ++ replace_from (py "{document}") new 0 r.
Proof.
  induction s as [| c s IH]; intros Hs; [reflexivity |].
  simpl in Hs. apply orb_false_elim in Hs. destruct Hs as [Hc Hs].
  unfold is_brace in Hc. apply orb_false_elim in Hc. destruct Hc as [H1 _].
  cbn [app replace_from].
  assert (St : startswith (py "{document}") (c :: s ++ r) = false).
  { apply (startswith_cons_neq (py "document}")).
    rewrite N.eqb_sym. exact H1. }
  rewrite St, (IH Hs). reflexivity.
Qed.

Lemma replace_placeholder (new r : pystr) :
  replace_from (py "{document}") new 0 (py "{document}" ++ r)
  = new ++ replace_from (py "{document}") new 0 r.
Proof. reflexivity. Qed.

(** A text that begins with [p] and the character [x], when it is a name
    without [x] followed by [x], has [p] for its name. *)
Lemma startswith_delimited (x : N) (p name r : pystr) :
  ~ In x p -> ~ In x name ->
  startswith (p ++ [x]) (name ++ x :: r) = true -> name = p.
Proof.
  revert name. induction p as [| a p IH]; intros name Hp Hn H.
  - destruct name as [| c name]; [reflexivity |].
    cbn in H. apply andb_prop in H. destruct H as [H _].
    apply N.eqb_eq in H. subst c. exfalso. apply Hn. left. reflexivity.
  - destruct name as [| c name]; cbn in H; apply andb_prop in H;
      destruct H as [H1 H2]; apply N.eqb_eq in H1.
    + subst a. exfalso. apply Hp. left. reflexivity.
    + subst c. f_equal. apply IH; [| | exact H2].
      * intros F. apply Hp. right. exact F.
      * intros F. apply Hn. right. exact F.
Qed.

Lemma field_syntax_brace (name : pystr) :
  existsb is_field_syntax name = false -> existsb is_brace name = false.
Proof.
  induction name as [| c name IH]; intros H; [reflexivity |].
  simpl in H. apply orb_false_elim in H. destruct H as [Hc Hn].
  unfold is_field_syntax in Hc.
  repeat (apply orb_false_elim in Hc; destruct Hc as [Hc ?]).
  cbn [existsb]. unfold is_brace.
  repeat match goal with E : (_ =? _)%N = false |- _ => rewrite E; clear E end.
  exact (IH Hn).
Qed.

Lemma no_brace_not_in (name : pystr) :
  existsb is_brace name = false -> ~ In 125%N name.
Proof.
  intros H F.
  assert (E : existsb is_brace name = true).
  { apply existsb_exists. exists 125%N. split; [exact F | reflexivity]. }
  congruence.
Qed.

Lemma replace_unknown_field (h : Host) (new name r : pystr) :
  well_formed h (Field name) ->
  replace_from (py "{document}") new 0 (piece_source (Field name) ++ r)
  = piece_source (Field name) ++ replace_from (py "{document}") new 0 r.
Proof.
  intros [_ [Hs Hne]]. pose proof (field_syntax_brace _ Hs) as Hb.
  cbn [piece_source app]. rewrite <- app_assoc. cbn [app replace_from].
  assert (St : startswith (py "{document}") (123%N :: name ++ 125%N :: r) = false).
  { destruct (startswith (py "{document}") (123%N :: name ++ 125%N :: r)) eqn:E;
      [| reflexivity].
    exfalso. apply Hne.
    apply (startswith_delimited 125%N (py "document") name r).
    - cbn. intros [F | [F | [F | [F | [F | [F | [F | [F | []]]]]]]]];
        discriminate F.
    - apply no_brace_not_in. exact Hb.
    - exact E. }
  rewrite St. f_equal.
  rewrite (replace_literal new name (125%N :: r) Hb), <- app_assoc.
  reflexivity.
Qed.

(** The literal replacement on a template of well-formed pieces without
    a brace written twice: the placeholders are replaced, everything else
    is kept. *)
Lemma replace_pieces (h : Host) (document : pystr) (pieces : list piece) :
  Forall (well_formed h) pieces ->
  existsb is_escaped pieces = false ->
  replace (py "{document}") document (template_of pieces)
  = flat_map (piece_literal document) pieces.
Proof.
  intros Hw. change (replace (py "{document}") document (template_of pieces))
    with (replace_from (py "{document}") document 0 (template_of pieces)).
  unfold template_of.
  induction Hw as [| p ps Hp Hps IH]; intros He; [reflexivity |].
  cbn [existsb] in He. apply orb_false_elim in He. destruct He as [He1 He2].
  cbn [flat_map]. destruct p as [s | | closing | name].
  - rewrite (replace_literal document s _ Hp), (IH He2). reflexivity.
  - rewrite replace_placeholder, (IH He2). reflexivity.
  - discriminate He1.
  - rewrite (replace_unknown_field h document name _ Hp), (IH He2). reflexivity.
Qed.

Lemma value_literal (document : pystr) (pieces : list piece) :
  existsb is_escaped pieces = false ->
  flat_map (piece_value document) pieces
  = flat_map (piece_literal document) pieces.
Proof.
  induction pieces as [| p ps IH]; intros He; [reflexivity |].
  cbn [existsb] in He. apply orb_false_elim in He. destruct He as [He1 He2].
  cbn [flat_map]. rewrite (IH He2).
  destruct p; try reflexivity. discriminate He1.
Qed.

(** X1.  A template made of literal text without braces, of placeholders
    [{document}] and of braces written twice: [str.format] succeeds, and
    the prompt is the template with the document in the place of every
    placeholder and one brace for every brace written twice.  The document
    is inserted as it is, braces included.  (The host hypothesis: the
    letter [d] is no decimal digit, so the field name is no index.) *)
Theorem prompt_of_plain_template (h : Host) (document : pystr)
    (pieces : list piece) (t : trace) :
  host_to_decimal h 100%N = None ->
  Forall (well_formed h) pieces ->
  existsb is_field pieces = false ->
  assemble_prompt h (template_of pieces) document t
  = (Ok (flat_map (piece_value document) pieces), t).
Proof.
  intros Hd Hw Hf.
  rewrite assemble_prompt_unfold. unfold str_format.
  rewrite (format_pieces h document pieces Hd Hw []).
  assert (E : first_field pieces = None).
  { clear Hw. induction pieces as [| p ps IH]; [reflexivity |].
    cbn [existsb] in Hf. apply orb_false_elim in Hf. destruct Hf as [H1 H2].
    destruct p; try (exact (IH H2)). discriminate H1. }
  rewrite E. reflexivity.
Qed.

Lemma prompt_of_plain_template_witness :
  assemble_prompt example_host
    (template_of [Text (py "Return "); Brace false; Text (py "...");
                  Brace true; Text (py " for: "); Placeholder])
    (py "{Hello}") []
  = (Ok (py "Return {...} for: {Hello}"), []).
Proof.
  apply (prompt_of_plain_template example_host (py "{Hello}")
           [Text (py "Return "); Brace false; Text (py "...");
            Brace true; Text (py " for: "); Placeholder] []).
  - reflexivity.
  - repeat constructor.
  - reflexivity.
Defined.

(** X2.  A template made of literal text without braces, of placeholders
    [{document}] and of fields of other names (no brace written twice):
    whether [str.format] succeeds or the [KeyError] of the first other
    field sends the code to the literal replacement, the prompt is the
    template with the document in the place of every placeholder and the
    other fields left as they are written. *)
Theorem prompt_of_template_with_fields (h : Host) (document : pystr)
    (pieces : list piece) (t : trace) :
  host_to_decimal h 100%N = None ->
  Forall (well_formed h) pieces ->
  existsb is_escaped pieces = false ->
  assemble_prompt h (template_of pieces) document t
  = (Ok (flat_map (piece_literal document) pieces), t).
Proof.
  intros Hd Hw He.
  rewrite assemble_prompt_unfold. unfold str_format.
  rewrite (format_pieces h document pieces Hd Hw []).
  destruct (first_field pieces) as [name |].
  - change (catches [KeyError] (Exn KeyError (host_repr h name))) with true.
    cbv iota. rewrite (replace_pieces h document pieces Hw He). reflexivity.
  - cbn [app]. rewrite (value_literal document pieces He). reflexivity.
Qed.

Lemma prompt_of_template_with_fields_witness :
  assemble_prompt example_host
    (template_of [Text (py "Fill "); Field (py "name"); Text (py " from: ");
                  Placeholder])
    (py "Hello") []
  = (Ok (py "Fill {name} from: Hello"), []).
Proof.
  apply (prompt_of_template_with_fields example_host (py "Hello")
           [Text (py "Fill "); Field (py "name"); Text (py " from: ");
            Placeholder] []).
  - reflexivity.
  - repeat constructor.
    + exists 110%N, (py "ame"). split; reflexivity.
    + discriminate.
  - reflexivity.
Defined.

(** ** What one conversion does *)

(** The block under the scratch directory only adds events to the trace,
    none of them about a scratch directory, at most one of them a run of
    the converter; it changes the storage only after a run that exited
    with 0 and a file found. *)
Lemma in_temporary_directory_events (h : Host) (env : Env)
    (storage_path input_file output_format temp_dir : pystr) (t : trace) :
  exists r mid,
    in_temporary_directory h env storage_path input_file output_format
      temp_dir t = (r, t ++ mid) /\
    List.filter is_scratch mid = [] /\
    (converter_runs mid = [] \/
     converter_runs mid
     = [EvRun (libreoffice_command h output_format temp_dir input_file) 60]) /\
    (List.filter changes_storage mid <> [] ->
     exists result converted others filter_name extension,
       conversion_parameters output_format = Ok (filter_name, extension) /\
       env_run env (libreoffice_command h output_format temp_dir input_file)
       = Ok result /\
       returncode result = 0%Z /\
       env_glob env (host_path_str h temp_dir) (py "*" ++ extension)
       = Ok (converted :: others)).
Proof.
  unfold in_temporary_directory, bind, call, lift, raise, ret.
  fold (libreoffice_command h output_format temp_dir input_file).
  destruct (conversion_parameters output_format)
    as [[filter_name extension] | e] eqn:Hpar.
  2: { exists (Raise e), []. rewrite app_nil_r.
       repeat split; auto. intros F; contradiction F; reflexivity. }
  cbn [snd].
  destruct (env_run env (libreoffice_command h output_format temp_dir input_file))
    as [result | e] eqn:Hrun.
  2: { eexists; eexists. split; [reflexivity |].
       repeat split; auto. intros F; contradiction F; reflexivity. }
  destruct (returncode result =? 0)%Z eqn:Hrc; cbn [negb].
  2: { eexists; eexists. split; [reflexivity |].
       repeat split; auto. intros F; contradiction F; reflexivity. }
  apply Z.eqb_eq in Hrc.
  destruct (env_glob env (host_path_str h temp_dir) (py "*" ++ extension))
    as [[| converted others] | e] eqn:Hglob.
  1, 3: eexists; eexists; rewrite <- !app_assoc; (split; [reflexivity |]);
    repeat split; auto; intros F; contradiction F; reflexivity.
  destruct (env_mkdir env _) as [[] | e].
  2: { eexists; eexists; rewrite <- !app_assoc; (split; [reflexivity |]).
       repeat split; auto. intros _.
       exists result, converted, others, filter_name, extension. auto. }
  destruct (env_move env converted _) as [[] | e].
  2: { eexists; eexists; rewrite <- !app_assoc; (split; [reflexivity |]).
       repeat split; auto. intros _.
       exists result, converted, others, filter_name, extension. auto. }
  destruct (env_stat_size env _) as [size | e].
  all: eexists; eexists; rewrite <- !app_assoc; (split; [reflexivity |]);
    repeat split; auto; intros _;
    exists result, converted, others, filter_name, extension; auto.
Qed.

Lemma in_temporary_directory_success (h : Host) (env : Env)
    (storage_path input_file output_format temp_dir : pystr) (t t1 : trace)
    (output_path : pystr) (file_size : Z) (format : pystr) :
  in_temporary_directory h env storage_path input_file output_format
    temp_dir t = (Ok (ConvSuccess output_path file_size format), t1) <->
  exists filter_name extension result converted others,
    conversion_parameters output_format = Ok (filter_name, extension) /\
    env_run env (libreoffice_command h output_format temp_dir input_file)
    = Ok result /\
    returncode result = 0%Z /\
    env_glob env (host_path_str h temp_dir) (py "*" ++ extension)
    = Ok (converted :: others) /\
    output_path
    = stored_path h storage_path input_file output_format extension /\
    env_mkdir env (host_path_parent h output_path) = Ok tt /\
    env_move env converted output_path = Ok tt /\
    env_stat_size env output_path = Ok file_size /\
    format = output_format /\
    t1 = t ++ [EvRun (libreoffice_command h output_format temp_dir input_file) 60;
               EvGlob (host_path_str h temp_dir) (py "*" ++ extension);
               EvMkdir (host_path_parent h output_path);
               EvMove converted output_path;
               EvStat output_path].
Proof.
  unfold in_temporary_directory, bind, call, lift, raise, ret.
  fold (libreoffice_command h output_format temp_dir input_file).
  split.
  - intros H.
    destruct (conversion_parameters output_format)
      as [[filter_name extension] | e] eqn:Hpar; [| discriminate H].
    cbn [snd] in H.
    fold (stored_path h storage_path input_file output_format extension) in H.
    destruct (env_run env _) as [result | e] eqn:Hrun; [| discriminate H].
    destruct (returncode result =? 0)%Z eqn:Hrc; cbn [negb] in H;
      [| discriminate H].
    apply Z.eqb_eq in Hrc.
    destruct (env_glob env _ _) as [[| converted others] | e] eqn:Hglob;
      try discriminate H.
    destruct (env_mkdir env _) as [[] | e] eqn:Hmk; [| discriminate H].
    destruct (env_move env _ _) as [[] | e] eqn:Hmv; [| discriminate H].
    destruct (env_stat_size env _) as [size | e] eqn:Hst; [| discriminate H].
    inversion H; subst.
    exists filter_name, extension, result, converted, others.
    rewrite <- !app_assoc. repeat split; auto.
  - intros [filter_name [extension [result [converted [others
      [Hpar [Hrun [Hrc [Hglob [Hout [Hmk [Hmv [Hst [Hf Ht]]]]]]]]]]]]]].
    subst output_path format t1. rewrite Hpar. cbn [snd].
    fold (stored_path h storage_path input_file output_format extension).
    rewrite Hrun, Hrc. cbn [Z.eqb negb]. rewrite Hglob, Hmk, Hmv, Hst.
    rewrite <- !app_assoc. reflexivity.
Qed.

(** [convert_document] around the block under the scratch directory. *)
Lemma convert_document_cases (h : Host) (env : Env)
    (storage_path input_path output_format : pystr) (t : trace) :
  let input_file := host_path_str h input_path in
  convert_document h env storage_path input_path output_format t =
  match env_exists env input_file with
  | Ok true =>
      match env_mkdtemp env with
      | Ok temp_dir =>
          match in_temporary_directory h env storage_path input_file
                  output_format temp_dir (t ++ [EvExists input_file; EvMkdtemp])
          with
          | (r, t1) =>
              match env_cleanup env temp_dir with
              | Ok _ =>
                  (Ok match r with
                      | Ok outcome => outcome
                      | Raise e => ConvFailure (exn_text e) output_format
                      end,
                   t1 ++ [EvCleanup temp_dir])
              | Raise e =>
                  (Ok (ConvFailure (exn_text e) output_format),
                   t1 ++ [EvCleanup temp_dir])
              end
          end
      | Raise e =>
          (Ok (ConvFailure (exn_text e) output_format),
           t ++ [EvExists input_file; EvMkdtemp])
      end
  | Ok false =>
      (Ok (ConvFailure (py "Input file not found: " ++ input_path) output_format),
       t ++ [EvExists input_file])
  | Raise e =>
      (Ok (ConvFailure (exn_text e) output_format), t ++ [EvExists input_file])
  end.
Proof.
  intros input_file.
  rewrite convert_document_unfold.
  unfold convert_document_body, with_TemporaryDirectory, bind, call, raise.
  fold input_file.
  destruct (env_exists env input_file) as [[|] | e0]; cbn [negb];
    [| reflexivity | reflexivity].
  rewrite <- !app_assoc. cbn [app].
  destruct (env_mkdtemp env) as [temp_dir | e]; [| reflexivity].
  destruct (in_temporary_directory h env storage_path input_file output_format
              temp_dir (t ++ [EvExists input_file; EvMkdtemp])) as [r t1].
  destruct (env_cleanup env temp_dir) as [[] | e]; [| reflexivity].
  destruct r; reflexivity.
Qed.

(** X3.  [convert_document] returns a success outcome exactly when: the
    input file exists, a scratch directory is made, the format is one of
    the four, LibreOffice runs and exits with 0, a file with the extension
    of the format is found in the scratch directory, the directory
    [conversions] can be made, the first file found is moved to
    [storage_path/conversions/<stem>_<format><extension>], its size can be
    read, and the scratch directory is removed.  The outcome then carries
    that path, that size and the format asked for, and the call has done
    these eight things in this order and nothing else. *)
Theorem conversion_succeeds_exactly_when (h : Host) (env : Env)
    (storage_path input_path output_format : pystr) (t t' : trace)
    (output_path : pystr) (file_size : Z) (format : pystr) :
  convert_document h env storage_path input_path output_format t
  = (Ok (ConvSuccess output_path file_size format), t') <->
  exists filter_name extension temp_dir result converted others,
    env_exists env (host_path_str h input_path) = Ok true /\
    env_mkdtemp env = Ok temp_dir /\
    conversion_parameters output_format = Ok (filter_name, extension) /\
    env_run env
      (libreoffice_command h output_format temp_dir (host_path_str h input_path))
    = Ok result /\
    returncode result = 0%Z /\
    env_glob env (host_path_str h temp_dir) (py "*" ++ extension)
    = Ok (converted :: others) /\
    output_path
    = stored_path h storage_path (host_path_str h input_path) output_format
        extension /\
    env_mkdir env (host_path_parent h output_path) = Ok tt /\
    env_move env converted output_path = Ok tt /\
    env_stat_size env output_path = Ok file_size /\
    env_cleanup env temp_dir = Ok tt /\
    format = output_format /\
    t' = t ++ successful_conversion h storage_path (host_path_str h input_path)
                output_format extension temp_dir converted.
Proof.
  pose proof (convert_document_cases h env storage_path input_path
                output_format t) as E. cbv zeta in E. rewrite E. clear E.
  split.
  - intros H.
    destruct (env_exists env (host_path_str h input_path)) as [[|] | e0] eqn:Hx;
      [| discriminate H | discriminate H].
    destruct (env_mkdtemp env) as [temp_dir | e] eqn:Hm; [| discriminate H].
    destruct (in_temporary_directory h env storage_path
                (host_path_str h input_path) output_format temp_dir
                (t ++ [EvExists (host_path_str h input_path); EvMkdtemp]))
      as [r t1] eqn:Hin.
    destruct (env_cleanup env temp_dir) as [[] | e] eqn:Hc; [| discriminate H].
    destruct r as [outcome | e]; [| discriminate H].
    inversion H; subst.
    apply in_temporary_directory_success in Hin.
    destruct Hin as [filter_name [extension [result [converted [others
      [Hpar [Hrun [Hrc [Hglob [Hout [Hmk [Hmv [Hst [Hf Ht]]]]]]]]]]]]]].
    exists filter_name, extension, temp_dir, result, converted, others.
    subst t1. unfold successful_conversion. rewrite <- Hout.
    rewrite <- !app_assoc. cbn [app]. repeat split; auto.
  - intros [filter_name [extension [temp_dir [result [converted [others
      [Hx [Hm [Hpar [Hrun [Hrc [Hglob [Hout [Hmk [Hmv [Hst [Hc [Hf Ht]]]]]]]]]]]]]]]]]].
    rewrite Hx, Hm.
    assert (Hin : in_temporary_directory h env storage_path
                (host_path_str h input_path) output_format temp_dir
                (t ++ [EvExists (host_path_str h input_path); EvMkdtemp])
              = (Ok (ConvSuccess output_path file_size format),
                 (t ++ [EvExists (host_path_str h input_path); EvMkdtemp]) ++
                 [EvRun (libreoffice_command h output_format temp_dir
                           (host_path_str h input_path)) 60;
                  EvGlob (host_path_str h temp_dir) (py "*" ++ extension);
                  EvMkdir (host_path_parent h output_path);
                  EvMove converted output_path;
                  EvStat output_path])).
    { apply in_temporary_directory_success.
      exists filter_name, extension, result, converted, others.
      repeat split; auto. }
    rewrite Hin, Hc. subst t'. unfold successful_conversion. rewrite <- Hout.
    rewrite <- !app_assoc. reflexivity.
Qed.

Lemma conversion_succeeds_exactly_when_witness :
  convert_document posix_host
    (converting_env 0 [py "/tmp/tmpk3x9/report.pdf"] (py "application/pdf") [])
    (py "/app/storage") (py "/data/report.odt") (py "pdf") []
  = (Ok (ConvSuccess (py "/app/storage/conversions/report_pdf.pdf") 2048
           (py "pdf")),
     [EvExists (py "/data/report.odt"); EvMkdtemp;
      EvRun [py "libreoffice"; py "--headless"; py "--convert-to"; py "pdf";
             py "--outdir"; py "/tmp/tmpk3x9"; py "/data/report.odt"] 60;
      EvGlob (py "/tmp/tmpk3x9") (py "*.pdf");
      EvMkdir (py "/app/storage/conversions");
      EvMove (py "/tmp/tmpk3x9/report.pdf")
        (py "/app/storage/conversions/report_pdf.pdf");
      EvStat (py "/app/storage/conversions/report_pdf.pdf");
      EvCleanup (py "/tmp/tmpk3x9")]).
Proof.
  apply (proj2 (conversion_succeeds_exactly_when posix_host
                  (converting_env 0 [py "/tmp/tmpk3x9/report.pdf"]
                     (py "application/pdf") [])
                  (py "/app/storage") (py "/data/report.odt") (py "pdf") [] _
                  (py "/app/storage/conversions/report_pdf.pdf") 2048
                  (py "pdf"))).
  exists (py "writer_pdf_Export"), (py ".pdf"), (py "/tmp/tmpk3x9"),
    {| returncode := 0; stderr := [] |},
    (py "/tmp/tmpk3x9/report.pdf"), [].
  repeat split; reflexivity.
Defined.

(** X4.  The scratch directory of a conversion.  [convert_document] makes
    one exactly when [exists()] has answered that the input file is
    there and [mkdtemp] succeeds: it makes none when [exists()] answers
    [False], when [exists()] lets a fault through, or when the directory
    cannot be made.  A scratch directory that was made is handed to its
    cleanup on every path (success, failure, fault), as the last thing
    the call does, and no other scratch directory is made or removed in
    between.  The cleanup can itself fault: the call then reports a
    failure with the text of that fault, whatever happened inside the
    block, so that an outcome other than this failure means that the
    cleanup removed the directory. *)
Theorem scratch_directory_is_cleaned_up_last (h : Host) (env : Env)
    (storage_path input_path output_format : pystr) (t : trace) :
  exists outcome new,
    convert_document h env storage_path input_path output_format t
    = (Ok outcome, t ++ new) /\
    ((env_exists env (host_path_str h input_path) = Ok false /\
      new = [EvExists (host_path_str h input_path)] /\
      outcome
      = ConvFailure (py "Input file not found: " ++ input_path) output_format) \/
     (exists e,
        env_exists env (host_path_str h input_path) = Raise e /\
        new = [EvExists (host_path_str h input_path)] /\
        outcome = ConvFailure (exn_text e) output_format) \/
     (exists e,
        env_exists env (host_path_str h input_path) = Ok true /\
        env_mkdtemp env = Raise e /\
        new = [EvExists (host_path_str h input_path); EvMkdtemp] /\
        outcome = ConvFailure (exn_text e) output_format) \/
     (exists temp_dir mid,
        env_exists env (host_path_str h input_path) = Ok true /\
        env_mkdtemp env = Ok temp_dir /\
        new = [EvExists (host_path_str h input_path); EvMkdtemp] ++ mid ++
              [EvCleanup temp_dir] /\
        List.filter is_scratch mid = [] /\
        (env_cleanup env temp_dir = Ok tt \/
         exists e,
           env_cleanup env temp_dir = Raise e /\
           outcome = ConvFailure (exn_text e) output_format))).
Proof.
  pose proof (convert_document_cases h env storage_path input_path
                output_format t) as E. cbv zeta in E. rewrite E. clear E.
  destruct (env_exists env (host_path_str h input_path)) as [[|] | e0].
  2: { eexists; eexists. split; [reflexivity |]. left. auto. }
  2: { eexists; eexists. split; [reflexivity |]. right. left.
       exists e0. auto. }
  destruct (env_mkdtemp env) as [temp_dir | e].
  2: { eexists; eexists. split; [reflexivity |]. right. right. left.
       exists e. auto. }
  destruct (in_temporary_directory_events h env storage_path
              (host_path_str h input_path) output_format temp_dir
              (t ++ [EvExists (host_path_str h input_path); EvMkdtemp]))
    as [r [mid [Hin [Hs _]]]].
  rewrite Hin.
  destruct (env_cleanup env temp_dir) as [[] | e] eqn:Hc;
    eexists; exists ([EvExists (host_path_str h input_path); EvMkdtemp] ++ mid ++
                     [EvCleanup temp_dir]);
    (split; [rewrite <- !app_assoc; reflexivity |]);
    right; right; right; exists temp_dir, mid;
    (split; [reflexivity |]); (split; [reflexivity |]);
    (split; [reflexivity |]); (split; [exact Hs |]).
  - left. exact Hc.
  - right. exists e. split; [exact Hc | reflexivity].
Qed.

(** X5.  One call of [convert_document] starts LibreOffice at most once,
    with the command line [libreoffice --headless --convert-to <format>
    --outdir <scratch directory> <input file>] and a timeout of 60
    seconds; and it makes a directory or moves a file in the storage only
    after LibreOffice has exited with 0 and a file with the extension of
    the format has been found in the scratch directory. *)
Theorem conversion_touches_storage_only_after_success (h : Host) (env : Env)
    (storage_path input_path output_format : pystr) (t : trace) :
  exists outcome new,
    convert_document h env storage_path input_path output_format t
    = (Ok outcome, t ++ new) /\
    (converter_runs new = [] \/
     exists temp_dir,
       env_mkdtemp env = Ok temp_dir /\
       converter_runs new
       = [EvRun (libreoffice_command h output_format temp_dir
                   (host_path_str h input_path)) 60]) /\
    (List.filter changes_storage new <> [] ->
     exists temp_dir result converted others filter_name extension,
       env_mkdtemp env = Ok temp_dir /\
       conversion_parameters output_format = Ok (filter_name, extension) /\
       env_run env
         (libreoffice_command h output_format temp_dir
            (host_path_str h input_path)) = Ok result /\
       returncode result = 0%Z /\
       env_glob env (host_path_str h temp_dir) (py "*" ++ extension)
       = Ok (converted :: others)).
Proof.
  pose proof (convert_document_cases h env storage_path input_path
                output_format t) as E. cbv zeta in E. rewrite E. clear E.
  destruct (env_exists env (host_path_str h input_path)) as [[|] | e0].
  2, 3: eexists; eexists; (split; [reflexivity |]);
    (split; [left; reflexivity |]); intros F; contradiction F; reflexivity.
  destruct (env_mkdtemp env) as [temp_dir | e].
  2: { eexists; eexists. split; [reflexivity |]. split; [left; reflexivity |].
       intros F. contradiction F. reflexivity. }
  destruct (in_temporary_directory_events h env storage_path
              (host_path_str h input_path) output_format temp_dir
              (t ++ [EvExists (host_path_str h input_path); EvMkdtemp]))
    as [r [mid [Hin [_ [Hr Hs]]]]].
  rewrite Hin.
  assert (Hruns : converter_runs
            ([EvExists (host_path_str h input_path); EvMkdtemp] ++ mid ++
             [EvCleanup temp_dir]) = converter_runs mid).
  { rewrite !converter_runs_app. cbn. apply app_nil_r. }
  assert (Hch : List.filter changes_storage
            ([EvExists (host_path_str h input_path); EvMkdtemp] ++ mid ++
             [EvCleanup temp_dir]) = List.filter changes_storage mid).
  { rewrite !filter_app. cbn. apply app_nil_r. }
  destruct (env_cleanup env temp_dir) as [[] | e];
    eexists; exists ([EvExists (host_path_str h input_path); EvMkdtemp] ++ mid ++
                     [EvCleanup temp_dir]);
    (split; [rewrite <- !app_assoc; reflexivity |]);
    rewrite Hruns, Hch;
    (split;
     [ destruct Hr as [Hr | Hr]; [left; exact Hr | right; exists temp_dir; auto]
     | intros F; destruct (Hs F) as [result [converted [others [filter_name
         [extension [H1 [H2 [H3 H4]]]]]]]];
       exists temp_dir, result, converted, others, filter_name, extension;
       auto ]).
Qed.

(** ** Reading text: line ends, UTF-8, the byte-order mark *)

Lemma universal_newlines_no_cr_upto (n : nat) (s : pystr) :
  (List.length s <= n)%nat -> ~ In 13%N (universal_newlines s).
Proof.
  revert s. induction n as [| n IH]; intros s Hl.
  - destruct s; [intros [] | simpl in Hl; lia].
  - destruct s as [| c r]; [intros [] |].
    simpl in Hl. cbn [universal_newlines].
    destruct (c =? 13)%N eqn:Hc.
    + destruct r as [| c2 r2].
      * intros [F | []]. discriminate F.
      * destruct (c2 =? 10)%N.
        -- intros [F | F]; [discriminate F |].
           revert F. apply IH. simpl in Hl. lia.
        -- intros [F | F]; [discriminate F |].
           revert F. apply IH. lia.
    + intros [F | F].
      * subst c. discriminate Hc.
      * revert F. apply IH. lia.
Qed.

Lemma universal_newlines_no_cr (s : pystr) : ~ In 13%N (universal_newlines s).
Proof. apply (universal_newlines_no_cr_upto (List.length s)). lia. Qed.

Lemma universal_newlines_id (s : pystr) :
  ~ In 13%N s -> universal_newlines s = s.
Proof.
  induction s as [| c r IH]; intros H; [reflexivity |].
  cbn [universal_newlines].
  destruct (c =? 13)%N eqn:Hc.
  - apply N.eqb_eq in Hc. exfalso. apply H. left. exact Hc.
  - rewrite IH; [reflexivity |]. intros F. apply H. right. exact F.
Qed.

Lemma has_cr_false (s : pystr) : has_cr s = false <-> ~ In 13%N s.
Proof.
  unfold has_cr. split.
  - intros H F.
    assert (E : existsb (N.eqb 13) s = true).
    { apply existsb_exists. exists 13%N. split; [exact F | reflexivity]. }
    congruence.
  - intros H. destruct (existsb (N.eqb 13) s) eqn:E; [| reflexivity].
    apply existsb_exists in E. destruct E as [x [Hx Hc]].
    apply N.eqb_eq in Hc. subst x. contradiction.
Qed.

(** X6.  The text [_safe_read_text] returns for a file that opens has no
    carriage return: every line of it ends with a line feed alone,
    whatever the line ends of the file. *)
Theorem safe_read_text_has_no_carriage_return (env : Env) (file_path : pystr)
    (t t' : trace) (content : list byte) (text : pystr) :
  env_open env file_path = Ok content ->
  _safe_read_text env file_path t = (Ok text, t') ->
  has_cr text = false.
Proof.
  intros Ho H. rewrite safe_read_text_unfold, Ho in H. inversion H; subst.
  apply has_cr_false. apply universal_newlines_no_cr.
Qed.

Lemma safe_read_text_has_no_carriage_return_witness :
  _safe_read_text
    (example_env true (Ok (py "text/plain")) (Ok [x61; x0d; x0d; x0a; x62])
       unavailable)
    (py "/data/notes.txt") []
  = (Ok [97; 10; 10; 98]%N,
     [EvOpen (py "/data/notes.txt") (py "r") (Some (py "utf-8"))]) /\
  has_cr [97; 10; 10; 98]%N = false.
Proof.
  split; [reflexivity |].
  apply (safe_read_text_has_no_carriage_return
           (example_env true (Ok (py "text/plain")) (Ok [x61; x0d; x0d; x0a; x62])
              unavailable)
           (py "/data/notes.txt") []
           [EvOpen (py "/data/notes.txt") (py "r") (Some (py "utf-8"))]
           [x61; x0d; x0d; x0a; x62] [97; 10; 10; 98]%N); reflexivity.
Defined.

(** The decoder reads back what UTF-8 writes for a code point. *)
Lemma utf8_decode_encoded_char (c : N) (r : list N) :
  is_scalar c = true ->
  utf8_decode_ignore (utf8_encode_char c ++ r) = c :: utf8_decode_ignore r.
Proof.
  unfold is_scalar, utf8_encode_char. intros Hs.
  assert (Hc : (c < 55296 \/ 57343 < c < 1114112)%N).
  { apply orb_prop in Hs. destruct Hs as [H | H].
    - left. apply N.ltb_lt. exact H.
    - right. apply andb_prop in H. destruct H as [H1 H2].
      apply N.ltb_lt in H1. apply N.ltb_lt in H2. lia. }
  clear Hs.
  pose proof (N.div_mod' c 64) as D1.
  pose proof (N.mod_lt c 64 ltac:(discriminate)) as M1.
  pose proof (N.div_mod' (c / 64) 64) as D2.
  pose proof (N.mod_lt (c / 64) 64 ltac:(discriminate)) as M2.
  pose proof (N.div_mod' (c / 4096) 64) as D3.
  pose proof (N.mod_lt (c / 4096) 64 ltac:(discriminate)) as M3.
  assert (Q2 : (c / 4096 = c / 64 / 64)%N)
    by (rewrite N.Div0.div_div; reflexivity).
  assert (Q3 : (c / 262144 = c / 4096 / 64)%N)
    by (rewrite N.Div0.div_div; reflexivity).
  set (q1 := (c / 64)%N) in *. set (m1 := (c mod 64)%N) in *.
  set (m2 := (q1 mod 64)%N) in *.
  set (q2 := (c / 4096)%N) in *. set (m3 := (q2 mod 64)%N) in *.
  set (q3 := (c / 262144)%N) in *.
  destruct (N.ltb_spec c 128) as [L1 | L1].
  { cbn [app utf8_decode_ignore].
    destruct (N.ltb_spec c 128); [reflexivity | lia]. }
  destruct (N.ltb_spec c 2048) as [L2 | L2].
  { cbn [app utf8_decode_ignore]. unfold is_continuation.
    repeat match goal with
           | |- context [(?a <? ?b)%N] => destruct (N.ltb_spec a b); try lia
           | |- context [(?a <=? ?b)%N] => destruct (N.leb_spec a b); try lia
           end.
    cbn [andb]. f_equal. lia. }
  destruct (N.ltb_spec c 65536) as [L3 | L3].
  { cbn [app utf8_decode_ignore]. unfold is_continuation.
    repeat match goal with
           | |- context [(?a <? ?b)%N] => destruct (N.ltb_spec a b); try lia
           | |- context [(?a <=? ?b)%N] => destruct (N.leb_spec a b); try lia
           | |- context [(?a =? ?b)%N] => destruct (N.eqb_spec a b); try lia
           end;
    cbn [andb orb negb]; f_equal; lia. }
  cbn [app utf8_decode_ignore]. unfold is_continuation.
  repeat match goal with
         | |- context [(?a <? ?b)%N] => destruct (N.ltb_spec a b); try lia
         | |- context [(?a <=? ?b)%N] => destruct (N.leb_spec a b); try lia
         | |- context [(?a =? ?b)%N] => destruct (N.eqb_spec a b); try lia
         end;
  cbn [andb orb negb]; f_equal; lia.
Qed.

Lemma utf8_decode_encoded (s : pystr) :
  forallb is_scalar s = true -> utf8_decode_ignore (utf8_encode s) = s.
Proof.
  unfold utf8_encode. induction s as [| c s IH]; intros H; [reflexivity |].
  cbn [forallb] in H. apply andb_prop in H. destruct H as [Hc Hs].
  cbn [flat_map]. rewrite (utf8_decode_encoded_char c _ Hc), (IH Hs).
  reflexivity.
Qed.

(** X7.  A file that holds the UTF-8 form of a text without carriage
    return is read back as that text, code point for code point: nothing
    is lost, nothing is added, and the file is opened once. *)
Theorem safe_read_text_reads_utf8_back (env : Env) (file_path : pystr)
    (t : trace) (content : list byte) (text : pystr) :
  forallb is_scalar text = true ->
  has_cr text = false ->
  env_open env file_path = Ok content ->
  List.map Byte.to_N content = utf8_encode text ->
  _safe_read_text env file_path t
  = (Ok text, t ++ [EvOpen file_path (py "r") (Some (py "utf-8"))]).
Proof.
  intros Hs Hcr Ho Hb.
  rewrite safe_read_text_unfold, Ho, Hb, (utf8_decode_encoded text Hs).
  rewrite universal_newlines_id; [reflexivity |].
  apply has_cr_false. exact Hcr.
Qed.

(** The text [né€] and the code point [U+1F600], in two, three and four
    bytes. *)
Lemma safe_read_text_reads_utf8_back_witness :
  _safe_read_text
    (example_env true (Ok (py "text/plain"))
       (Ok [x6e; xc3; xa9; xe2; x82; xac; xf0; x9f; x98; x80]) unavailable)
    (py "/data/notes.txt") []
  = (Ok [110; 233; 8364; 128512]%N,
     [EvOpen (py "/data/notes.txt") (py "r") (Some (py "utf-8"))]).
Proof.
  apply (safe_read_text_reads_utf8_back
           (example_env true (Ok (py "text/plain"))
              (Ok [x6e; xc3; xa9; xe2; x82; xac; xf0; x9f; x98; x80])
              unavailable)
           (py "/data/notes.txt") []
           [x6e; xc3; xa9; xe2; x82; xac; xf0; x9f; x98; x80]
           [110; 233; 8364; 128512]%N); reflexivity.
Defined.

(** X8.  A byte-order mark at the head of a file is not removed: the
    first attempt reads the file as [utf-8], so the attempt as
    [utf-8-sig], which would drop the mark, is not made, and the text
    begins with [U+FEFF]. *)
Theorem safe_read_text_keeps_byte_order_mark (env : Env) (file_path : pystr)
    (t : trace) (rest : list byte) :
  env_open env file_path = Ok (xef :: xbb :: xbf :: rest) ->
  _safe_read_text env file_path t
  = (Ok (BOM :: universal_newlines (utf8_decode_ignore (List.map Byte.to_N rest))),
     t ++ [EvOpen file_path (py "r") (Some (py "utf-8"))]).
Proof.
  intros Ho. rewrite safe_read_text_unfold, Ho. reflexivity.
Qed.

Lemma safe_read_text_keeps_byte_order_mark_witness :
  _safe_read_text
    (example_env true (Ok (py "text/plain")) (Ok [xef; xbb; xbf; x7b; x7d])
       unavailable)
    (py "/data/answer.json") []
  = (Ok (BOM :: py "{}"),
     [EvOpen (py "/data/answer.json") (py "r") (Some (py "utf-8"))]).
Proof.
  apply (safe_read_text_keeps_byte_order_mark
           (example_env true (Ok (py "text/plain"))
              (Ok [xef; xbb; xbf; x7b; x7d]) unavailable)
           (py "/data/answer.json") [] [x7b; x7d]).
  reflexivity.
Defined.

(** ** Text extraction in place *)

Lemma reads_in_place_no_run (new : trace) :
  forallb reads_in_place new = true ->
  converter_runs new = [] /\ List.filter changes_storage new = [].
Proof.
  induction new as [| ev new IH]; intros H; [split; reflexivity |].
  cbn [forallb] in H. apply andb_prop in H. destruct H as [He Hn].
  destruct (IH Hn) as [H1 H2]. unfold converter_runs in *.
  destruct ev; try discriminate He; cbn; auto.
Qed.

Lemma extract_pdf_text_events (env : Env) (file_path : pystr) (t : trace) :
  exists r new,
    _extract_pdf_text env file_path t = (r, t ++ new) /\
    forallb reads_in_place new = true.
Proof.
  unfold _extract_pdf_text, try_except, bind, call, lift, raise.
  destruct (env_import env (py "PyPDF2") (py "PdfReader")) as [[] | e1].
  - destruct (env_pdf_reader env file_path) as [reader | e].
    + destruct (has_pages reader);
        destruct (concat_pages (page_texts reader) []) as [text | e];
        try destruct (catches [ImportError] e);
        eexists; eexists; rewrite <- ?app_assoc; split; reflexivity.
    + destruct (catches [ImportError] e);
        eexists; eexists; rewrite <- ?app_assoc; split; reflexivity.
  - destruct (catches [ImportError] e1).
    + destruct (env_import env (py "pypdf2") (py "PdfFileReader")) as [[] | e2].
      * destruct (env_pdf_reader env file_path) as [reader | e].
        -- destruct (has_pages reader);
             destruct (concat_pages (page_texts reader) []) as [text | e];
             try destruct (catches [ImportError] e);
             eexists; eexists; rewrite <- ?app_assoc; split; reflexivity.
        -- destruct (catches [ImportError] e);
             eexists; eexists; rewrite <- ?app_assoc; split; reflexivity.
      * destruct (catches [ImportError] e2);
          eexists; eexists; rewrite <- ?app_assoc; split; reflexivity.
    + destruct (catches [ImportError] e1);
        eexists; eexists; rewrite <- ?app_assoc; split; reflexivity.
Qed.

Lemma extract_docx_text_events (env : Env) (file_path : pystr) (t : trace) :
  exists r new,
    _extract_docx_text env file_path t = (r, t ++ new) /\
    forallb reads_in_place new = true.
Proof.
  unfold _extract_docx_text, try_except, bind, call, ret, raise.
  destruct (env_import env (py "docx") (py "Document")) as [[] | e1].
  - destruct (env_document env file_path) as [paragraphs | e];
      try destruct (catches [ImportError] e);
      eexists; eexists; rewrite <- ?app_assoc; split; reflexivity.
  - destruct (catches [ImportError] e1);
      eexists; eexists; rewrite <- ?app_assoc; split; reflexivity.
Qed.

Lemma extract_excel_text_events (env : Env) (file_path : pystr) (t : trace) :
  exists r new,
    _extract_excel_text env file_path t = (r, t ++ new) /\
    forallb reads_in_place new = true.
Proof.
  unfold _extract_excel_text, try_except, bind, call, raise.
  destruct (env_import env (py "pandas") []) as [[] | e1].
  - destruct (env_read_excel env file_path) as [text | e];
      try destruct (catches [ImportError] e);
      eexists; eexists; rewrite <- ?app_assoc; split; reflexivity.
  - destruct (catches [ImportError] e1);
      eexists; eexists; rewrite <- ?app_assoc; split; reflexivity.
Qed.

Lemma safe_read_text_events (env : Env) (file_path : pystr) (t : trace) :
  exists r new,
    _safe_read_text env file_path t = (r, t ++ new) /\
    forallb reads_in_place new = true.
Proof.
  rewrite safe_read_text_unfold.
  destruct (env_open env file_path) as [content | e].
  - eexists; eexists; split; reflexivity.
  - destruct (catches [UnicodeDecodeError; UnicodeError] e);
      eexists; eexists; split; reflexivity.
Qed.

(** X9.  For a file whose type is PDF, Word, Excel or [text/...], or
    whose type cannot be detected, [extract_text] reads the file in
    place: it calls [magic], imports an extractor, lets it read the file
    or opens the file itself, and nothing else.  LibreOffice is not
    started, no scratch directory is made, and the storage is not
    changed. *)
Theorem extraction_in_place_reads_only (h : Host) (env : Env)
    (storage_path file_path : pystr) (t : trace) :
  (forall file_type,
      env_magic env file_path = Ok file_type ->
      in_place (dispatch file_type) = true) ->
  exists text new,
    extract_text h env storage_path file_path t = (Ok text, t ++ new) /\
    forallb reads_in_place new = true /\
    converter_runs new = [] /\
    List.filter changes_storage new = [].
Proof.
  intros Hp. rewrite extract_text_by_strategy.
  destruct (env_magic env file_path) as [file_type | e].
  2: { exists [], [EvMagic file_path]. repeat split; reflexivity. }
  specialize (Hp file_type eq_refl).
  assert (E : exists r new,
             run_strategy h env storage_path file_path (dispatch file_type)
               (t ++ [EvMagic file_path])
             = (r, (t ++ [EvMagic file_path]) ++ new) /\
             forallb reads_in_place new = true).
  { destruct (dispatch file_type); try discriminate Hp; cbn [run_strategy].
    - apply extract_pdf_text_events.
    - apply extract_docx_text_events.
    - apply extract_excel_text_events.
    - apply safe_read_text_events. }
  destruct E as [r [new [E Hn]]]. rewrite E.
  assert (Hall : forallb reads_in_place (EvMagic file_path :: new) = true)
    by exact Hn.
  destruct (reads_in_place_no_run _ Hall) as [H1 H2].
  destruct r as [text | e];
    eexists; exists (EvMagic file_path :: new);
    (split; [rewrite <- app_assoc; reflexivity |]); auto.
Qed.

Lemma extraction_in_place_reads_only_witness :
  exists text new,
    extract_text example_host
      (extractor_env (py "application/pdf") (Ok tt) [Ok (py "Invoice 17")] [])
      (py "/app/storage") (py "/data/invoice.pdf") []
    = (Ok text, [] ++ new) /\
    forallb reads_in_place new = true /\
    converter_runs new = [] /\
    List.filter changes_storage new = [].
Proof.
  apply (extraction_in_place_reads_only example_host
           (extractor_env (py "application/pdf") (Ok tt) [Ok (py "Invoice 17")] [])
           (py "/app/storage") (py "/data/invoice.pdf") []).
  intros file_type H. inversion H. reflexivity.
Defined.

(** ** The text of a PDF file *)

Lemma concat_pages_ok (texts : list pystr) (text : pystr) :
  concat_pages (List.map (@Ok pystr) texts) text
  = Ok (text ++ flat_map (fun page_text => page_text ++ [10%N]) texts).
Proof.
  revert text. induction texts as [| p ps IH]; intros text.
  - cbn. rewrite app_nil_r. reflexivity.
  - cbn [List.map concat_pages rbind flat_map]. rewrite IH, <- !app_assoc.
    reflexivity.
Qed.

Lemma concat_pages_inv (pages : list (result pystr)) (text out : pystr) :
  concat_pages pages text = Ok out ->
  exists texts,
    pages = List.map (@Ok pystr) texts /\
    out = text ++ flat_map (fun page_text => page_text ++ [10%N]) texts.
Proof.
  revert text. induction pages as [| p ps IH]; intros text H.
  - exists []. inversion H. rewrite app_nil_r. split; reflexivity.
  - cbn [concat_pages] in H. destruct p as [page_text | e]; [| discriminate H].
    cbn [rbind] in H. destruct (IH _ H) as [texts [Hp Ho]].
    exists (page_text :: texts). subst. cbn [List.map flat_map].
    rewrite <- !app_assoc. split; reflexivity.
Qed.

(** X10.  The text [extract_text] returns for a PDF file is the text of
    all its pages, each followed by a line feed, in the order of the
    pages, when [PyPDF2] (or, this import failing, [pypdf2]) can be
    imported, the reader opens the file and every page gives its text.
    The file is read by the PDF reader only. *)
Theorem pdf_text_is_the_pages (h : Host) (env : Env)
    (storage_path file_path : pystr) (t : trace) (reader : pdf_reader)
    (texts : list pystr) :
  env_magic env file_path = Ok (py "application/pdf") ->
  env_pdf_reader env file_path = Ok reader ->
  page_texts reader = List.map (@Ok pystr) texts ->
  (env_import env (py "PyPDF2") (py "PdfReader") = Ok tt ->
   extract_text h env storage_path file_path t
   = (Ok (flat_map (fun page_text => page_text ++ [10%N]) texts),
      t ++ [EvMagic file_path; EvImport (py "PyPDF2") (py "PdfReader");
            EvPdfReader file_path])) /\
  (forall e,
      env_import env (py "PyPDF2") (py "PdfReader") = Raise e ->
      catches [ImportError] e = true ->
      env_import env (py "pypdf2") (py "PdfFileReader") = Ok tt ->
      extract_text h env storage_path file_path t
      = (Ok (flat_map (fun page_text => page_text ++ [10%N]) texts),
         t ++ [EvMagic file_path; EvImport (py "PyPDF2") (py "PdfReader");
               EvImport (py "pypdf2") (py "PdfFileReader");
               EvPdfReader file_path])).
Proof.
  intros Hm Hr Hp. split.
  - intros Hi. rewrite extract_text_by_strategy, Hm.
    change (dispatch (py "application/pdf")) with Pdf. cbn [run_strategy].
    unfold _extract_pdf_text, try_except, bind, call, lift, raise.
    rewrite Hi, Hr, Hp, concat_pages_ok. cbn [app].
    destruct (has_pages reader); rewrite <- !app_assoc; reflexivity.
  - intros e Hi He Hi2. rewrite extract_text_by_strategy, Hm.
    change (dispatch (py "application/pdf")) with Pdf. cbn [run_strategy].
    unfold _extract_pdf_text, try_except, bind, call, lift, raise.
    rewrite Hi, He, Hi2, Hr, Hp, concat_pages_ok. cbn [app].
    destruct (has_pages reader); rewrite <- !app_assoc; reflexivity.
Qed.

Lemma pdf_text_is_the_pages_witness :
  extract_text example_host
    (extractor_env (py "application/pdf")
       (Raise (Exn ModuleNotFoundError (py "No module named 'PyPDF2'")))
       [Ok (py "Invoice 17"); Ok (py "Total 9720")] [])
    (py "/app/storage") (py "/data/invoice.pdf") []
  = (Ok (py "Invoice 17" ++ [10%N] ++ py "Total 9720" ++ [10%N]),
     [EvMagic (py "/data/invoice.pdf"); EvImport (py "PyPDF2") (py "PdfReader");
      EvImport (py "pypdf2") (py "PdfFileReader");
      EvPdfReader (py "/data/invoice.pdf")]).
Proof.
  refine (proj2 (pdf_text_is_the_pages example_host
                   (extractor_env (py "application/pdf")
                      (Raise (Exn ModuleNotFoundError
                                (py "No module named 'PyPDF2'")))
                      [Ok (py "Invoice 17"); Ok (py "Total 9720")] [])
                   (py "/app/storage") (py "/data/invoice.pdf") []
                   {| has_pages := true;
                      page_texts := [Ok (py "Invoice 17"); Ok (py "Total 9720")] |}
                   [py "Invoice 17"; py "Total 9720"] _ _ _)
            (Exn ModuleNotFoundError (py "No module named 'PyPDF2'")) _ _ _);
    reflexivity.
Defined.

(** X11.  The text of a PDF file is all or nothing: whatever the world
    answers, [extract_text] returns either the text of all the pages,
    each followed by a line feed, or the empty string; a page that cannot
    be read loses the pages before it. *)
Theorem pdf_text_is_all_or_nothing (h : Host) (env : Env)
    (storage_path file_path : pystr) (t : trace) :
  env_magic env file_path = Ok (py "application/pdf") ->
  exists text t',
    extract_text h env storage_path file_path t = (Ok text, t') /\
    (text = [] \/
     exists reader texts,
       env_pdf_reader env file_path = Ok reader /\
       page_texts reader = List.map (@Ok pystr) texts /\
       text = flat_map (fun page_text => page_text ++ [10%N]) texts).
Proof.
  intros Hm. rewrite extract_text_by_strategy, Hm.
  change (dispatch (py "application/pdf")) with Pdf. cbn [run_strategy].
  destruct (_extract_pdf_text env file_path (t ++ [EvMagic file_path]))
    as [[text | e] t'] eqn:E.
  - exists text, t'. split; [reflexivity |]. right.
    destruct (extract_pdf_text_ok _ _ _ _ _ E) as [reader [Hr Hc]].
    destruct (concat_pages_inv _ _ _ Hc) as [texts [Hp Ht]].
    exists reader, texts. auto.
  - exists [], t'. split; [reflexivity |]. left. reflexivity.
Qed.

Lemma pdf_text_is_all_or_nothing_witness :
  exists text t',
    extract_text example_host
      (extractor_env (py "application/pdf") (Ok tt)
         [Ok (py "Invoice 17");
          Raise (Exn TypeError (py "can only concatenate str (not 'NoneType') to str"))]
         [])
      (py "/app/storage") (py "/data/invoice.pdf") [] = (Ok text, t') /\
    (text = [] \/
     exists reader texts,
       env_pdf_reader
         (extractor_env (py "application/pdf") (Ok tt)
            [Ok (py "Invoice 17");
             Raise (Exn TypeError (py "can only concatenate str (not 'NoneType') to str"))]
            [])
         (py "/data/invoice.pdf") = Ok reader /\
       page_texts reader = List.map (@Ok pystr) texts /\
       text = flat_map (fun page_text => page_text ++ [10%N]) texts).
Proof.
  apply (pdf_text_is_all_or_nothing example_host
           (extractor_env (py "application/pdf") (Ok tt)
              [Ok (py "Invoice 17");
               Raise (Exn TypeError (py "can only concatenate str (not 'NoneType') to str"))]
              [])
           (py "/app/storage") (py "/data/invoice.pdf") []).
  reflexivity.
Defined.

(** ** Missing extractors, unreadable files *)

(** X12.  When no extractor library can be imported, [extract_text]
    returns the empty string for a PDF, Word or Excel file: the
    [RuntimeError] that says which library is missing does not reach the
    caller, and the file is not touched (after the type detection the
    call only tries imports). *)
Theorem missing_extractor_gives_empty_text (h : Host) (env : Env)
    (storage_path file_path : pystr) (t : trace) (file_type : pystr) :
  env_magic env file_path = Ok file_type ->
  dispatch file_type = Pdf \/ dispatch file_type = Word \/
  dispatch file_type = Excel ->
  (forall module name,
      exists e, env_import env module name = Raise e /\
                catches [ImportError] e = true) ->
  exists imports,
    extract_text h env storage_path file_path t
    = (Ok [], t ++ EvMagic file_path :: imports) /\
    forallb is_import imports = true.
Proof.
  intros Hm Hd Hi. rewrite extract_text_by_strategy, Hm.
  destruct Hd as [Hd | [Hd | Hd]]; rewrite Hd; cbn [run_strategy].
  - unfold _extract_pdf_text, try_except, bind, call, lift, raise.
    destruct (Hi (py "PyPDF2") (py "PdfReader")) as [e1 [H1 C1]].
    destruct (Hi (py "pypdf2") (py "PdfFileReader")) as [e2 [H2 C2]].
    rewrite H1, C1, H2, C2.
    exists [EvImport (py "PyPDF2") (py "PdfReader");
            EvImport (py "pypdf2") (py "PdfFileReader")].
    rewrite <- !app_assoc. split; reflexivity.
  - unfold _extract_docx_text, try_except, bind, call, ret, raise.
    destruct (Hi (py "docx") (py "Document")) as [e1 [H1 C1]].
    rewrite H1, C1.
    exists [EvImport (py "docx") (py "Document")].
    rewrite <- !app_assoc. split; reflexivity.
  - unfold _extract_excel_text, try_except, bind, call, raise.
    destruct (Hi (py "pandas") []) as [e1 [H1 C1]].
    rewrite H1, C1.
    exists [EvImport (py "pandas") []].
    rewrite <- !app_assoc. split; reflexivity.
Qed.

Lemma missing_extractor_gives_empty_text_witness :
  exists imports,
    extract_text example_host (bare_env (py "application/pdf"))
      (py "/app/storage") (py "/data/invoice.pdf") []
    = (Ok [], [] ++ EvMagic (py "/data/invoice.pdf") :: imports) /\
    forallb is_import imports = true.
Proof.
  apply (missing_extractor_gives_empty_text example_host
           (bare_env (py "application/pdf")) (py "/app/storage")
           (py "/data/invoice.pdf") [] (py "application/pdf")).
  - reflexivity.
  - left. reflexivity.
  - intros module name. eexists. split; reflexivity.
Defined.

(** X13.  A file of type [text/...] that cannot be opened (it is missing,
    or not readable: any fault of [open] that is no [UnicodeError]) gives
    the empty string: the fault leaves [_safe_read_text] at its first
    attempt and [extract_text] takes it. *)
Theorem unreadable_text_file_gives_empty_text (h : Host) (env : Env)
    (storage_path file_path : pystr) (t : trace) (file_type : pystr) (e : exn) :
  env_magic env file_path = Ok file_type ->
  dispatch file_type = PlainText ->
  env_open env file_path = Raise e ->
  catches [UnicodeDecodeError; UnicodeError] e = false ->
  _safe_read_text env file_path (t ++ [EvMagic file_path])
  = (Raise e, t ++ [EvMagic file_path;
                    EvOpen file_path (py "r") (Some (py "utf-8"))]) /\
  extract_text h env storage_path file_path t
  = (Ok [], t ++ [EvMagic file_path;
                  EvOpen file_path (py "r") (Some (py "utf-8"))]).
Proof.
  intros Hm Hd Ho Hc.
  assert (E : _safe_read_text env file_path (t ++ [EvMagic file_path])
              = (Raise e, t ++ [EvMagic file_path;
                                EvOpen file_path (py "r") (Some (py "utf-8"))])).
  { rewrite safe_read_text_unfold, Ho, Hc, <- app_assoc. reflexivity. }
  split; [exact E |].
  rewrite extract_text_by_strategy, Hm, Hd. cbn [run_strategy].
  rewrite E. reflexivity.
Qed.

Lemma unreadable_text_file_gives_empty_text_witness :
  _safe_read_text
    (extractor_env (py "text/plain") (Ok tt) [] [])
    (py "/data/notes.txt") ([] ++ [EvMagic (py "/data/notes.txt")])
  = (Raise (Exn PermissionError (py "[Errno 13] Permission denied")),
     [] ++ [EvMagic (py "/data/notes.txt");
            EvOpen (py "/data/notes.txt") (py "r") (Some (py "utf-8"))]) /\
  extract_text example_host (extractor_env (py "text/plain") (Ok tt) [] [])
    (py "/app/storage") (py "/data/notes.txt") []
  = (Ok [], [] ++ [EvMagic (py "/data/notes.txt");
                   EvOpen (py "/data/notes.txt") (py "r") (Some (py "utf-8"))]).
Proof.
  apply (unreadable_text_file_gives_empty_text example_host
           (extractor_env (py "text/plain") (Ok tt) [] [])
           (py "/app/storage") (py "/data/notes.txt") [] (py "text/plain")
           (Exn PermissionError (py "[Errno 13] Permission denied")));
    reflexivity.
Defined.

(** ** Extraction through a conversion *)

(** What a conversion that meets no fault does. *)
Lemma convert_document_succeeds (h : Host) (env : Env)
    (storage_path input_path output_format : pystr) (t : trace)
    (filter_name extension temp_dir converted : pystr) (others : list pystr)
    (result : completed_process) (file_size : Z) :
  let input_file := host_path_str h input_path in
  let output_path :=
    stored_path h storage_path input_file output_format extension in
  env_exists env input_file = Ok true ->
  env_mkdtemp env = Ok temp_dir ->
  conversion_parameters output_format = Ok (filter_name, extension) ->
  env_run env (libreoffice_command h output_format temp_dir input_file)
  = Ok result ->
  returncode result = 0%Z ->
  env_glob env (host_path_str h temp_dir) (py "*" ++ extension)
  = Ok (converted :: others) ->
  env_mkdir env (host_path_parent h output_path) = Ok tt ->
  env_move env converted output_path = Ok tt ->
  env_stat_size env output_path = Ok file_size ->
  env_cleanup env temp_dir = Ok tt ->
  convert_document h env storage_path input_path output_format t
  = (Ok (ConvSuccess output_path file_size output_format),
     t ++ successful_conversion h storage_path input_file output_format
            extension temp_dir converted).
Proof.
  intros input_file output_path Hx Hm Hpar Hrun Hrc Hglob Hmk Hmv Hst Hc.
  pose proof (convert_document_cases h env storage_path input_path
                output_format t) as E. cbv zeta in E. rewrite E. clear E.
  fold input_file. rewrite Hx, Hm.
  assert (Hin : in_temporary_directory h env storage_path input_file
                  output_format temp_dir (t ++ [EvExists input_file; EvMkdtemp])
                = (Ok (ConvSuccess output_path file_size output_format),
                   (t ++ [EvExists input_file; EvMkdtemp]) ++
                   [EvRun (libreoffice_command h output_format temp_dir
                             input_file) 60;
                    EvGlob (host_path_str h temp_dir) (py "*" ++ extension);
                    EvMkdir (host_path_parent h output_path);
                    EvMove converted output_path;
                    EvStat output_path])).
  { apply in_temporary_directory_success.
    exists filter_name, extension, result, converted, others.
    repeat split; auto. }
  rewrite Hin, Hc. unfold successful_conversion. fold output_path.
  rewrite <- !app_assoc. reflexivity.
Qed.

(** X14.  For a presentation, and for a file of a type [extract_text] has
    no extractor for, the text is the content of the file LibreOffice
    converts it to: when the conversion to [txt] meets no fault and the
    converted file opens, [extract_text] returns the decoded content of
    [storage_path/conversions/<stem>_txt.txt], and that file stays in the
    storage. *)
Theorem extraction_through_conversion (h : Host) (env : Env)
    (storage_path file_path : pystr) (t : trace) (file_type : pystr)
    (temp_dir converted : pystr) (others : list pystr)
    (result : completed_process) (file_size : Z) (content : list byte) :
  let input_file := host_path_str h file_path in
  let output_path :=
    stored_path h storage_path input_file (py "txt") (py ".txt") in
  env_magic env file_path = Ok file_type ->
  in_place (dispatch file_type) = false ->
  env_exists env input_file = Ok true ->
  env_mkdtemp env = Ok temp_dir ->
  env_run env (libreoffice_command h (py "txt") temp_dir input_file)
  = Ok result ->
  returncode result = 0%Z ->
  env_glob env (host_path_str h temp_dir) (py "*.txt")
  = Ok (converted :: others) ->
  env_mkdir env (host_path_parent h output_path) = Ok tt ->
  env_move env converted output_path = Ok tt ->
  env_stat_size env output_path = Ok file_size ->
  env_cleanup env temp_dir = Ok tt ->
  env_open env output_path = Ok content ->
  extract_text h env storage_path file_path t
  = (Ok (universal_newlines (utf8_decode_ignore (List.map Byte.to_N content))),
     t ++ [EvMagic file_path] ++
     successful_conversion h storage_path input_file (py "txt") (py ".txt")
       temp_dir converted ++
     [EvOpen output_path (py "r") (Some (py "utf-8"))]).
Proof.
  intros input_file output_path Hm Hd Hx Hmk Hrun Hrc Hglob Hmd Hmv Hst Hc Ho.
  pose proof (convert_document_succeeds h env storage_path file_path (py "txt")
                (t ++ [EvMagic file_path]) (py "Text (encoded)") (py ".txt")
                temp_dir converted others result file_size
                Hx Hmk eq_refl Hrun Hrc Hglob Hmd Hmv Hst Hc) as E.
  fold input_file output_path in E.
  rewrite extract_text_by_strategy, Hm.
  destruct (dispatch file_type); try discriminate Hd; cbn [run_strategy].
  - unfold _extract_powerpoint_text. rewrite try_except_Exception.
    unfold bind. rewrite E, safe_read_text_unfold, Ho.
    rewrite <- !app_assoc. reflexivity.
  - unfold bind. rewrite E, safe_read_text_unfold, Ho.
    rewrite <- !app_assoc. reflexivity.
Qed.

Lemma extraction_through_conversion_witness :
  extract_text posix_host
    (converting_env 0 [py "/tmp/tmpk3x9/slides.txt"]
       (py "application/vnd.ms-powerpoint") [x48; x69; x0d; x0a])
    (py "/app/storage") (py "/data/slides.ppt") []
  = (Ok (py "Hi" ++ [10%N]),
     [] ++ [EvMagic (py "/data/slides.ppt")] ++
     successful_conversion posix_host (py "/app/storage") (py "/data/slides.ppt")
       (py "txt") (py ".txt") (py "/tmp/tmpk3x9") (py "/tmp/tmpk3x9/slides.txt") ++
     [EvOpen (py "/app/storage/conversions/slides_txt.txt") (py "r")
        (Some (py "utf-8"))]).
Proof.
  apply (extraction_through_conversion posix_host
           (converting_env 0 [py "/tmp/tmpk3x9/slides.txt"]
              (py "application/vnd.ms-powerpoint") [x48; x69; x0d; x0a])
           (py "/app/storage") (py "/data/slides.ppt") []
           (py "application/vnd.ms-powerpoint")
           (py "/tmp/tmpk3x9") (py "/tmp/tmpk3x9/slides.txt") []
           {| returncode := 0; stderr := [] |}
           2048%Z [x48; x69; x0d; x0a]); reflexivity.
Defined.

(** ** What the validator accepts *)

Lemma check_required_dict (h : Host) (d : list (pystr * json))
    (required : list pystr) :
  check_required h (JObj d) (List.map JStr required)
  = if forallb (fun field => dict_has field d) required
    then Ok tt
    else Raise (Exn TypeError (host_pydantic_ctor_text h)).
Proof.
  induction required as [| field rest IH]; [reflexivity |].
  cbn [List.map check_required py_contains rbind forallb].
  destruct (dict_has field d); cbn [negb andb]; [exact IH | reflexivity].
Qed.

Lemma py_eq_JStr_JStr (h : Host) (s t : pystr) :
  py_eq h (JStr s) (JStr t) = pystr_eqb s t.
Proof. reflexivity. Qed.

Lemma check_type_dict (h : Host) (d : list (pystr * json)) (field : pystr)
    (declared v : json) :
  dict_get field d = Some v ->
  check_type h (JObj d) field declared
  = if type_matches declared v
    then Ok tt
    else Raise (Exn TypeError (host_pydantic_ctor_text h)).
Proof.
  intros Hg. unfold check_type, py_getitem. rewrite Hg.
  destruct declared as [| b | z | l | s | items | members];
    try reflexivity.
  rewrite !py_eq_JStr_JStr. unfold type_matches.
  destruct (pystr_eqb s (py "string")) eqn:E1.
  - apply pystr_eqb_true in E1. subst s. cbn [rbind].
    destruct (isinstance_str v); reflexivity.
  - cbn [rbind]. destruct (pystr_eqb s (py "number")) eqn:E2.
    + apply pystr_eqb_true in E2. subst s. cbn [rbind].
      destruct (isinstance_int_float v); reflexivity.
    + cbn [rbind]. destruct (pystr_eqb s (py "array")) eqn:E3.
      * cbn [rbind]. destruct (isinstance_list v); reflexivity.
      * reflexivity.
Qed.

Lemma check_properties_dict (h : Host) (d : list (pystr * json))
    (properties : list (pystr * list (pystr * json))) :
  check_properties h (JObj d)
    (List.map (fun p => (fst p, JObj (snd p))) properties)
  = if forallb (property_conforms d) properties
    then Ok tt
    else Raise (Exn TypeError (host_pydantic_ctor_text h)).
Proof.
  induction properties as [| [field field_schema] rest IH]; [reflexivity |].
  cbn [List.map check_properties py_contains rbind forallb fst snd].
  unfold property_conforms at 1. cbn [fst snd]. unfold dict_has.
  destruct (dict_get field d) as [v |] eqn:Hg.
  - unfold py_get, declared_type.
    assert (E : match dict_get (py "type") field_schema with
                | Some x => Ok x
                | None => Ok JNull
                end
                = Ok match dict_get (py "type") field_schema with
                     | Some declared => declared
                     | None => JNull
                     end)
      by (destruct (dict_get (py "type") field_schema); reflexivity).
    rewrite E. cbn [rbind]. rewrite (check_type_dict h d field _ v Hg).
    destruct (type_matches _ v); cbn [rbind andb]; [exact IH | reflexivity].
  - cbn [rbind andb]. exact IH.
Qed.

(** X15.  On a [dict] and a schema whose [required] is a list of names
    and whose [properties] are [dict]s, [_validate_against_schema]
    returns exactly when the [dict] has every required name and each
    declared property it has is of its declared type (["string"],
    ["number"], ["array"]; a [bool] counts as a number, any other
    declaration passes); in every other case it raises, and what it
    raises is the [TypeError] of the constructor of
    [pydantic.ValidationError]. *)
Theorem validation_accepts_exactly_the_conforming (h : Host)
    (d : list (pystr * json)) (schema : list (pystr * json))
    (required : list pystr)
    (properties : list (pystr * list (pystr * json))) :
  schema_requires schema required ->
  schema_declares schema properties ->
  _validate_against_schema h (JObj d) schema
  = if conforms d required properties
    then Ok tt
    else Raise (Exn TypeError (host_pydantic_ctor_text h)).
Proof.
  unfold schema_requires, schema_declares, _validate_against_schema, conforms.
  intros Hr Hp.
  assert (R : match dict_get (py "required") schema with
              | Some req => fields <-! py_iter req ;;
                            check_required h (JObj d) fields
              | None => Ok tt
              end
              = if forallb (fun field => dict_has field d) required
                then Ok tt
                else Raise (Exn TypeError (host_pydantic_ctor_text h))).
  { destruct (dict_get (py "required") schema) as [v |]; subst.
    - cbn [py_iter rbind]. apply check_required_dict.
    - reflexivity. }
  rewrite R. clear R Hr.
  destruct (forallb (fun field => dict_has field d) required);
    cbn [rbind andb]; [| reflexivity].
  destruct (dict_get (py "properties") schema) as [v |]; subst.
  - cbn [py_items rbind]. apply check_properties_dict.
  - reflexivity.
Qed.

Lemma validation_accepts_exactly_the_conforming_witness :
  _validate_against_schema example_host
    (JObj [(py "total", JInt 9720); (py "note", JNull)]) total_schema = Ok tt /\
  _validate_against_schema example_host
    (JObj [(py "total", JStr (py "9720"))]) total_schema
  = Raise (Exn TypeError (py "No constructor defined")).
Proof.
  split.
  - apply (validation_accepts_exactly_the_conforming example_host
             [(py "total", JInt 9720); (py "note", JNull)] total_schema
             [py "total"] [(py "total", [(py "type", JStr (py "number"))])]);
      reflexivity.
  - apply (validation_accepts_exactly_the_conforming example_host
             [(py "total", JStr (py "9720"))] total_schema
             [py "total"] [(py "total", [(py "type", JStr (py "number"))])]);
      reflexivity.
Defined.

(** X16.  The required names are looked up with [in], whatever the
    answer is: a JSON array that has the required names among its items,
    and a JSON string that has them among its substrings, pass a schema
    that only lists required names, although neither is an object. *)
Theorem required_names_are_looked_up_with_in (h : Host)
    (required : list pystr) (items : list json) (s : pystr) :
  (forall field, In field required -> In (JStr field) items) ->
  (forall field, In field required -> is_substring field s = true) ->
  _validate_against_schema h (JArr items)
    [(py "required", JArr (List.map JStr required))] = Ok tt /\
  _validate_against_schema h (JStr s)
    [(py "required", JArr (List.map JStr required))] = Ok tt.
Proof.
  intros Hi Hs. unfold _validate_against_schema.
  change (dict_get (py "required")
            [(py "required", JArr (List.map JStr required))])
    with (Some (JArr (List.map JStr required))).
  change (dict_get (py "properties")
            [(py "required", JArr (List.map JStr required))])
    with (@None json).
  cbn [py_iter rbind].
  assert (A : check_required h (JArr items) (List.map JStr required) = Ok tt).
  { induction required as [| field rest IH]; [reflexivity |].
    cbn [List.map check_required py_contains rbind].
    assert (E : existsb (py_eq h (JStr field)) items = true).
    { apply existsb_exists. exists (JStr field). split.
      - apply Hi. left. reflexivity.
      - cbn. apply pystr_eqb_refl. }
    rewrite E. cbn [negb]. apply IH.
    - intros f Hf. apply Hi. right. exact Hf.
    - intros f Hf. apply Hs. right. exact Hf. }
  assert (B : check_required h (JStr s) (List.map JStr required) = Ok tt).
  { clear A. induction required as [| field rest IH]; [reflexivity |].
    cbn [List.map check_required py_contains rbind].
    rewrite (Hs field (or_introl eq_refl)). cbn [negb]. apply IH.
    - intros f Hf. apply Hi. right. exact Hf.
    - intros f Hf. apply Hs. right. exact Hf. }
  rewrite A, B. split; reflexivity.
Qed.

Lemma required_names_are_looked_up_with_in_witness :
  _validate_against_schema example_host (JArr [JStr (py "vendor")])
    vendor_schema = Ok tt /\
  _validate_against_schema example_host (JStr (py "no vendor found"))
    vendor_schema = Ok tt.
Proof.
  apply (required_names_are_looked_up_with_in example_host [py "vendor"]
           [JStr (py "vendor")] (py "no vendor found")).
  - intros field [H | []]. subst. left. reflexivity.
  - intros field [H | []]. subst. reflexivity.
Defined.

(** ** Answers that do not parse, answers without text, and the one call *)

(** Every fault of [json.loads] is one of the three of the scanner. *)
Lemma json_loads_fault (h : Host) (s : pystr) (e : exn) :
  json_loads h s = Raise e -> exists f, e = scan_fault_exn h s f.
Proof.
  unfold json_loads. intros H.
  destruct (startswith [BOM] s).
  - inversion H. exists BadSyntax. reflexivity.
  - destruct (scan_once _ _ _ _) as [v rest | f |].
    + destruct (skip_ws rest); inversion H. exists BadSyntax. reflexivity.
    + inversion H. exists f. reflexivity.
    + inversion H. exists (TooDeep false). reflexivity.
Qed.

(** X17.  An answer whose cleaned text [json.loads] refuses.  When the
    text is no JSON, the fault is a [JSONDecodeError] and the outcome is
    the one of an invalid response: the words "Invalid JSON response",
    the text of the fault, and the raw answer.  When the text breaks a
    limit of the interpreter (an integer of too many digits: [ValueError];
    containers nested too deep: [RecursionError]), the handler of invalid
    responses does not take the fault, and the outcome is the plain
    failure, without the raw answer.  There is no third case. *)
Theorem unparsable_answer_outcome (h : Host) (env : Env) (cfg : LLMConfig)
    (document_text system_prompt user_prompt_template : pystr)
    (json_schema : list (pystr * json)) (t t2 : trace)
    (user_prompt response : pystr) (e : exn) :
  assemble_prompt h user_prompt_template document_text t = (Ok user_prompt, t) ->
  call_provider env cfg (system_prompt ++ schema_instruction h json_schema)
    user_prompt t = (Ok (Some response), t2) ->
  json_loads h (clean_text response) = Raise e ->
  (exn_type e = JSONDecodeError /\
   extract_data h env cfg document_text system_prompt user_prompt_template
     json_schema t
   = (Ok {| success := false;
            extracted_data := None;
            error := Some (py "Invalid JSON response: " ++ exn_text e);
            raw_response := Some response;
            processing_time_seconds :=
              total_seconds (env_utcnow_exit env) (env_utcnow_entry env) |},
      t2)) \/
  ((exn_type e = ValueError \/ exn_type e = RecursionError) /\
   extract_data h env cfg document_text system_prompt user_prompt_template
     json_schema t
   = (Ok {| success := false;
            extracted_data := None;
            error := Some (exn_text e);
            raw_response := None;
            processing_time_seconds :=
              total_seconds (env_utcnow_exit env) (env_utcnow_entry env) |},
      t2)).
Proof.
  intros Hp Hc Hl.
  destruct (json_loads_fault _ _ _ Hl) as [f Hf].
  rewrite extract_data_unfold, extract_data_body_unfold, Hp, Hc.
  unfold parse_and_validate, clean_response, rbind. rewrite Hl.
  subst e. destruct f; [left | right | right]; split; auto.
Qed.

Lemma unparsable_answer_outcome_witness :
  (JSONDecodeError = JSONDecodeError /\
   extract_data example_host (answering (py "I cannot help with that."))
     example_config (py "Invoice 17") (py "Extract the vendor.")
     (py "Doc: {document}") vendor_schema []
   = (Ok {| success := false;
            extracted_data := None;
            error := Some (py "Invalid JSON response: " ++
                           py "Expecting value: line 1 column 1 (char 0)");
            raw_response := Some (py "I cannot help with that.");
            processing_time_seconds := total_seconds 3500000 1000000 |},
      [EvOpenAI
         (request example_config
            (py "Extract the vendor." ++
             schema_instruction example_host vendor_schema)
            (py "Doc: Invoice 17"))])) \/
  ((JSONDecodeError = ValueError \/ JSONDecodeError = RecursionError) /\
   extract_data example_host (answering (py "I cannot help with that."))
     example_config (py "Invoice 17") (py "Extract the vendor.")
     (py "Doc: {document}") vendor_schema []
   = (Ok {| success := false;
            extracted_data := None;
            error := Some (py "Expecting value: line 1 column 1 (char 0)");
            raw_response := None;
            processing_time_seconds := total_seconds 3500000 1000000 |},
      [EvOpenAI
         (request example_config
            (py "Extract the vendor." ++
             schema_instruction example_host vendor_schema)
            (py "Doc: Invoice 17"))])).
Proof.
  apply (unparsable_answer_outcome example_host
           (answering (py "I cannot help with that.")) example_config
           (py "Invoice 17") (py "Extract the vendor.") (py "Doc: {document}")
           vendor_schema [] _ (py "Doc: Invoice 17")
           (py "I cannot help with that.")
           (Exn JSONDecodeError (py "Expecting value: line 1 column 1 (char 0)")));
    vm_compute; reflexivity.
Defined.

(** An integer of 4301 digits, where the interpreter reads 4300 at most:
    the answer is refused with a [ValueError], and the outcome has no raw
    answer. *)
Lemma long_integer_answer_outcome :
  extract_data example_host (answering (List.repeat 57%N 4301))
    example_config (py "Invoice 17") (py "Extract the vendor.")
    (py "Doc: {document}") vendor_schema []
  = (Ok {| success := false;
           extracted_data := None;
           error := Some (py "Exceeds the limit (4300 digits) for integer string conversion: value has 4301 digits; use sys.set_int_max_str_digits() to increase the limit");
           raw_response := None;
           processing_time_seconds := total_seconds 3500000 1000000 |},
     [EvOpenAI
        (request example_config
           (py "Extract the vendor." ++
            schema_instruction example_host vendor_schema)
           (py "Doc: Invoice 17"))]).
Proof. vm_compute. reflexivity. Qed.

(** X18.  One call of [extract_data] calls the provider once at most, and
    only the provider the configuration names.  The call makes no request
    in two cases only: the prompt cannot be assembled, or it can and the
    provider is neither [openai] nor [anthropic].  In every other case it
    makes exactly one request, to [openai] or to [anthropic] as
    configured, whose system prompt is the caller's followed by the
    schema instruction, whose user prompt is the assembled prompt, and
    whose model, temperature and token limit are the configured ones.
    There is no second attempt, whatever the answer. *)
Theorem extraction_calls_the_provider_once (h : Host) (env : Env)
    (cfg : LLMConfig)
    (document_text system_prompt user_prompt_template : pystr)
    (json_schema : list (pystr * json)) (t : trace) :
  exists outcome new,
    extract_data h env cfg document_text system_prompt user_prompt_template
      json_schema t = (Ok outcome, t ++ new) /\
    ((exists e,
        assemble_prompt h user_prompt_template document_text t = (Raise e, t) /\
        new = []) \/
     (exists user_prompt,
        assemble_prompt h user_prompt_template document_text t
        = (Ok user_prompt, t) /\
        ((provider cfg = py "openai" /\
          new = [EvOpenAI
                   (request cfg
                      (system_prompt ++ schema_instruction h json_schema)
                      user_prompt)]) \/
         (provider cfg = py "anthropic" /\
          new = [EvAnthropic
                   (request cfg
                      (system_prompt ++ schema_instruction h json_schema)
                      user_prompt)]) \/
         (provider cfg <> py "openai" /\ provider cfg <> py "anthropic" /\
          new = [])))).
Proof.
  rewrite extract_data_unfold, extract_data_body_unfold.
  destruct (assemble_prompt h user_prompt_template document_text t)
    as [[user_prompt | e] t1] eqn:Ha.
  2: { assert (Ht : t1 = t).
       { rewrite assemble_prompt_unfold in Ha.
         destruct (str_format h user_prompt_template document_text);
           [inversion Ha |].
         destruct (catches [KeyError] e0); inversion Ha; reflexivity. }
       subst t1. eexists; exists []. rewrite app_nil_r.
       split; [reflexivity |]. left. exists e. split; reflexivity. }
  assert (Ht : t1 = t).
  { rewrite assemble_prompt_unfold in Ha.
    destruct (str_format h user_prompt_template document_text);
      [inversion Ha; reflexivity |].
    destruct (catches [KeyError] e); inversion Ha; reflexivity. }
  subst t1. unfold call_provider.
  destruct (pystr_eqb (provider cfg) (py "openai")) eqn:Eo.
  - apply pystr_eqb_true in Eo.
    unfold _call_openai, bind, call, ret, raise.
    set (req := request cfg (system_prompt ++ schema_instruction h json_schema)
                  user_prompt).
    destruct (env_openai env req) as [[| content choices] | e];
      [| destruct (parse_and_validate h content json_schema) as [data | e];
         [| destruct (catches [JSONDecodeError; ValidationError] e)] |];
      eexists; exists [EvOpenAI req]; (split; [reflexivity |]); right;
      exists user_prompt; (split; [reflexivity |]); left; split;
      solve [exact Eo | reflexivity].
  - destruct (pystr_eqb (provider cfg) (py "anthropic")) eqn:Ea.
    + apply pystr_eqb_true in Ea.
      unfold _call_anthropic, bind, call, ret, raise.
      set (req := request cfg (system_prompt ++ schema_instruction h json_schema)
                    user_prompt).
      destruct (env_anthropic env req) as [[| [text |] blocks] | e];
        [| destruct (parse_and_validate h (Some text) json_schema) as [data | e];
           [| destruct (catches [JSONDecodeError; ValidationError] e)] | |];
        eexists; exists [EvAnthropic req]; (split; [reflexivity |]); right;
        exists user_prompt; (split; [reflexivity |]); right; left; split;
        solve [exact Ea | reflexivity].
    + unfold raise. eexists; exists []. rewrite app_nil_r.
      split; [reflexivity |]. right. exists user_prompt.
      split; [reflexivity |]. right; right.
      split; [| split; [| reflexivity]]; intros E; rewrite E in *;
        discriminate.
Qed.


(** X19.  An answer of [openai] without text: a first choice whose
    [content] is [None] is handed on as it is, the cleaning of the answer
    raises the [AttributeError] of [None.strip], and the outcome is the
    plain failure with that text, after the one request. *)
Theorem answer_without_text_outcome (h : Host) (env : Env) (cfg : LLMConfig)
    (document_text system_prompt user_prompt_template : pystr)
    (json_schema : list (pystr * json)) (t : trace) (user_prompt : pystr)
    (others : list (option pystr)) :
  let req := request cfg (system_prompt ++ schema_instruction h json_schema)
               user_prompt in
  assemble_prompt h user_prompt_template document_text t = (Ok user_prompt, t) ->
  provider cfg = py "openai" ->
  env_openai env req = Ok (None :: others) ->
  extract_data h env cfg document_text system_prompt user_prompt_template
    json_schema t
  = (Ok {| success := false;
           extracted_data := None;
           error := Some (py "'NoneType' object has no attribute 'strip'");
           raw_response := None;
           processing_time_seconds :=
             total_seconds (env_utcnow_exit env) (env_utcnow_entry env) |},
     t ++ [EvOpenAI req]).
Proof.
  intros req Hp Hc Ha.
  rewrite extract_data_unfold, extract_data_body_unfold, Hp.
  unfold call_provider. rewrite Hc, pystr_eqb_refl.
  unfold _call_openai, bind, call, ret. fold req. rewrite Ha.
  reflexivity.
Qed.

Lemma answer_without_text_outcome_witness :
  extract_data example_host
    (example_env false unavailable unavailable (Ok [None]))
    example_config (py "Invoice 17") (py "Extract the vendor.")
    (py "Doc: {document}") vendor_schema []
  = (Ok {| success := false;
           extracted_data := None;
           error := Some (py "'NoneType' object has no attribute 'strip'");
           raw_response := None;
           processing_time_seconds := total_seconds 3500000 1000000 |},
     [] ++ [EvOpenAI
              (request example_config
                 (py "Extract the vendor." ++
                  schema_instruction example_host vendor_schema)
                 (py "Doc: Invoice 17"))]).
Proof.
  apply (answer_without_text_outcome example_host
           (example_env false unavailable unavailable (Ok [None]))
           example_config (py "Invoice 17") (py "Extract the vendor.")
           (py "Doc: {document}") vendor_schema []
           (py "Doc: Invoice 17") []);
    reflexivity.
Defined.

(** ** The cleaning of the answer only trims *)

Lemma lstrip_suffix (s : pystr) : exists a, s = a ++ lstrip s.
Proof.
  induction s as [| c r [a IH]]; [exists []; reflexivity |].
  cbn [lstrip]. destruct (py_isspace c).
  - exists (c :: a). cbn [app]. rewrite <- IH. reflexivity.
  - exists []. reflexivity.
Qed.

Lemma rstrip_prefix (s : pystr) : exists b, s = rstrip s ++ b.
Proof.
  unfold rstrip. destruct (lstrip_suffix (rev s)) as [a H].
  exists (rev a). rewrite <- rev_app_distr, <- H, rev_involutive. reflexivity.
Qed.

Lemma strip_inside (s : pystr) : exists a b, s = a ++ strip s ++ b.
Proof.
  unfold strip. destruct (lstrip_suffix s) as [a Ha].
  destruct (rstrip_prefix (lstrip s)) as [b Hb].
  exists a, b. rewrite <- Hb. exact Ha.
Qed.

Lemma inside_trans (s u v : pystr) :
  (exists a b, s = a ++ u ++ b) -> (exists a b, u = a ++ v ++ b) ->
  exists a b, s = a ++ v ++ b.
Proof.
  intros [a [b H1]] [c [d H2]]. exists (a ++ c), (d ++ b).
  subst. rewrite <- !app_assoc. reflexivity.
Qed.

(** X20.  The cleaning of the answer only trims: the cleaned text is one
    piece of the answer, with something cut off at the head and at the
    tail and nothing changed or removed inside. *)
Theorem cleaning_only_trims (response : pystr) :
  exists head tail, response = head ++ clean_text response ++ tail.
Proof.
  unfold clean_text.
  set (s0 := strip response).
  set (s1 := if startswith FENCE_JSON s0 then slice_from 7 s0 else s0).
  set (s2 := if startswith FENCE s1 then slice_from 3 s1 else s1).
  set (s3 := if endswith FENCE s2 then slice_drop_last 3 s2 else s2).
  assert (H0 : exists a b, response = a ++ s0 ++ b) by apply strip_inside.
  assert (H1 : exists a b, s0 = a ++ s1 ++ b).
  { unfold s1. destruct (startswith FENCE_JSON s0).
    - exists (firstn 7 s0), []. rewrite app_nil_r. unfold slice_from.
      symmetry. apply firstn_skipn.
    - exists [], []. rewrite app_nil_r. reflexivity. }
  assert (H2 : exists a b, s1 = a ++ s2 ++ b).
  { unfold s2. destruct (startswith FENCE s1).
    - exists (firstn 3 s1), []. rewrite app_nil_r. unfold slice_from.
      symmetry. apply firstn_skipn.
    - exists [], []. rewrite app_nil_r. reflexivity. }
  assert (H3 : exists a b, s2 = a ++ s3 ++ b).
  { unfold s3. destruct (endswith FENCE s2).
    - exists [], (skipn (List.length s2 - 3) s2). unfold slice_drop_last.
      symmetry. apply firstn_skipn.
    - exists [], []. rewrite app_nil_r. reflexivity. }
  assert (H4 : exists a b, s3 = a ++ strip s3 ++ b) by apply strip_inside.
  exact (inside_trans _ _ _ H0
           (inside_trans _ _ _ H1
              (inside_trans _ _ _ H2 (inside_trans _ _ _ H3 H4)))).
Qed.

(** ** The service object and the extraction endpoint *)

Lemma extract_text_returns (h : Host) (env : Env)
    (storage_path file_path : pystr) (t : trace) :
  exists text t', extract_text h env storage_path file_path t = (Ok text, t').
Proof.
  rewrite extract_text_unfold.
  destruct (extract_text_body h env storage_path file_path t) as [[text | e] t'];
    eexists; eexists; reflexivity.
Qed.

Lemma extract_data_returns (h : Host) (env : Env) (cfg : LLMConfig)
    (document_text system_prompt user_prompt_template : pystr)
    (json_schema : list (pystr * json)) (t : trace) :
  exists outcome t',
    extract_data h env cfg document_text system_prompt user_prompt_template
      json_schema t = (Ok outcome, t').
Proof.
  rewrite extract_data_unfold.
  destruct (extract_data_body _ _ _ _ _ _ _ _ _) as [[outcome | e] t'];
    eexists; eexists; reflexivity.
Qed.

(** X21.  A template whose preferred format is [text], in the part of
    the endpoint that ends with the call of [llm_service.extract_data]
    (storing the outcome and building the response come after it and are
    outside this statement).  In that part the endpoint raises no HTTP
    error and meets no fault: it always gets to the call of the service
    and always has an extraction outcome in hand after it.  The document
    text it passes is what [extract_text] gives for the file of the
    artifact, the empty string when the text cannot be extracted, so a
    document that cannot be read is still put before the model. *)
Theorem text_extraction_reaches_the_service (h : Host) (env : Env)
    (llm_service : LLMService) (artifact_file_path : pystr)
    (template : ProcessingTemplate) (conversion : result (option pystr))
    (t : trace) :
  preferred_format template = py "text" ->
  exists document_text t1 outcome t2,
    extract_text h env STORAGE_PATH artifact_file_path t
    = (Ok document_text, t1) /\
    extract_data h env (service_config llm_service) document_text
      (template_system_prompt template)
      (template_user_prompt_template template)
      (template_json_schema template) t1 = (Ok outcome, t2) /\
    extract_endpoint h env (Some llm_service) (Ok (Some artifact_file_path))
      (Ok (Some template)) conversion t = (Ok (inl outcome), t2).
Proof.
  intros Hf.
  destruct (extract_text_returns h env STORAGE_PATH artifact_file_path t)
    as [document_text [t1 Ht]].
  destruct (extract_data_returns h env (service_config llm_service)
              document_text (template_system_prompt template)
              (template_user_prompt_template template)
              (template_json_schema template) t1) as [outcome [t2 Hd]].
  exists document_text, t1, outcome, t2. split; [exact Ht |].
  split; [exact Hd |].
  unfold extract_endpoint, get_document_text, bind, lift, ret.
  rewrite Hf, pystr_eqb_refl. rewrite Ht. rewrite Hd. reflexivity.
Qed.

Lemma text_extraction_reaches_the_service_witness :
  exists document_text t1 outcome t2,
    extract_text example_host (bare_env (py "application/pdf")) STORAGE_PATH
      (py "/app/storage/uploads/invoice.pdf") [] = (Ok document_text, t1) /\
    extract_data example_host (bare_env (py "application/pdf")) example_config
      document_text (py "Extract the vendor.") (py "Doc: {document}")
      vendor_schema t1 = (Ok outcome, t2) /\
    extract_endpoint example_host (bare_env (py "application/pdf"))
      (Some example_service)
      (Ok (Some (py "/app/storage/uploads/invoice.pdf")))
      (Ok (Some (vendor_template (py "text"))))
      (Ok None) [] = (Ok (inl outcome), t2).
Proof.
  apply (text_extraction_reaches_the_service example_host
           (bare_env (py "application/pdf"))
           example_service
           (py "/app/storage/uploads/invoice.pdf")
           (vendor_template (py "text"))
           (Ok None) []).
  reflexivity.
Defined.

Lemma provider_calls_app (t l : trace) :
  List.filter is_provider_call (t ++ l)
  = List.filter is_provider_call t ++ List.filter is_provider_call l.
Proof. apply filter_app. Qed.

(** X22.  A template whose preferred format is neither [text] nor one of
    the four formats of the converter ([markdown], for one), for an
    artifact that has no stored conversion to that format: the endpoint
    answers with the HTTP error 500 whose detail begins with "Conversion
    failed: ", and the model provider is not called.  When the file of
    the artifact exists and the scratch directory can be made and
    removed, the detail is "Conversion failed: Unsupported output format:
    <format>". *)
Theorem unconvertible_preferred_format_fails (h : Host) (env : Env)
    (llm_service : LLMService) (artifact_file_path : pystr)
    (template : ProcessingTemplate) (t : trace) :
  preferred_format template <> py "text" ->
  ~ In (preferred_format template) supported_formats ->
  (exists cause t',
      extract_endpoint h env (Some llm_service) (Ok (Some artifact_file_path))
        (Ok (Some template)) (Ok None) t
      = (Ok (inr {| status_code := 500;
                    detail := py "Conversion failed: " ++ cause |}), t') /\
      List.filter is_provider_call t' = List.filter is_provider_call t) /\
  (forall temp_dir,
      env_exists env (host_path_str h artifact_file_path) = Ok true ->
      env_mkdtemp env = Ok temp_dir ->
      env_cleanup env temp_dir = Ok tt ->
      extract_endpoint h env (Some llm_service) (Ok (Some artifact_file_path))
        (Ok (Some template)) (Ok None) t
      = (Ok (inr {| status_code := 500;
                    detail := py "Conversion failed: " ++
                              py "Unsupported output format: " ++
                              preferred_format template |}),
         t ++ [EvExists (host_path_str h artifact_file_path); EvMkdtemp;
               EvCleanup temp_dir])).
Proof.
  intros Hn Hu.
  pose proof (convert_document_unsupported h env STORAGE_PATH
                artifact_file_path (preferred_format template) t Hu) as E.
  cbv zeta in E.
  assert (U : extract_endpoint h env (Some llm_service)
                (Ok (Some artifact_file_path)) (Ok (Some template)) (Ok None) t
              = match convert_document h env STORAGE_PATH artifact_file_path
                        (preferred_format template) t with
                | (Ok (ConvFailure error _), t') =>
                    (Ok (inr {| status_code := 500;
                                detail := py "Conversion failed: " ++ error |}),
                     t')
                | _ => extract_endpoint h env (Some llm_service)
                             (Ok (Some artifact_file_path)) (Ok (Some template))
                             (Ok None) t
                end).
  { unfold extract_endpoint, get_document_text, bind, lift, ret.
    rewrite (pystr_eqb_false _ _ Hn).
    destruct (convert_document h env STORAGE_PATH artifact_file_path
                (preferred_format template) t) as [[[o s f | error f] | e] t'];
      reflexivity. }
  rewrite U, E. clear U E. split.
  - destruct (env_exists env (host_path_str h artifact_file_path))
      as [[|] | e0].
    + destruct (env_mkdtemp env) as [temp_dir | e].
      * destruct (env_cleanup env temp_dir) as [[] | e];
          eexists; eexists; (split; [reflexivity |]);
          rewrite provider_calls_app; cbn; apply app_nil_r.
      * eexists; eexists; (split; [reflexivity |]).
        rewrite provider_calls_app; cbn; apply app_nil_r.
    + eexists; eexists; (split; [reflexivity |]).
      rewrite provider_calls_app; cbn; apply app_nil_r.
    + eexists; eexists; (split; [reflexivity |]).
      rewrite provider_calls_app; cbn; apply app_nil_r.
  - intros temp_dir Hx Hm Hc. rewrite Hx, Hm, Hc. reflexivity.
Qed.

Lemma unconvertible_preferred_format_fails_witness :
  extract_endpoint example_host
    (example_env true unavailable unavailable (Ok [Some vendor_text]))
    (Some example_service)
    (Ok (Some (py "/app/storage/uploads/invoice.pdf")))
    (Ok (Some (vendor_template (py "markdown"))))
    (Ok None) []
  = (Ok (inr {| status_code := 500;
                detail := py "Conversion failed: " ++
                          py "Unsupported output format: " ++ py "markdown" |}),
     [] ++ [EvExists (py "/app/storage/uploads/invoice.pdf"); EvMkdtemp;
            EvCleanup (py "/tmp/tmpk3x9")]).
Proof.
  refine (proj2 (unconvertible_preferred_format_fails example_host
                   (example_env true unavailable unavailable
                      (Ok [Some vendor_text]))
                   example_service
                   (py "/app/storage/uploads/invoice.pdf")
                   (vendor_template (py "markdown"))
                   [] _ _) (py "/tmp/tmpk3x9") _ _ _).
  - discriminate.
  - vm_compute. intuition discriminate.
  - reflexivity.
  - reflexivity.
  - reflexivity.
Defined.

(** X23.  [LLMService.__init__] makes a service for the providers
    [openai] and [anthropic] only, and raises [ValueError] for any other
    name.  Hence a service that has been constructed never takes the
    branch "Unsupported provider" of [extract_data]: whenever the prompt
    can be assembled, one call of [extract_data] makes exactly one
    request, to the provider the service was constructed for. *)
Theorem constructed_service_makes_one_request (h : Host) (env : Env)
    (sdk : Sdk) (config : LLMConfig)
    (document_text system_prompt user_prompt_template : pystr)
    (json_schema : list (pystr * json)) (t : trace) :
  (provider config <> py "openai" ->
   provider config <> py "anthropic" ->
   LLMService_init sdk config
   = Raise (Exn ValueError (py "Unsupported LLM provider: " ++ provider config))) /\
  (forall llm_service user_prompt,
      LLMService_init sdk config = Ok llm_service ->
      assemble_prompt h user_prompt_template document_text t
      = (Ok user_prompt, t) ->
      service_config llm_service = config /\
      exists outcome,
        (provider config = py "openai" /\
         extract_data h env (service_config llm_service) document_text
           system_prompt user_prompt_template json_schema t
         = (Ok outcome,
            t ++ [EvOpenAI
                    (request config
                       (system_prompt ++ schema_instruction h json_schema)
                       user_prompt)])) \/
        (provider config = py "anthropic" /\
         extract_data h env (service_config llm_service) document_text
           system_prompt user_prompt_template json_schema t
         = (Ok outcome,
            t ++ [EvAnthropic
                    (request config
                       (system_prompt ++ schema_instruction h json_schema)
                       user_prompt)]))).
Proof.
  split.
  - intros Ho Ha. unfold LLMService_init.
    rewrite (pystr_eqb_false _ _ Ho), (pystr_eqb_false _ _ Ha). reflexivity.
  - intros llm_service user_prompt Hi Hp.
    assert (Hc : service_config llm_service = config /\
                 (provider config = py "openai" \/
                  provider config = py "anthropic")).
    { unfold LLMService_init in Hi.
      destruct (pystr_eqb (provider config) (py "openai")) eqn:Eo.
      - apply pystr_eqb_true in Eo.
        destruct (openai_OpenAI sdk (api_key config)); inversion Hi. auto.
      - destruct (pystr_eqb (provider config) (py "anthropic")) eqn:Ea;
          [| discriminate Hi].
        apply pystr_eqb_true in Ea.
        destruct (anthropic_Anthropic sdk (api_key config)); inversion Hi. auto. }
    destruct Hc as [Hc Hprov]. split; [exact Hc |]. rewrite Hc.
    rewrite extract_data_unfold, extract_data_body_unfold, Hp.
    unfold call_provider.
    destruct Hprov as [Hprov | Hprov]; rewrite Hprov.
    + rewrite pystr_eqb_refl.
      unfold _call_openai, bind, call, ret, raise.
      destruct (env_openai env _) as [[| content choices] | e];
        [| destruct (parse_and_validate h content json_schema) as [data | e];
           [| destruct (catches [JSONDecodeError; ValidationError] e)] |];
        eexists; left; (split; [reflexivity |]); reflexivity.
    + change (pystr_eqb (py "anthropic") (py "openai")) with false.
      rewrite pystr_eqb_refl.
      unfold _call_anthropic, bind, call, ret, raise.
      destruct (env_anthropic env _) as [[| [text |] blocks] | e];
        [| destruct (parse_and_validate h (Some text) json_schema)
             as [data | e];
           [| destruct (catches [JSONDecodeError; ValidationError] e)] | |];
        eexists; right; (split; [reflexivity |]); reflexivity.
Qed.

Lemma constructed_service_makes_one_request_witness :
  (service_config example_service)
  = example_config /\
  exists outcome,
    (provider example_config = py "openai" /\
     extract_data example_host (answering vendor_text)
       (service_config example_service)
       (py "Invoice 17") (py "Extract the vendor.") (py "Doc: {document}")
       vendor_schema []
     = (Ok outcome,
        [] ++ [EvOpenAI
                 (request example_config
                    (py "Extract the vendor." ++
                     schema_instruction example_host vendor_schema)
                    (py "Doc: Invoice 17"))])) \/
    (provider example_config = py "anthropic" /\
     extract_data example_host (answering vendor_text)
       (service_config example_service)
       (py "Invoice 17") (py "Extract the vendor.") (py "Doc: {document}")
       vendor_schema []
     = (Ok outcome,
        [] ++ [EvAnthropic
                 (request example_config
                    (py "Extract the vendor." ++
                     schema_instruction example_host vendor_schema)
                    (py "Doc: Invoice 17"))])).
Proof.
  apply (proj2 (constructed_service_makes_one_request example_host
                  (answering vendor_text)
                  example_sdk
                  example_config (py "Invoice 17") (py "Extract the vendor.")
                  (py "Doc: {document}") vendor_schema [])
           example_service
           (py "Doc: Invoice 17")); reflexivity.
Defined.

(** ** Prose around the value *)

(** A text that [json.loads] accepts is a value between JSON whitespace,
    and the scanner reads the value the same way whatever follows it, as
    long as that does not make a number longer. *)
Lemma json_loads_local (h : Host) (j : pystr) (v : json) :
  json_loads h j = Ok v ->
  exists w body rest,
    j = w ++ body ++ rest /\
    forallb is_ws w = true /\ forallb is_ws rest = true /\
    starts_solid body /\ ends_solid body /\
    forall x, head_avoids number_char x ->
      scan_once (2 * List.length j + 1) (host_json_depth h)
        (host_int_max_str_digits h) (body ++ x) = Scanned v x.
Proof.
  unfold json_loads.
  destruct (startswith [BOM] j); [discriminate |].
  destruct (scan_once (2 * List.length j + 1) (host_json_depth h)
              (host_int_max_str_digits h) (skip_ws j))
    as [v' rest | f |] eqn:Hs; try discriminate.
  destruct (skip_ws rest) eqn:Hr; [| discriminate].
  intros H. inversion H; subst v'. clear H.
  destruct (proj1 (scan_local _) _ _ _ _ _ Hs) as [body [Eb [Sb [Fb L]]]].
  destruct (skip_ws_split j) as [w [Ej Hw]].
  exists w, body, rest.
  split; [rewrite <- Eb; exact Ej |].
  split; [exact Hw |].
  split; [apply skip_ws_nil; exact Hr |].
  split; [exact Sb |]. split; [exact Fb |]. exact L.
Qed.

(** The scanner gives the same result with any two bounds that are
    large enough for the text. *)
Lemma scan_once_any_fuel (n m d : nat) (maxd : N) (s : pystr) :
  (2 * List.length s < n)%nat -> (2 * List.length s < m)%nat ->
  scan_once n d maxd s = scan_once m d maxd s.
Proof.
  intros Hn Hm.
  pose proof (proj1 (scan_fuel_enough n) d maxd s Hn) as Fn.
  pose proof (proj1 (scan_fuel_enough m) d maxd s Hm) as Fm.
  destruct (Nat.le_ge_cases n m) as [H | H].
  - symmetry. apply (proj1 (scan_fuel_more n)); assumption.
  - apply (proj1 (scan_fuel_more m)); assumption.
Qed.

Lemma scan_once_bounded (n m d : nat) (maxd : N) (s : pystr) (v : json)
    (rest : pystr) :
  scan_once n d maxd s = Scanned v rest ->
  (2 * List.length s < m)%nat ->
  scan_once m d maxd s = Scanned v rest.
Proof.
  intros H Hm.
  destruct (Nat.le_ge_cases n m) as [Hle | Hge].
  - rewrite (proj1 (scan_fuel_more n) m d maxd s Hle); [exact H |].
    rewrite H. discriminate.
  - pose proof (proj1 (scan_fuel_enough m) d maxd s Hm) as Fm.
    rewrite <- (proj1 (scan_fuel_more m) n d maxd s Hge Fm). exact H.
Qed.

Lemma starts_solid_no_bom (s : pystr) :
  starts_solid s -> startswith [BOM] s = false.
Proof.
  intros [c [r [E Hc]]]. subst s. cbn [startswith].
  unfold token_char in Hc. rewrite !andb_true_iff, !negb_true_iff in Hc.
  destruct Hc as [_ Hc]. rewrite N.eqb_sym, Hc. reflexivity.
Qed.

Lemma starts_solid_skip_ws (s : pystr) : starts_solid s -> skip_ws s = s.
Proof.
  intros [c [r [E Hc]]]. subst s. apply skip_ws_solid.
  apply token_char_not_ws. exact Hc.
Qed.

(** Text after the value: [json.loads] refuses the whole ("Extra
    data"). *)
Lemma json_loads_extra_data (h : Host) (j : pystr) (v : json) (c : N)
    (extra : pystr) :
  json_loads h j = Ok v ->
  is_ws c = false -> number_char c = false ->
  exists body rest,
    strip (j ++ c :: extra) = strip (body ++ rest ++ c :: extra) /\
    starts_solid body /\
    forallb is_ws rest = true /\
    json_loads h (body ++ rest ++ c :: extra)
    = Raise (Exn JSONDecodeError
               (host_json_error_text h (body ++ rest ++ c :: extra))).
Proof.
  intros Hj Hc Hn.
  destruct (json_loads_local h j v Hj)
    as [w [body [rest [E [Hw [Hr [Sb [Fb L]]]]]]]].
  exists body, rest. split; [| split; [exact Sb | split; [exact Hr |]]].
  - rewrite E, <- !app_assoc. unfold strip.
    rewrite (lstrip_app w _ (forallb_ws_isspace _ Hw)). reflexivity.
  - unfold json_loads.
    rewrite (starts_solid_no_bom _ (starts_solid_app _ _ Sb)).
    rewrite (starts_solid_skip_ws _ (starts_solid_app _ _ Sb)).
    pose proof (L (rest ++ c :: extra) (head_avoids_after_ws _ _ _ Hr Hn)) as S.
    rewrite (scan_once_bounded _ (2 * List.length (body ++ rest ++ c :: extra) + 1)
               _ _ _ _ _ S) by lia.
    rewrite (skip_ws_to rest c extra Hr Hc). reflexivity.
Qed.

(** X24.  An answer that is a JSON value followed by prose is an invalid
    response, although the value is in it: when the answer is a text
    [json.loads] accepts followed by a text that begins with a character
    that is no JSON whitespace and cannot continue a number, and ends
    with a character that is no whitespace and no backquote, the outcome
    carries the words "Invalid JSON response" and the raw answer, and no
    data. *)
Theorem value_followed_by_prose_is_invalid (h : Host) (env : Env)
    (cfg : LLMConfig)
    (document_text system_prompt user_prompt_template : pystr)
    (json_schema : list (pystr * json)) (t t2 : trace)
    (user_prompt j : pystr) (v : json) (c : N) (extra : pystr) :
  assemble_prompt h user_prompt_template document_text t = (Ok user_prompt, t) ->
  call_provider env cfg (system_prompt ++ schema_instruction h json_schema)
    user_prompt t = (Ok (Some (j ++ c :: extra)), t2) ->
  json_loads h j = Ok v ->
  is_ws c = false -> number_char c = false ->
  ends_solid (c :: extra) ->
  extract_data h env cfg document_text system_prompt user_prompt_template
    json_schema t
  = (Ok {| success := false;
           extracted_data := None;
           error := Some (py "Invalid JSON response: " ++
                          host_json_error_text h (clean_text (j ++ c :: extra)));
           raw_response := Some (j ++ c :: extra);
           processing_time_seconds :=
             total_seconds (env_utcnow_exit env) (env_utcnow_entry env) |},
     t2).
Proof.
  intros Hp Hc Hj Hw Hn He.
  destruct (json_loads_extra_data h j v c extra Hj Hw Hn)
    as [body [rest [Es [Sb [Hr Hl]]]]].
  assert (Hs : strip (j ++ c :: extra) = body ++ rest ++ c :: extra).
  { rewrite Es. apply strip_solid.
    - apply starts_solid_app. exact Sb.
    - rewrite app_assoc. apply ends_solid_app. exact He. }
  assert (Hclean : clean_text (j ++ c :: extra) = body ++ rest ++ c :: extra).
  { rewrite <- Hs. apply clean_text_solid; rewrite Hs.
    - apply starts_solid_app. exact Sb.
    - rewrite app_assoc. apply ends_solid_app. exact He. }
  rewrite extract_data_unfold, extract_data_body_unfold, Hp, Hc.
  unfold parse_and_validate, clean_response, rbind.
  rewrite Hclean, Hl. reflexivity.
Qed.

Lemma value_followed_by_prose_is_invalid_witness :
  extract_data example_host
    (answering (vendor_text ++ 32%N :: py "Hope this helps!"))
    example_config (py "Invoice 17") (py "Extract the vendor.")
    (py "Doc: {document}") vendor_schema []
  = (Ok {| success := false;
           extracted_data := None;
           error := Some (py "Invalid JSON response: " ++
                          host_json_error_text example_host
                            (clean_text
                               ((vendor_text ++ [32%N]) ++ 72%N ::
                                py "ope this helps!")));
           raw_response := Some ((vendor_text ++ [32%N]) ++ 72%N ::
                                 py "ope this helps!");
           processing_time_seconds := total_seconds 3500000 1000000 |},
     [EvOpenAI
        (request example_config
           (py "Extract the vendor." ++
            schema_instruction example_host vendor_schema)
           (py "Doc: Invoice 17"))]).
Proof.
  apply (value_followed_by_prose_is_invalid example_host
           (answering (vendor_text ++ 32%N :: py "Hope this helps!"))
           example_config (py "Invoice 17") (py "Extract the vendor.")
           (py "Doc: {document}") vendor_schema [] _ (py "Doc: Invoice 17")
           (vendor_text ++ [32%N]) (JObj [(py "vendor", JStr (py "Acme"))])
           72%N (py "ope this helps!")).
  - reflexivity.
  - vm_compute. reflexivity.
  - vm_compute. reflexivity.
  - reflexivity.
  - reflexivity.
  - exists (py "Hope this helps"), 33%N. split; reflexivity.
Defined.

(** A text that begins with a character no value begins with:
    [json.loads] refuses it at its first character. *)
Lemma json_loads_no_value (h : Host) (c : N) (r : pystr) :
  py_isspace c = false -> begins_value c = false ->
  json_loads h (c :: r)
  = Raise (Exn JSONDecodeError (host_json_error_text h (c :: r))).
Proof.
  intros Hsp Hb. unfold json_loads.
  destruct (startswith [BOM] (c :: r)); [reflexivity |].
  assert (Hw : is_ws c = false).
  { destruct (is_ws c) eqn:E; [| reflexivity].
    apply is_ws_isspace in E. congruence. }
  rewrite (skip_ws_solid c r Hw).
  replace (2 * List.length (c :: r) + 1)%nat
    with (S (2 * List.length (c :: r))) by lia.
  rewrite scan_once_step.
  unfold begins_value in Hb.
  repeat (apply orb_false_elim in Hb; destruct Hb as [Hb ?]).
  match goal with E : is_digit c = false |- _ => rename E into Hd end.
  assert (E48 : (c =? 48)%N = false).
  { destruct (c =? 48)%N eqn:E; [| reflexivity].
    apply N.eqb_eq in E. subst c. discriminate Hd. }
  unfold scan_number, match_number, match_int.
  repeat match goal with E : (_ =? _)%N = false |- _ => rewrite E; clear E end.
  rewrite Hd. reflexivity.
Qed.

(** What the cleaning leaves of a text whose first character, once the
    text is stripped, is no backquote: the text still begins with that
    character.  No fence is found at the head, a fence at the tail is
    cut off behind it, and the second [strip] stops at it. *)
Lemma lstrip_head (s : pystr) (c : N) (r : pystr) :
  lstrip s = c :: r -> py_isspace c = false.
Proof.
  induction s as [| a s IH]; cbn [lstrip]; [discriminate |].
  destruct (py_isspace a) eqn:E; [exact IH |].
  intros H. inversion H; subst. exact E.
Qed.

Lemma strip_head (s : pystr) (c : N) (r : pystr) :
  strip s = c :: r -> py_isspace c = false.
Proof.
  unfold strip. intros H.
  destruct (rstrip_prefix (lstrip s)) as [b Hb].
  rewrite H in Hb. exact (lstrip_head _ _ _ Hb).
Qed.

Lemma lstrip_keeps_last (w : pystr) (c : N) :
  py_isspace c = false -> exists w', lstrip (w ++ [c]) = w' ++ [c].
Proof.
  intros H. induction w as [| a w IH]; cbn [app lstrip].
  - rewrite H. exists []. reflexivity.
  - destruct (py_isspace a); [exact IH | exists (a :: w); reflexivity].
Qed.

Lemma strip_keeps_head (c : N) (x : pystr) :
  py_isspace c = false -> exists x', strip (c :: x) = c :: x'.
Proof.
  intros H. unfold strip. rewrite (lstrip_solid c x H).
  unfold rstrip. cbn [rev].
  destruct (lstrip_keeps_last (rev x) c H) as [w' E].
  rewrite E, rev_app_distr. exists (rev w'). reflexivity.
Qed.

Lemma drop_fence_keeps_head (c : N) (r : pystr) :
  (c =? 96)%N = false -> endswith FENCE (c :: r) = true ->
  exists x, slice_drop_last 3 (c :: r) = c :: x.
Proof.
  intros Hc He. unfold endswith in He. apply startswith_split in He.
  apply (f_equal (@rev N)) in He.
  rewrite rev_involutive, rev_app_distr, rev_involutive in He.
  destruct (rev (skipn (List.length (rev FENCE)) (rev (c :: r))))
    as [| c' y].
  - inversion He; subst. discriminate Hc.
  - inversion He; subst. exists y.
    change (c' :: y ++ FENCE) with ((c' :: y) ++ FENCE).
    apply (slice_drop_last_app (c' :: y) FENCE).
Qed.

Lemma clean_text_keeps_head (response : pystr) (c : N) (r : pystr) :
  strip response = c :: r -> (c =? 96)%N = false ->
  exists r', clean_text response = c :: r'.
Proof.
  intros Hs Hc. pose proof (strip_head _ _ _ Hs) as Hsp.
  unfold clean_text. rewrite Hs.
  assert (F1 : startswith FENCE_JSON (c :: r) = false).
  { apply (startswith_cons_neq (py "``json")). rewrite N.eqb_sym. exact Hc. }
  assert (F2 : startswith FENCE (c :: r) = false).
  { apply (startswith_cons_neq (py "``")). rewrite N.eqb_sym. exact Hc. }
  rewrite F1, F2.
  destruct (endswith FENCE (c :: r)) eqn:He.
  - destruct (drop_fence_keeps_head c r Hc He) as [x Hx]. rewrite Hx.
    apply strip_keeps_head. exact Hsp.
  - apply strip_keeps_head. exact Hsp.
Qed.

(** X25.  An answer that begins with prose is an invalid response,
    although a value may follow, fenced or not: when the first character
    of the stripped answer cannot begin a JSON value and is no backquote,
    the outcome carries the words "Invalid JSON response", the text of
    the fault [json.loads] raises on the cleaned answer, and the raw
    answer; the code does not look for a value inside the answer. *)
Theorem answer_that_begins_with_prose_is_invalid (h : Host) (env : Env)
    (cfg : LLMConfig)
    (document_text system_prompt user_prompt_template : pystr)
    (json_schema : list (pystr * json)) (t t2 : trace)
    (user_prompt response : pystr) (c : N) (r : pystr) :
  assemble_prompt h user_prompt_template document_text t = (Ok user_prompt, t) ->
  call_provider env cfg (system_prompt ++ schema_instruction h json_schema)
    user_prompt t = (Ok (Some response), t2) ->
  strip response = c :: r ->
  (c =? 96)%N = false -> begins_value c = false ->
  extract_data h env cfg document_text system_prompt user_prompt_template
    json_schema t
  = (Ok {| success := false;
           extracted_data := None;
           error := Some (py "Invalid JSON response: " ++
                          host_json_error_text h (clean_text response));
           raw_response := Some response;
           processing_time_seconds :=
             total_seconds (env_utcnow_exit env) (env_utcnow_entry env) |},
     t2).
Proof.
  intros Hp Hc Hs Hq Hb.
  destruct (clean_text_keeps_head _ _ _ Hs Hq) as [r' Hclean].
  rewrite extract_data_unfold, extract_data_body_unfold, Hp, Hc.
  unfold parse_and_validate, clean_response, rbind.
  rewrite Hclean, (json_loads_no_value h c r' (strip_head _ _ _ Hs) Hb).
  reflexivity.
Qed.

Lemma answer_that_begins_with_prose_is_invalid_witness :
  extract_data example_host
    (answering (py "Here is the JSON:" ++ [10%N] ++
                fenced (py "json") vendor_text ++ [10%N]))
    example_config (py "Invoice 17") (py "Extract the vendor.")
    (py "Doc: {document}") vendor_schema []
  = (Ok {| success := false;
           extracted_data := None;
           error := Some (py "Invalid JSON response: " ++
                          host_json_error_text example_host
                            (clean_text
                               (py "Here is the JSON:" ++ [10%N] ++
                                fenced (py "json") vendor_text ++ [10%N])));
           raw_response := Some (py "Here is the JSON:" ++ [10%N] ++
                                 fenced (py "json") vendor_text ++ [10%N]);
           processing_time_seconds := total_seconds 3500000 1000000 |},
     [EvOpenAI
        (request example_config
           (py "Extract the vendor." ++
            schema_instruction example_host vendor_schema)
           (py "Doc: Invoice 17"))]).
Proof.
  apply (answer_that_begins_with_prose_is_invalid example_host
           (answering (py "Here is the JSON:" ++ [10%N] ++
                       fenced (py "json") vendor_text ++ [10%N]))
           example_config (py "Invoice 17") (py "Extract the vendor.")
           (py "Doc: {document}") vendor_schema [] _ (py "Doc: Invoice 17")
           (py "Here is the JSON:" ++ [10%N] ++
            fenced (py "json") vendor_text ++ [10%N])
           72%N (py "ere is the JSON:" ++ [10%N] ++
                 fenced (py "json") vendor_text)).
  - reflexivity.
  - vm_compute. reflexivity.
  - vm_compute. reflexivity.
  - reflexivity.
  - reflexivity.
Defined.
